(** * WiFi AutoLogin service worker: a shallow embedding and its properties

    The development follows [service_worker.js]: the helpers ([originOf],
    the page-side field heuristics, the keepalive test), the backoff
    arithmetic, then the asynchronous functions ([isInternetUp],
    [waitForTabLoaded], [detectFieldsInTab], [isKeepaliveTab],
    [openPortalTabAndSubmit], [checkAndLogin]) and the two listeners, written
    in a state-and-exception monad over the worker's module-level variables
    and a scripted browser.

    What is taken from the platform rather than modelled: the URL parser (a
    parameter of the worker), the answers of the [chrome.*] APIs and of
    [fetch] (scripted, any script), and the in-page result of the injection
    script (scripted per frame; its username heuristic is embedded in
    [Fields]).  Strings are byte strings, lower-cased as ASCII text is;
    numbers are integers; the clock moves while the worker sleeps and while
    a request without answer waits for the timer that aborts it; and the
    keys of the per-origin objects are taken not to collide with the
    properties every JavaScript object inherits. *)

From Stdlib Require Import ZArith List Ascii String Bool Lia.
From stdpp Require Import base decidable option list strings gmap.

Set Warnings "-clear-no-such-hyp".

Local Open Scope string_scope.
Local Open Scope list_scope.
Local Open Scope Z_scope.

(** ** JavaScript strings (modelled as byte strings) *)

Module JsString.

Definition isUpperAZ (c : ascii) : bool :=
  let n := N_of_ascii c in ((65 <=? n) && (n <=? 90))%N.

Definition isLowerAZ (c : ascii) : bool :=
  let n := N_of_ascii c in ((97 <=? n) && (n <=? 122))%N.

Definition charToLower (c : ascii) : ascii :=
  if isUpperAZ c then ascii_of_N (N_of_ascii c + 32) else c.

Definition charToUpper (c : ascii) : ascii :=
  if isLowerAZ c then ascii_of_N (N_of_ascii c - 32) else c.

(** [String.prototype.toLowerCase], for ASCII text: the letters [A]-[Z] are
    lower-cased and every other byte is left as it is.  JavaScript also
    lower-cases letters outside ASCII; what depends on the exact result is
    stated for ASCII strings. *)
Fixpoint toLowerCase (s : string) : string :=
  match s with
  | EmptyString => EmptyString
  | String c t => String (charToLower c) (toLowerCase t)
  end.

(** Character comparison of a regular expression: exact, or through the
    upper-case canonicalisation that the [i] flag applies to both sides. *)
Definition charEq (ignoreCase : bool) (p c : ascii) : bool :=
  if ignoreCase then Ascii.eqb (charToUpper p) (charToUpper c)
  else Ascii.eqb p c.

(** the literal [pat] matches at the start of [s] *)
Fixpoint matchAt (ignoreCase : bool) (pat s : string) : bool :=
  match pat, s with
  | EmptyString, _ => true
  | String _ _, EmptyString => false
  | String p pat', String c s' => charEq ignoreCase p c && matchAt ignoreCase pat' s'
  end.

(** the literal [pat] matches somewhere in [s] *)
Fixpoint search (ignoreCase : bool) (pat s : string) : bool :=
  matchAt ignoreCase pat s ||
  match s with
  | EmptyString => false
  | String _ s' => search ignoreCase pat s'
  end.

(** [/a|b|c/.test(s)] for a regular expression that is an alternation of
    literals, which is all the worker uses. *)
Definition regexTest (ignoreCase : bool) (alternatives : list string) (s : string) : bool :=
  existsb (fun pat => search ignoreCase pat s) alternatives.

(** the string holds ASCII characters only *)
Fixpoint isAscii (s : string) : bool :=
  match s with
  | EmptyString => true
  | String c t => (N_of_ascii c <? 128)%N && isAscii t
  end.

(** a literal without upper-case letters *)
Fixpoint lowerLiteral (s : string) : bool :=
  match s with
  | EmptyString => true
  | String c t => negb (isUpperAZ c) && lowerLiteral t
  end.

(** [String.prototype.includes] and [String.prototype.startsWith] *)
Definition includes (needle hay : string) : bool := search false needle hay.
Definition startsWith (pre s : string) : bool := matchAt false pre s.

(** [s || ''] for a possibly absent string *)
Definition orEmpty (s : option string) : string := default "" s.

(** truthiness of a possibly absent string *)
Definition truthy (s : option string) : bool :=
  match s with
  | Some s => negb (String.eqb s "")
  | None => false
  end.

(** what [new URL(v)] sees: its argument converted to a string *)
Definition toUSVString (v : option string) : string :=
  match v with
  | Some s => s
  | None => "undefined"
  end.

End JsString.
Import JsString.

(** ** Page-side heuristics: field detection and credential injection *)

(** An [<input>] element as the page scripts read it; an absent attribute
    reads as the empty string. *)
Record Input := {
  i_name : string;
  i_id : string;
  i_type : string;
  i_placeholder : string
}.

Module Fields.

(** [/user|login|email|username|id/] *)
Definition userPattern : list string :=
  ["user"; "login"; "email"; "username"; "id"].

Definition isPasswordInput (i : Input) : bool :=
  String.eqb (toLowerCase (i_type i)) "password".

(** [detectFieldsInTab], the callback of [inputs.some] that computes [hasUser] *)
Definition detectorLikelyUser (i : Input) : bool :=
  let meta := toLowerCase (i_name i +:+ " " +:+ i_id i +:+ " " +:+ i_placeholder i) in
  regexTest false userPattern meta
  || (String.eqb (i_type i) "text" || String.eqb (i_type i) "email").

Definition hasPass (inputs : list Input) : bool := existsb isPasswordInput inputs.
Definition hasUser (inputs : list Input) : bool := existsb detectorLikelyUser inputs.

(** the [found] flag one frame reports *)
Definition frameFound (inputs : list Input) : bool := hasPass inputs && hasUser inputs.

(** [tryFindAndSubmitInDocument], the callback of [inputs.find] that
    computes [userCandidate] *)
Definition injectorLikelyUser (i : Input) : bool :=
  let name := i_name i +:+ " " +:+ i_id i +:+ " " +:+ i_placeholder i in
  regexTest true userPattern name
  && (String.eqb (i_type i) "text" || String.eqb (i_type i) "email"
      || String.eqb (i_type i) "").

(** [Array.prototype.find] *)
Definition jsFind {A} (p : A -> bool) (l : list A) : option A := List.find p l.

Definition passCandidate (inputs : list Input) : option Input :=
  jsFind isPasswordInput inputs.

(** [userCandidate], with its last-resort default *)
Definition userCandidate (inputs : list Input) : option Input :=
  match jsFind injectorLikelyUser inputs with
  | Some i => Some i
  | None =>
      match inputs with
      | [] => None
      | first :: _ =>
          match jsFind (fun i => negb (isPasswordInput i)) inputs with
          | Some i => Some i
          | None => Some first
          end
      end
  end.

End Fields.

(** ** Backoff arithmetic of [checkAndLogin] *)

Module Backoff.

(** the [else] branch of [submitRes.ok]: "friendly policy" *)
Definition friendlyBackoff (backoffSeconds attempts : Z) : Z :=
  if backoffSeconds =? 0 then 2
  else if backoffSeconds <? 16 then Z.min (backoffSeconds * 2) 16
  else if attempts >=? 6 then 5
  else Z.min (backoffSeconds * 2) 60.

(** injection succeeded but connectivity was not restored *)
Definition stillDownBackoff (backoffSeconds : Z) : Z :=
  if backoffSeconds =? 0 then 2 else Z.min (backoffSeconds * 2) 16.

End Backoff.

(** ** Data of the worker and of the browser it talks to *)

(** The configuration the popup caches; [loginUrl] may be absent. *)
Record Config := {
  loginUrl : option string;
  userField : string;
  passField : string;
  username : string;
  password : string;
  extraFields : string
}.

(** A [chrome.tabs.Tab], as far as the worker reads it. *)
Record Tab := {
  tab_id : Z;
  tab_url : option string;
  tab_status : string
}.

(** How one [fetch] of the generate_204 endpoint ends: a response with its
    status, a rejection (network error), or no answer at all, in which case
    the request ends when its signal aborts it. *)
Inductive FetchOutcome :=
| FetchStatus (status : Z)
| FetchFailed
| FetchUnanswered.

(** A frame's document as the detection script sees it. *)
Record FrameDoc := {
  doc_url : string;
  doc_inputs : list Input
}.

(** What the detection script returns for one frame. *)
Record FrameScan := {
  scan_docUrl : string;
  scan_found : bool;
  scan_inputs : list Input
}.

Record DetectResult := {
  found : bool;
  frames : list FrameScan
}.

(** What the injection script returns for one frame:
    [{ perFrame: { ok, ... }, docUrl }]. *)
Record InjectFrame := {
  perFrame_ok : bool;
  inject_docUrl : string
}.

(** The result of [openPortalTabAndSubmit]. *)
Record SubmitRes := {
  ok : bool;
  error : string;
  usedTabId : option Z
}.

Inductive Notice :=
| NoticeLocked
| NoticeSucceeded.

(** Effects of a run, newest first.  [EvOrchestrator] and [EvKeepalive]
    mark two control points of the source, the entry of
    [openPortalTabAndSubmit] and the keepalive short-circuit of
    [checkAndLogin] (both are [log] lines there).  [EvTabsRemove] records
    whether the closed identifier was in [createdTabIds] when
    [chrome.tabs.remove] was called. *)
Inductive Event :=
| EvSleep (ms : Z)
| EvFetch
| EvNotify (n : Notice)
| EvTabsQuery
| EvTabsGet (id : Z)
| EvTabsCreate (url : string) (created : option Z)
| EvTabsUpdate (id : Z) (url : option string)
| EvTabsReload (id : Z)
| EvTabsRemove (id : Z) (registered : bool)
| EvDetectScript (id : Z)
| EvKeepaliveScript (id : Z)
| EvInjectScript (id : Z)
| EvStorageRemove
| EvOrchestrator (origin : string)
| EvKeepalive (origin : string).

(** The module-level variables of the worker. *)
Record Globals := {
  cachedConfig : option Config;
  clearTimerId : option Z;
  backoffSeconds : Z;
  probeTabId : option Z;
  lastProbeTime : Z;
  failedAttemptsByOrigin : gmap string Z;
  lastSuccessNotifiedAt : gmap string Z;
  createdTabIds : gset Z;
  inFlightOrigins : gset string
}.

(** The browser, scripted: every stream lists the outcomes of the successive
    calls of one API, in call order.  [None] is a rejected promise.  A call
    made after its stream is exhausted gets the default written in the
    primitive below. *)
Record Browser := {
  fetches : list FetchOutcome;
  queries : list (option (list Tab));
  gets : list (option (option Tab));
  creates : list (option Tab);
  acks : list bool;
  detects : list (option (list (option FrameDoc)));
  keepalives : list (option (option string));
  injects : list (option (list (option InjectFrame)));
  now : Z
}.

Record World := {
  js : Globals;
  env : Browser;
  trace : list Event
}.

Definition initialGlobals : Globals :=
  {| cachedConfig := None; clearTimerId := None; backoffSeconds := 0;
     probeTabId := None; lastProbeTime := 0;
     failedAttemptsByOrigin := ∅; lastSuccessNotifiedAt := ∅;
     createdTabIds := ∅; inFlightOrigins := ∅ |}.

(** *** Assignments to the module-level variables *)

Definition set_cachedConfig (v : option Config) (g : Globals) : Globals :=
  {| cachedConfig := v; clearTimerId := clearTimerId g; backoffSeconds := backoffSeconds g;
     probeTabId := probeTabId g; lastProbeTime := lastProbeTime g;
     failedAttemptsByOrigin := failedAttemptsByOrigin g;
     lastSuccessNotifiedAt := lastSuccessNotifiedAt g;
     createdTabIds := createdTabIds g; inFlightOrigins := inFlightOrigins g |}.

Definition set_clearTimerId (v : option Z) (g : Globals) : Globals :=
  {| cachedConfig := cachedConfig g; clearTimerId := v; backoffSeconds := backoffSeconds g;
     probeTabId := probeTabId g; lastProbeTime := lastProbeTime g;
     failedAttemptsByOrigin := failedAttemptsByOrigin g;
     lastSuccessNotifiedAt := lastSuccessNotifiedAt g;
     createdTabIds := createdTabIds g; inFlightOrigins := inFlightOrigins g |}.

Definition set_backoffSeconds (v : Z) (g : Globals) : Globals :=
  {| cachedConfig := cachedConfig g; clearTimerId := clearTimerId g; backoffSeconds := v;
     probeTabId := probeTabId g; lastProbeTime := lastProbeTime g;
     failedAttemptsByOrigin := failedAttemptsByOrigin g;
     lastSuccessNotifiedAt := lastSuccessNotifiedAt g;
     createdTabIds := createdTabIds g; inFlightOrigins := inFlightOrigins g |}.

Definition set_probeTabId (v : option Z) (g : Globals) : Globals :=
  {| cachedConfig := cachedConfig g; clearTimerId := clearTimerId g;
     backoffSeconds := backoffSeconds g;
     probeTabId := v; lastProbeTime := lastProbeTime g;
     failedAttemptsByOrigin := failedAttemptsByOrigin g;
     lastSuccessNotifiedAt := lastSuccessNotifiedAt g;
     createdTabIds := createdTabIds g; inFlightOrigins := inFlightOrigins g |}.

Definition set_lastProbeTime (v : Z) (g : Globals) : Globals :=
  {| cachedConfig := cachedConfig g; clearTimerId := clearTimerId g;
     backoffSeconds := backoffSeconds g;
     probeTabId := probeTabId g; lastProbeTime := v;
     failedAttemptsByOrigin := failedAttemptsByOrigin g;
     lastSuccessNotifiedAt := lastSuccessNotifiedAt g;
     createdTabIds := createdTabIds g; inFlightOrigins := inFlightOrigins g |}.

Definition set_failedAttemptsByOrigin (v : gmap string Z) (g : Globals) : Globals :=
  {| cachedConfig := cachedConfig g; clearTimerId := clearTimerId g;
     backoffSeconds := backoffSeconds g;
     probeTabId := probeTabId g; lastProbeTime := lastProbeTime g;
     failedAttemptsByOrigin := v;
     lastSuccessNotifiedAt := lastSuccessNotifiedAt g;
     createdTabIds := createdTabIds g; inFlightOrigins := inFlightOrigins g |}.

Definition set_lastSuccessNotifiedAt (v : gmap string Z) (g : Globals) : Globals :=
  {| cachedConfig := cachedConfig g; clearTimerId := clearTimerId g;
     backoffSeconds := backoffSeconds g;
     probeTabId := probeTabId g; lastProbeTime := lastProbeTime g;
     failedAttemptsByOrigin := failedAttemptsByOrigin g;
     lastSuccessNotifiedAt := v;
     createdTabIds := createdTabIds g; inFlightOrigins := inFlightOrigins g |}.

Definition set_createdTabIds (v : gset Z) (g : Globals) : Globals :=
  {| cachedConfig := cachedConfig g; clearTimerId := clearTimerId g;
     backoffSeconds := backoffSeconds g;
     probeTabId := probeTabId g; lastProbeTime := lastProbeTime g;
     failedAttemptsByOrigin := failedAttemptsByOrigin g;
     lastSuccessNotifiedAt := lastSuccessNotifiedAt g;
     createdTabIds := v; inFlightOrigins := inFlightOrigins g |}.

Definition set_inFlightOrigins (v : gset string) (g : Globals) : Globals :=
  {| cachedConfig := cachedConfig g; clearTimerId := clearTimerId g;
     backoffSeconds := backoffSeconds g;
     probeTabId := probeTabId g; lastProbeTime := lastProbeTime g;
     failedAttemptsByOrigin := failedAttemptsByOrigin g;
     lastSuccessNotifiedAt := lastSuccessNotifiedAt g;
     createdTabIds := createdTabIds g; inFlightOrigins := v |}.

(** *** The browser after a call has consumed its scripted outcome *)

Definition with_fetches (v : list FetchOutcome) (b : Browser) : Browser :=
  {| fetches := v; queries := queries b; gets := gets b; creates := creates b;
     acks := acks b; detects := detects b; keepalives := keepalives b;
     injects := injects b; now := now b |}.

Definition with_queries (v : list (option (list Tab))) (b : Browser) : Browser :=
  {| fetches := fetches b; queries := v; gets := gets b; creates := creates b;
     acks := acks b; detects := detects b; keepalives := keepalives b;
     injects := injects b; now := now b |}.

Definition with_gets (v : list (option (option Tab))) (b : Browser) : Browser :=
  {| fetches := fetches b; queries := queries b; gets := v; creates := creates b;
     acks := acks b; detects := detects b; keepalives := keepalives b;
     injects := injects b; now := now b |}.

Definition with_creates (v : list (option Tab)) (b : Browser) : Browser :=
  {| fetches := fetches b; queries := queries b; gets := gets b; creates := v;
     acks := acks b; detects := detects b; keepalives := keepalives b;
     injects := injects b; now := now b |}.

Definition with_acks (v : list bool) (b : Browser) : Browser :=
  {| fetches := fetches b; queries := queries b; gets := gets b; creates := creates b;
     acks := v; detects := detects b; keepalives := keepalives b;
     injects := injects b; now := now b |}.

Definition with_detects (v : list (option (list (option FrameDoc)))) (b : Browser) : Browser :=
  {| fetches := fetches b; queries := queries b; gets := gets b; creates := creates b;
     acks := acks b; detects := v; keepalives := keepalives b;
     injects := injects b; now := now b |}.

Definition with_keepalives (v : list (option (option string))) (b : Browser) : Browser :=
  {| fetches := fetches b; queries := queries b; gets := gets b; creates := creates b;
     acks := acks b; detects := detects b; keepalives := v;
     injects := injects b; now := now b |}.

Definition with_injects (v : list (option (list (option InjectFrame)))) (b : Browser) : Browser :=
  {| fetches := fetches b; queries := queries b; gets := gets b; creates := creates b;
     acks := acks b; detects := detects b; keepalives := keepalives b;
     injects := v; now := now b |}.

Definition with_now (v : Z) (b : Browser) : Browser :=
  {| fetches := fetches b; queries := queries b; gets := gets b; creates := creates b;
     acks := acks b; detects := detects b; keepalives := keepalives b;
     injects := injects b; now := v |}.

(** ** The monad of the asynchronous functions

    An [async] function becomes a world transformer that either returns a
    value or throws.  Calls run to completion one after the other; what other
    calls may have left behind (an origin still in flight, say) is part of the
    world a call starts from. *)

Inductive Outcome (A : Type) :=
| Ret (a : A)
| Throw (e : string).
Arguments Ret {A} a.
Arguments Throw {A} e.

Definition M (A : Type) : Type := World -> Outcome A * World.

#[global] Instance M_ret : MRet M := fun A a w => (Ret a, w).

#[global] Instance M_bind : MBind M := fun A B f m w =>
  match m w with
  | (Ret a, w') => f a w'
  | (Throw e, w') => (Throw e, w')
  end.

Definition throw {A} (e : string) : M A := fun w => (Throw e, w).

(** [try { m } catch (e) { h e }] *)
Definition try_catch {A} (m : M A) (h : string -> M A) : M A := fun w =>
  match m w with
  | (Ret a, w') => (Ret a, w')
  | (Throw e, w') => h e w'
  end.

(** [try { m } finally { fin }] *)
Definition try_finally {A} (m : M A) (fin : M unit) : M A := fun w =>
  match m w with
  | (r, w') =>
      match fin w' with
      | (Ret _, w'') => (r, w'')
      | (Throw e, w'') => (Throw e, w'')
      end
  end.

Definition getJs {A} (f : Globals -> A) : M A := fun w => (Ret (f (js w)), w).

Definition modifyJs (f : Globals -> Globals) : M unit := fun w =>
  (Ret tt, {| js := f (js w); env := env w; trace := trace w |}).

Definition emit (e : Event) : M unit := fun w =>
  (Ret tt, {| js := js w; env := env w; trace := e :: trace w |}).

(** a browser call: the environment moves on and the call is recorded *)
Definition called (b : Browser) (e : Event) (w : World) : World :=
  {| js := js w; env := b; trace := e :: trace w |}.

(** *** Timers and the clock: time passes while the worker sleeps, and while
    a request waits for the timer that aborts it *)

Definition dateNow : M Z := fun w => (Ret (now (env w)), w).

Definition sleep (ms : Z) : M unit := fun w =>
  (Ret tt, called (with_now (now (env w) + ms) (env w)) (EvSleep ms) w).

(** *** The browser APIs *)

(** [fetch(url, { ..., signal })] with a signal that a timer aborts
    [abortAfter] ms after the request was made ([setTimeout] takes a negative
    delay as 0).  The call resolves with the response status or rejects; a
    request that gets no answer lasts until the timer fires and then rejects
    with the abort.  Offline once the script is exhausted. *)
Definition fetch (abortAfter : Z) : M Z := fun w =>
  let b := with_fetches (tl (fetches (env w))) (env w) in
  match fetches (env w) with
  | FetchStatus s :: _ => (Ret s, called b EvFetch w)
  | FetchUnanswered :: _ =>
      (Throw "AbortError: signal is aborted without reason",
       called (with_now (now (env w) + Z.max 0 abortAfter) b) EvFetch w)
  | _ => (Throw "TypeError: Failed to fetch", called b EvFetch w)
  end.

(** [chrome.tabs.query({})]; no tabs once the script is exhausted. *)
Definition tabsQuery : M (list Tab) := fun w =>
  let b := with_queries (tl (queries (env w))) (env w) in
  match queries (env w) with
  | Some tabs :: _ => (Ret tabs, called b EvTabsQuery w)
  | None :: _ => (Throw "Error: tabs.query", called b EvTabsQuery w)
  | [] => (Ret [], called b EvTabsQuery w)
  end.

(** [chrome.tabs.get(id)]; rejects once the script is exhausted. *)
Definition tabsGet (id : Z) : M (option Tab) := fun w =>
  let b := with_gets (tl (gets (env w))) (env w) in
  match gets (env w) with
  | Some t :: _ => (Ret t, called b (EvTabsGet id) w)
  | _ => (Throw "Error: No tab with id", called b (EvTabsGet id) w)
  end.

(** [chrome.tabs.create({ url, active: false })]; rejects once the script is
    exhausted. *)
Definition tabsCreate (url : string) : M Tab := fun w =>
  let b := with_creates (tl (creates (env w))) (env w) in
  match creates (env w) with
  | Some t :: _ => (Ret t, called b (EvTabsCreate url (Some (tab_id t))) w)
  | _ => (Throw "Error: tabs.create", called b (EvTabsCreate url None) w)
  end.

(** the outcome of a call that resolves with nothing of interest
    ([tabs.update], [tabs.reload], [tabs.remove]); succeeds once the script is
    exhausted. *)
Definition acknowledged (e : Event) (what : string) : M unit := fun w =>
  let b := with_acks (tl (acks (env w))) (env w) in
  match acks (env w) with
  | false :: _ => (Throw what, called b e w)
  | _ => (Ret tt, called b e w)
  end.

(** [chrome.tabs.update(id, { url, active: false })] *)
Definition tabsUpdate (id : Z) (url : option string) : M unit :=
  acknowledged (EvTabsUpdate id url) "Error: tabs.update".

(** [chrome.tabs.reload(id)] *)
Definition tabsReload (id : Z) : M unit :=
  acknowledged (EvTabsReload id) "Error: tabs.reload".

(** [chrome.tabs.remove(id)] *)
Definition tabsRemove (id : Z) : M unit := fun w =>
  acknowledged (EvTabsRemove id (bool_decide (id ∈ createdTabIds (js w))))
    "Error: tabs.remove" w.

(** [chrome.scripting.executeScript] with the detection function: one
    document per frame ([None]: no result for that frame). *)
Definition executeDetectScript (id : Z) : M (list (option FrameDoc)) := fun w =>
  let b := with_detects (tl (detects (env w))) (env w) in
  match detects (env w) with
  | Some docs :: _ => (Ret docs, called b (EvDetectScript id) w)
  | _ => (Throw "Error: executeScript", called b (EvDetectScript id) w)
  end.

(** [chrome.scripting.executeScript] with the keepalive function: the
    [innerText] of the top frame's body ([None]: no result). *)
Definition executeKeepaliveScript (id : Z) : M (option string) := fun w =>
  let b := with_keepalives (tl (keepalives (env w))) (env w) in
  match keepalives (env w) with
  | Some text :: _ => (Ret text, called b (EvKeepaliveScript id) w)
  | _ => (Throw "Error: executeScript", called b (EvKeepaliveScript id) w)
  end.

(** [chrome.scripting.executeScript] with the injection function: what
    [tryFindAndSubmitInDocument] reported in each frame. *)
Definition executeInjectScript (id : Z) : M (list (option InjectFrame)) := fun w =>
  let b := with_injects (tl (injects (env w))) (env w) in
  match injects (env w) with
  | Some rs :: _ => (Ret rs, called b (EvInjectScript id) w)
  | _ => (Throw "Error: executeScript", called b (EvInjectScript id) w)
  end.

(** [chrome.notifications.create]; the call is not awaited, so nothing it
    does later reaches the caller *)
Definition notify (n : Notice) : M unit := emit (EvNotify n).

(** ** Constants of the worker *)

Definition PROBE_COOLDOWN_MS : Z := 15 * 1000.
Definition PROBE_URL : string := "http://neverssl.com/".
Definition MAX_FIELD_CHECK_TRIES : nat := 3.
Definition FIELD_CHECK_INTERVAL_MS : Z := 1200.
Definition RELOAD_ON_FIRST_FAIL : bool := true.
Definition NOTIFY_SUCCESS_COOLDOWN_MS : Z := 3 * 60 * 1000.

(** ** Vocabulary of the properties *)

(** [m] relates every world to the world it leaves, whether it returns or
    throws. *)
Definition keeps {A} (R : relation World) (m : M A) : Prop :=
  forall w, R w (m w).2.

(** [R] tolerates the effect [e], whatever the browser does meanwhile *)
Definition absorbs (R : relation World) (e : Event) : Prop :=
  forall w b, R w (called b e w).

(** [R] tolerates the assignment [f] *)
Definition admits (R : relation World) (f : Globals -> Globals) : Prop :=
  forall w, R w {| js := f (js w); env := env w; trace := trace w |}.

(** A footprint: what may happen to the module-level variables, and which
    effects may be added to the trace. *)
Definition Foot (okJs : relation Globals) (okEv : Event -> Prop) : relation World :=
  fun w w' =>
    okJs (js w) (js w') /\
    exists l, trace w' = l ++ trace w /\ Forall okEv l.

(** effects of the functions that only look at the network and at tabs *)
Definition passive (e : Event) : Prop :=
  match e with
  | EvSleep _ | EvFetch | EvTabsGet _
  | EvDetectScript _ | EvKeepaliveScript _ => True
  | _ => False
  end.

Definition Observes : relation World := Foot eq passive.

(** effects of a connectivity probe and of the backoff wait *)
Definition probing (e : Event) : Prop :=
  match e with
  | EvSleep _ | EvFetch => True
  | _ => False
  end.

Definition Probes : relation World := Foot eq probing.

(** what [openPortalTabAndSubmit] may assign: [probeTabId], [lastProbeTime]
    and [createdTabIds], nothing else *)
Definition orchestratorJs : relation Globals := fun g g' =>
  cachedConfig g' = cachedConfig g /\
  clearTimerId g' = clearTimerId g /\
  backoffSeconds g' = backoffSeconds g /\
  failedAttemptsByOrigin g' = failedAttemptsByOrigin g /\
  lastSuccessNotifiedAt g' = lastSuccessNotifiedAt g /\
  inFlightOrigins g' = inFlightOrigins g.

Definition orchestratorEv (e : Event) : Prop :=
  match e with
  | EvNotify _ | EvTabsRemove _ _ | EvStorageRemove | EvKeepalive _ => False
  | _ => True
  end.

(** what an attempt for the origin [key] may assign: the configuration stays,
    and so does the bookkeeping of every other origin *)
Definition schedulerJs (key : string) : relation Globals := fun g g' =>
  cachedConfig g' = cachedConfig g /\
  forall k, k <> key ->
    failedAttemptsByOrigin g' !! k = failedAttemptsByOrigin g !! k /\
    (k ∈ inFlightOrigins g' <-> k ∈ inFlightOrigins g).

Definition notKeepaliveNorOrchestrator (e : Event) : Prop :=
  match e with
  | EvKeepalive _ | EvOrchestrator _ => False
  | _ => True
  end.

Definition notKeepalive (e : Event) : Prop :=
  match e with
  | EvKeepalive _ => False
  | _ => True
  end.

(** effects of the scheduler before it reaches [openPortalTabAndSubmit]:
    probes, sleeps, and the look at the open tabs for a keepalive page *)
Definition calm (e : Event) : Prop :=
  match e with
  | EvSleep _ | EvFetch | EvTabsQuery | EvKeepaliveScript _ => True
  | _ => False
  end.

Definition anyEvent (e : Event) : Prop := True.
Definition anyJs : relation Globals := fun _ _ => True.

(** no tab was opened, changed, closed or scripted *)
Definition leavesTabsAlone (e : Event) : Prop :=
  match e with
  | EvTabsCreate _ _ | EvTabsUpdate _ _ | EvTabsReload _ | EvTabsRemove _ _
  | EvDetectScript _ | EvInjectScript _ => False
  | _ => True
  end.

(** What a forced call comes to while the connectivity probe answers 204:
    it took the keepalive short-circuit, or it went through
    [openPortalTabAndSubmit], left every tab alone, reset the failure counter
    of [key] and returned [true]. *)
Definition forcedWhileUp (key : string) (failedAttempts : Globals -> Z)
    (w : World) (r : Outcome bool * World) : Prop :=
  (exists k l, trace r.2 = l ++ trace w /\ EvKeepalive k ∈ l)
  \/
  (r.1 = Ret true /\
   failedAttempts (js r.2) = 0 /\
   exists l, trace r.2 = l ++ trace w /\
             Forall leavesTabsAlone l /\
             exists origin, EvOrchestrator origin ∈ l).

(** effects of the branch of [checkAndLogin] that finds the internet up
    after a failed [openPortalTabAndSubmit] *)
Definition recovering (e : Event) : Prop :=
  match e with
  | EvSleep _ | EvFetch | EvNotify NoticeSucceeded => True
  | _ => False
  end.

(** [id] was returned by a [chrome.tabs.create] of the worker *)
Definition engineCreated (tr : list Event) (id : Z) : Prop :=
  exists url, EvTabsCreate url (Some id) ∈ tr.

(** The registry invariant: [createdTabIds] holds only identifiers of tabs
    the worker created, and every tab the worker closed was in
    [createdTabIds] when it was closed, hence one it had created. *)
Definition RegistryInv (w : World) : Prop :=
  (forall id, id ∈ createdTabIds (js w) -> engineCreated (trace w) id) /\
  (forall id b, EvTabsRemove id b ∈ trace w -> b = true /\ engineCreated (trace w) id).

(** the invariant, together with identifiers known to be engine-created *)
Definition RegistryInvWith (known : gset Z) (w : World) : Prop :=
  RegistryInv w /\ forall id, id ∈ known -> engineCreated (trace w) id.

Definition KeepsRegistry (known : gset Z) : relation World :=
  fun w w' => RegistryInvWith known w -> RegistryInvWith known w'.

(** ** Sample data for the concrete runs *)

(** the text of a URL up to the end of its authority *)
Fixpoint untilPath (s : string) : string :=
  match s with
  | EmptyString => EmptyString
  | String c t =>
      if Ascii.eqb c "/" || Ascii.eqb c "?" || Ascii.eqb c "#" then EmptyString
      else String c (untilPath t)
  end.

(** An origin function for the concrete runs: [scheme://authority] for an
    [http] or [https] URL written in lower case with an explicit authority,
    and a parse failure for anything else. *)
Definition http_origin (s : string) : option string :=
  if startsWith "http://" s then
    let host := untilPath (String.substring 7 (String.length s - 7) s) in
    if String.eqb host "" then None else Some ("http://" +:+ host)
  else if startsWith "https://" s then
    let host := untilPath (String.substring 8 (String.length s - 8) s) in
    if String.eqb host "" then None else Some ("https://" +:+ host)
  else None.

Definition portalUrl : string := "http://172.16.2.1:1000".
Definition otherUrl : string := "http://10.0.0.1:8080".

Definition sampleConfig (url : string) : Config :=
  {| loginUrl := Some url; userField := "username"; passField := "password";
     username := "alice"; password := "secret"; extraFields := "" |}.

(** a browser with nothing scripted: offline, no tabs *)
Definition quietBrowser : Browser :=
  {| fetches := []; queries := []; gets := []; creates := []; acks := [];
     detects := []; keepalives := []; injects := []; now := 1700000000000 |}.

Definition worldOf (g : Globals) (b : Browser) : World :=
  {| js := g; env := b; trace := [] |}.

(** the worker right after the popup saved a configuration *)
Definition configured (url : string) : Globals :=
  set_cachedConfig (Some (sampleConfig url)) initialGlobals.

Definition tabAt (id : Z) (url : string) : Tab :=
  {| tab_id := id; tab_url := Some url; tab_status := "complete" |}.

Definition emptyPage (url : string) : option (list (option FrameDoc)) :=
  Some [Some {| doc_url := url; doc_inputs := [] |}].

(** A portal that answers every probe with its own page (status 200), shows
    a page without a login form in the tab the worker opens, and lets the
    probe through on the ninth request. *)
Definition recoveringBrowser : Browser :=
  with_fetches (repeat (FetchStatus 200) 8 ++ [FetchStatus 204])
    (with_creates [Some (tabAt 7 PROBE_URL)]
       (with_gets (repeat (Some (Some (tabAt 7 "http://172.16.2.1:1000/"))) 4)
          (with_detects (repeat (emptyPage "http://172.16.2.1:1000/") 4) quietBrowser))).

(** the worker with a configuration and a backoff left by earlier failures *)
Definition backedOff (url : string) (backoff : Z) : Globals :=
  set_backoffSeconds backoff (configured url).

(** the backoff after each of [n] successive runs *)
Fixpoint backoffsAfter (run : World -> World) (n : nat) (w : World) : list Z :=
  match n with
  | O => []
  | S n' => let w' := run w in backoffSeconds (js w') :: backoffsAfter run n' w'
  end.

(** the probe answers 204 *)
Definition onlineBrowser : Browser :=
  with_fetches [FetchStatus 204; FetchStatus 204] quietBrowser.

(** offline; of the two open tabs the second is at the portal origin, and
    its page says that the session is kept alive *)
Definition keepaliveTextBrowser : Browser :=
  with_queries [Some [tabAt 2 "http://example.org/"; tabAt 3 "http://172.16.2.1:1000/status"]]
    (with_keepalives [Some (Some "Authentication Keep-Alive: your session is refreshed")]
       quietBrowser).

(** [chrome.tabs.query] rejects inside [openPortalTabAndSubmit] *)
Definition brokenBrowser : Browser :=
  with_queries [Some []; None] quietBrowser.

Definition loginPage (url : string) : option (list (option FrameDoc)) :=
  Some [Some {| doc_url := url;
                doc_inputs :=
                  [ {| i_name := "username"; i_id := ""; i_type := "text"; i_placeholder := "" |};
                    {| i_name := "password"; i_id := ""; i_type := "password";
                       i_placeholder := "" |} ] |}].

(** The probe tab the worker opens is redirected to the portal, whose login
    form takes the credentials; after that the probe answers 204. *)
Definition portalBrowser : Browser :=
  with_fetches [FetchStatus 200; FetchStatus 200; FetchStatus 204]
    (with_queries [Some []; Some []; Some [tabAt 7 "http://172.16.2.1:1000/login"]]
       (with_creates [Some (tabAt 7 PROBE_URL)]
          (with_gets [Some (Some (tabAt 7 "http://172.16.2.1:1000/login"))]
             (with_detects [loginPage "http://172.16.2.1:1000/login"]
                (with_injects
                   [Some [Some {| perFrame_ok := true;
                                  inject_docUrl := "http://172.16.2.1:1000/login" |}]]
                   quietBrowser))))).


(** the effects of a run that are not probes, sleeps, reads of a tab or
    page scripts that only read *)
Definition actions (tr : list Event) : list Event :=
  List.filter
    (fun e => match e with
              | EvSleep _ | EvFetch | EvTabsGet _ | EvDetectScript _
              | EvKeepaliveScript _ => false
              | _ => true
              end) tr.

(** an input the two heuristics disagree on *)
Definition searchBox : Input :=
  {| i_name := "q"; i_id := ""; i_type := "text"; i_placeholder := "" |}.

Definition emailBox : Input :=
  {| i_name := "Email"; i_id := ""; i_type := "email"; i_placeholder := "" |}.

(** ** Vocabulary of the further properties *)

(** a request to the generate_204 endpoint that is answered with status 204 *)
Definition is204 (o : option FetchOutcome) : bool :=
  match o with
  | Some (FetchStatus status) => status =? 204
  | _ => false
  end.

(** what a connectivity probe answers when the next requests end as [fs]:
    up when the first request is answered with 204, or else the second *)
Definition probeResult (fs : list FetchOutcome) : bool :=
  is204 (fs !! 0%nat) || is204 (fs !! 1%nat).

(** how long a request with a timeout of [timeoutMs] waits for the timer:
    not at all when it is answered or fails, the whole timeout when it gets
    no answer *)
Definition waited (timeoutMs : Z) (o : option FetchOutcome) : Z :=
  match o with
  | Some FetchUnanswered => Z.max 0 timeoutMs
  | _ => 0
  end.

(** the world [isInternetUp(timeoutMs)] leaves *)
Definition probed (timeoutMs : Z) (w : World) : World :=
  if is204 (fetches (env w) !! 0%nat) then
    {| js := js w;
       env := with_fetches (drop 1 (fetches (env w))) (env w);
       trace := EvFetch :: trace w |}
  else
    {| js := js w;
       env := with_fetches (drop 2 (fetches (env w)))
                (with_now (now (env w) + waited timeoutMs (fetches (env w) !! 0%nat) + 300
                           + waited timeoutMs (fetches (env w) !! 1%nat)) (env w));
       trace := EvFetch :: EvSleep 300 :: EvFetch :: trace w |}.

(** the world a connectivity probe with the default timeout leaves *)
Definition afterProbe (w : World) : World := probed 2000 w.

(** the values [backoffSeconds] takes *)
Definition backoffValues : list Z := [0; 2; 4; 5; 8; 10; 16; 32; 60].

(** a sleep of at most one minute *)
Definition shortSleep (e : Event) : Prop :=
  forall ms, e = EvSleep ms -> 0 < ms <= 60000.

(** The backoff invariant: [backoffSeconds] is one of nine values, and the
    worker has never slept longer than a minute in one go. *)
Definition BackoffInv (w : World) : Prop :=
  backoffSeconds (js w) ∈ backoffValues /\ Forall shortSleep (trace w).

Definition KeepsBackoff : relation World :=
  fun w w' => BackoffInv w -> BackoffInv w'.

(** effects of [waitForTabLoaded]: it sleeps and reads the tab *)
Definition polling (e : Event) : Prop :=
  match e with
  | EvSleep _ | EvTabsGet _ => True
  | _ => False
  end.

(** kinds of effects that the properties count *)
Definition isDetectScript (e : Event) : bool :=
  match e with EvDetectScript _ => true | _ => false end.

Definition isInjectScript (e : Event) : bool :=
  match e with EvInjectScript _ => true | _ => false end.

Definition isReload (e : Event) : bool :=
  match e with EvTabsReload _ => true | _ => false end.

Definition isCreate (e : Event) : bool :=
  match e with EvTabsCreate _ _ => true | _ => false end.

Definition isSuccessNotice (e : Event) : bool :=
  match e with EvNotify NoticeSucceeded => true | _ => false end.

(** how many of the effects [l] are of the kind [p] *)
Definition count (p : Event -> bool) (l : list Event) : nat :=
  length (List.filter p l).

(** effects of the detection and its retries on the tab [tabId] *)
Definition scanning (tabId : Z) (e : Event) : Prop :=
  match e with
  | EvSleep _ | EvTabsGet _ => True
  | EvTabsReload id | EvDetectScript id => id = tabId
  | _ => False
  end.

(** [m] never throws *)
Definition returns {A} (m : M A) : Prop :=
  forall w, exists a, (m w).1 = Ret a.

(** effects on the tab [tabId] once it is the portal tab: the scans, and the
    injection *)
Definition working (tabId : Z) (e : Event) : Prop :=
  match e with
  | EvSleep _ | EvTabsGet _ => True
  | EvTabsReload id | EvDetectScript id | EvInjectScript id => id = tabId
  | _ => False
  end.

(** effects of [openPortalTabAndSubmit] while it looks for its portal tab *)
Definition acquiring (e : Event) : Prop :=
  match e with
  | EvSleep _ | EvFetch | EvTabsQuery | EvTabsGet _ | EvTabsUpdate _ _
  | EvTabsCreate _ _ => True
  | _ => False
  end.

(** the effects added from [w] to [w'] are [acquiring] ones, and at most [n]
    of them create a tab *)
Definition Within (n : nat) : relation World :=
  fun w w' =>
    exists l, trace w' = l ++ trace w /\ Forall acquiring l /\ (count isCreate l <= n)%nat.

Definition spends {A} (n : nat) (m : M A) : Prop :=
  forall w, Within n w (m w).2.

(** effects of the steps that create no tab *)
Definition looking (e : Event) : Prop :=
  match e with
  | EvSleep _ | EvFetch | EvTabsQuery | EvTabsGet _ | EvTabsUpdate _ _ => True
  | _ => False
  end.



(** [lastProbeTime] is not assigned *)
Definition keepsLastProbeTime : relation Globals :=
  fun g g' => lastProbeTime g' = lastProbeTime g.

(** the clock does not run backwards *)
Definition Clock : relation World :=
  fun w w' => now (env w) <= now (env w').

(** the time of the last success notification for [key], 0 if none *)
Definition lastNotified (key : string) (w : World) : Z :=
  default 0 (lastSuccessNotifiedAt (js w) !! key).

(** What the throttle of the success notification guarantees from [w] to
    [w'], for the origin [key] of the cached configuration: the
    configuration stays; the record of the last notification changes only
    with a notification, which is then more than the cooldown after the
    record it replaces; and two notifications take more than the cooldown. *)
Definition Throttled (key : string) : relation World :=
  fun w w' =>
    cachedConfig (js w') = cachedConfig (js w) /\
    now (env w) <= now (env w') /\
    lastNotified key w <= lastNotified key w' /\
    exists l,
      trace w' = l ++ trace w /\
      (count isSuccessNotice l = 0%nat -> lastNotified key w' = lastNotified key w) /\
      ((1 <= count isSuccessNotice l)%nat ->
       now (env w) <= lastNotified key w' <= now (env w') /\
       lastNotified key w + NOTIFY_SUCCESS_COOLDOWN_MS < lastNotified key w') /\
      ((2 <= count isSuccessNotice l)%nat ->
       NOTIFY_SUCCESS_COOLDOWN_MS < now (env w') - now (env w)).

(** what the steps that do not notify may assign *)
Definition quietJs (key : string) : relation Globals :=
  fun g g' =>
    cachedConfig g' = cachedConfig g /\
    lastSuccessNotifiedAt g' !! key = lastSuccessNotifiedAt g !! key.

Definition quietEv (e : Event) : Prop :=
  match e with
  | EvNotify NoticeSucceeded => False
  | _ => True
  end.

(** no "locked" notification *)
Definition notLocked (e : Event) : Prop :=
  match e with
  | EvNotify NoticeLocked => False
  | _ => True
  end.

(** ** The popup *)

(** The fields of the popup's form, as [saveConfig] reads them. *)
Record Form := {
  f_loginUrl : string;
  f_userField : string;
  f_passField : string;
  f_username : string;
  f_password : string;
  f_remember : bool
}.

Module Popup.

(** [x || d] for strings *)
Definition orDefault (x d : string) : string :=
  if String.eqb x "" then d else x.

(** [saveConfig]: the configuration built from the form.  [trim] is
    [String.prototype.trim], which belongs to the platform. *)
Definition formConfig (trim : string -> string) (f : Form) : Config :=
  {| loginUrl := Some (orDefault (trim (f_loginUrl f)) "http://172.16.2.1:1000");
     userField := orDefault (trim (f_userField f)) "username";
     passField := orDefault (trim (f_passField f)) "password";
     username := f_username f;
     password := f_password f;
     extraFields := "" |}.

(** [saveConfig]: what [chrome.storage.local] holds under [cfg] afterwards *)
Definition storedAfterSave (trim : string -> string) (f : Form)
    (stored : option Config) : option Config :=
  if f_remember f then Some (formConfig trim f) else stored.

End Popup.

(** The worker's variables when it starts: the configuration persisted by
    "Remember me", if there is one, is cached at once. *)
Definition startup (stored : option Config) : Globals :=
  match stored with
  | Some cfg => set_cachedConfig (Some cfg) initialGlobals
  | None => initialGlobals
  end.

(** The registry is complete: a tab the worker created is in
    [createdTabIds], unless the worker has asked the browser to close it. *)
Definition TrackedInv (w : World) : Prop :=
  forall url id,
    EvTabsCreate url (Some id) ∈ trace w ->
    id ∈ createdTabIds (js w) \/ exists registered, EvTabsRemove id registered ∈ trace w.

Definition KeepsTracked : relation World :=
  fun w w' => TrackedInv w -> TrackedInv w'.

(** ** Sample data for the further properties *)

(** the worker right after its start, nothing scripted *)
Definition freshWorld : World := worldOf initialGlobals quietBrowser.

(** a configuration came in, the probe answers 204 *)
Definition onlineWorld : World := worldOf (configured portalUrl) onlineBrowser.

(** a configuration without [loginUrl] *)
Definition noUrlConfig : Config :=
  {| loginUrl := None; userField := "username"; passField := "password";
     username := "alice"; password := "secret"; extraFields := "" |}.

Definition noUrlWorld : World :=
  worldOf (set_cachedConfig (Some noUrlConfig) initialGlobals) quietBrowser.

(** the worker has created the probe tab 7 and logged in through it *)
Definition probeOpen : Globals :=
  set_createdTabIds {[7]} (set_probeTabId (Some 7) (backedOff portalUrl 4)).

Definition usedProbe : SubmitRes :=
  {| ok := true; error := ""; usedTabId := Some 7 |}.

(** a tab is open at the portal origin, with its login form *)
Definition reuseBrowser : Browser :=
  with_queries [Some [tabAt 3 "http://172.16.2.1:1000/login"]]
    (with_detects [loginPage "http://172.16.2.1:1000/login"]
       (with_injects
          [Some [Some {| perFrame_ok := true;
                         inject_docUrl := "http://172.16.2.1:1000/login" |}]]
          quietBrowser)).


(** the portal lets the third request through *)
Definition recoveringSoon : Browser :=
  with_fetches [FetchStatus 200; FetchStatus 200; FetchStatus 204] quietBrowser.

(** the inputs of a login form *)
Definition loginInputs : list Input :=
  [ {| i_name := "username"; i_id := ""; i_type := "text"; i_placeholder := "" |};
    {| i_name := "password"; i_id := ""; i_type := "password"; i_placeholder := "" |} ].

(** ** The worker *)

Section Worker.

(** [new URL(s).origin]: the origin of [s] when [s] parses as an absolute
    URL, [None] when the constructor throws.  The parser belongs to the
    platform, so the worker is modelled over any such function. *)
Variable url_origin : string -> option string.

(** [function originOf(urlStr)]:
    [try { return new URL(urlStr).origin; } catch (e) { return urlStr || ''; }] *)
Definition originOf (urlStr : option string) : string :=
  match url_origin (toUSVString urlStr) with
  | Some origin => origin
  | None => orEmpty urlStr
  end.

(** [t.url && (new URL(t.url).origin === origin)], with [catch => false] *)
Definition tabAtOrigin (origin : string) (t : Tab) : bool :=
  match tab_url t with
  | Some u =>
      negb (String.eqb u "") &&
      match url_origin u with
      | Some o => String.eqb o origin
      | None => false
      end
  | None => false
  end.

(** truthiness of a tab identifier that may be [null] *)
Definition truthyId (id : option Z) : bool :=
  match id with
  | Some n => negb (n =? 0)
  | None => false
  end.

(** [async function fetchWithTimeout(url, externalSignal = null, timeoutMs = 2000)],
    called without an external signal: the request is made with the signal
    of a controller that [setTimeout(() => ac.abort(), timeoutMs)] aborts. *)
Definition fetchWithTimeout (timeoutMs : Z) : M Z := fetch timeoutMs.

(** [async function isInternetUp(timeoutMs = 2000)] *)
Definition isInternetUp (timeoutMs : Z) : M bool :=
  first ← try_catch (status ← fetchWithTimeout timeoutMs; mret (status =? 204))
                    (fun _ => mret false);
  if first : bool then mret true
  else
    try_catch (sleep 300;;
               status ← fetchWithTimeout timeoutMs;
               mret (status =? 204))
              (fun _ => mret false).

(** The [while] loop of [waitForTabLoaded].  Every turn that goes on sleeps
    300 ms, so [timeoutMs / 300 + 1] turns always reach the exit of the loop
    ([waitLoop_fuel] below). *)
Fixpoint waitLoop (fuel : nat) (tabId start timeoutMs : Z) : M bool :=
  match fuel with
  | O => mret false
  | S fuel' =>
      t ← dateNow;
      if t - start <? timeoutMs then
        r ← try_catch
              (tab ← tabsGet tabId;
               match tab with
               | None => mret (Some false)
               | Some tab =>
                   if String.eqb (tab_status tab) "complete" then mret (Some true)
                   else mret None
               end)
              (fun _ => mret (Some false));
        match r with
        | Some b => mret b
        | None => sleep 300;; waitLoop fuel' tabId start timeoutMs
        end
      else mret false
  end.

(** [async function waitForTabLoaded(tabId, timeoutMs = 10000)] *)
Definition waitForTabLoaded (tabId timeoutMs : Z) : M bool :=
  start ← dateNow;
  waitLoop (Z.to_nat (timeoutMs / 300) + 1) tabId start timeoutMs.

(** [function cacheConfig(cfg)] *)
Definition cacheConfig (cfg : option Config) : M unit :=
  modifyJs (set_cachedConfig cfg);;
  timer ← getJs clearTimerId;
  match timer with
  | Some _ => modifyJs (set_clearTimerId None)
  | None => mret tt
  end.

(** The function [detectFieldsInTab] runs in every frame. *)
Definition detectFunc (doc : FrameDoc) : FrameScan :=
  {| scan_docUrl := doc_url doc;
     scan_found := Fields.frameFound (doc_inputs doc);
     scan_inputs := firstn 40 (doc_inputs doc) |}.

Definition unknownFrame : FrameScan :=
  {| scan_docUrl := "(unknown)"; scan_found := false; scan_inputs := [] |}.

(** [async function detectFieldsInTab(tabId)] *)
Definition detectFieldsInTab (tabId : Z) : M DetectResult :=
  try_catch
    (results ← executeDetectScript tabId;
     let frames :=
       map (fun r => match r with Some doc => detectFunc doc | None => unknownFrame end)
           results in
     mret {| found := existsb scan_found frames; frames := frames |})
    (fun _ => mret {| found := false; frames := [] |}).

(** [/keepalive|authentication keepalive|authentication keep-alive|authentication refresh/i] *)
Definition keepalivePattern : list string :=
  ["keepalive"; "authentication keepalive"; "authentication keep-alive";
   "authentication refresh"].

(** [async function isKeepaliveTab(tab)] *)
Definition isKeepaliveTab (tab : Tab) : M bool :=
  try_catch
    (if tab_id tab =? 0 then mret false
     else if match tab_url tab with
             | Some u => negb (String.eqb u "") && includes "keepalive" (toLowerCase u)
             | None => false
             end
     then mret true
     else
       res ← executeKeepaliveScript (tab_id tab);
       mret match res with
            | Some text => regexTest true keepalivePattern (toLowerCase text)
            | None => false
            end)
    (fun _ => mret false).

(** Where a block of the source may [return] from the enclosing function. *)
Inductive Flow (A R : Type) :=
| Continue (a : A)
| Return (r : R).
Arguments Continue {A R} a.
Arguments Return {A R} r.

Definition failed (reason : string) (used : option Z) : SubmitRes :=
  {| ok := false; error := reason; usedTabId := used |}.

(** [try { if (await isInternetUp()) return { ok: false, error: 'already_up' }; }
     catch (e) { ... }] *)
Definition connectivityGuard : M bool :=
  try_catch (isInternetUp 2000) (fun _ => mret false).

(** [openPortalTabAndSubmit]: [if (probeTabId) { ... }], dropping a probe tab
    that is gone or shows a [chrome://] page *)
Definition checkProbe : M unit :=
  probe ← getJs probeTabId;
  if truthyId probe then
    try_catch
      (t ← tabsGet (default 0 probe);
       match t with
       | None => modifyJs (set_probeTabId None)
       | Some t =>
           if match tab_url t with
              | Some u => negb (String.eqb u "") && startsWith "chrome://" u
              | None => false
              end
           then modifyJs (set_probeTabId None)
           else mret tt
       end)
      (fun _ => modifyJs (set_probeTabId None))
  else mret tt.

(** [openPortalTabAndSubmit]: creating the probe tab; the value is the local
    [createdTabId] *)
Definition createProbe (t0 : Z) : M (option Z) :=
  probe ← getJs probeTabId;
  last ← getJs lastProbeTime;
  if negb (truthyId probe) && (t0 - last >=? PROBE_COOLDOWN_MS) then
    try_catch
      (created ← tabsCreate PROBE_URL;
       modifyJs (set_probeTabId (Some (tab_id created)));;
       modifyJs (fun g => set_createdTabIds ({[tab_id created]} ∪ createdTabIds g) g);;
       t ← dateNow;
       modifyJs (set_lastProbeTime t);;
       try_catch (waitForTabLoaded (tab_id created) 15000;; mret tt)
                 (fun _ => modifyJs (set_probeTabId None));;
       mret (Some (tab_id created)))
      (fun _ => modifyJs (set_probeTabId None);; mret None)
  else mret None.

(** [openPortalTabAndSubmit]: navigating the probe tab to the origin; the
    value is the local [portalTab] *)
Definition navigateProbe (origin : string) : M (Flow (option Tab) SubmitRes) :=
  probe ← getJs probeTabId;
  try_catch
    (up ← connectivityGuard;
     if up : bool then mret (Return (failed "already_up" None))
     else
       tabsUpdate (default 0 probe) (Some origin);;
       waitForTabLoaded (default 0 probe) 15000;;
       portalTab ← try_catch (tabsGet (default 0 probe)) (fun _ => mret None);
       mret (Continue portalTab))
    (fun _ => mret (Continue None)).

(** [openPortalTabAndSubmit]: the last resort, a background tab at the origin *)
Definition createPortalTab (origin : string) : M (Flow (option Tab * option Z) SubmitRes) :=
  try_catch
    (created ← tabsCreate origin;
     modifyJs (fun g => set_createdTabIds ({[tab_id created]} ∪ createdTabIds g) g);;
     waitForTabLoaded (tab_id created) 15000;;
     mret (Continue (Some created, Some (tab_id created))))
    (fun e => mret (Return (failed ("tab_create_failed:" +:+ e) None))).

(** [openPortalTabAndSubmit]: from [chrome.tabs.query] to the end of
    [if (portalTab) ... else ...]; the value is the pair of the locals
    [portalTab] and [createdTabId] *)
Definition acquirePortalTab (origin : string) : M (Flow (option Tab * option Z) SubmitRes) :=
  tabs ← tabsQuery;
  match Fields.jsFind (tabAtOrigin origin) tabs with
  | Some portalTab =>
      try_catch (tabsUpdate (tab_id portalTab) None) (fun _ => mret tt);;
      mret (Continue (Some portalTab, None))
  | None =>
      t0 ← dateNow;
      checkProbe;;
      createdTabId ← createProbe t0;
      portalTab ← try_catch (tabs2 ← tabsQuery; mret (Fields.jsFind (tabAtOrigin origin) tabs2))
                            (fun _ => mret None);
      probe ← getJs probeTabId;
      nav ← (if negb (bool_decide (is_Some portalTab)) && truthyId probe
             then navigateProbe origin
             else mret (Continue portalTab));
      match nav with
      | Return r => mret (Return r)
      | Continue (Some portalTab) => mret (Continue (Some portalTab, createdTabId))
      | Continue None => createPortalTab origin
      end
  end.

(** [openPortalTabAndSubmit]: the [while] loop that retries the detection,
    entered with [3 - checkAttempt] turns left *)
Fixpoint detectRetries (turns : nat) (checkAttempt : nat) (tabId : Z)
    (detectResult : DetectResult) : M DetectResult :=
  match turns with
  | O => mret detectResult
  | S turns' =>
      if (checkAttempt <? MAX_FIELD_CHECK_TRIES)%nat && negb (found detectResult) then
        (if RELOAD_ON_FIRST_FAIL && (checkAttempt =? 0)%nat then
           try_catch (tabsReload tabId;; waitForTabLoaded tabId 7000;; mret tt)
                     (fun _ => mret tt)
         else sleep FIELD_CHECK_INTERVAL_MS);;
        detectResult' ← detectFieldsInTab tabId;
        detectRetries turns' (S checkAttempt) tabId detectResult'
      else mret detectResult
  end.

(** [openPortalTabAndSubmit]: the index of the first frame that reports
    [perFrame.ok] *)
Definition successFrame (frameResults : list (option InjectFrame)) : option InjectFrame :=
  default None
    (Fields.jsFind (fun r => match r with Some r => perFrame_ok r | None => false end)
       frameResults).

(** [openPortalTabAndSubmit]: injection across frames *)
Definition injectAcrossFrames (tabId : Z) (createdTabId : option Z) : M SubmitRes :=
  try_catch
    (frameResults ← executeInjectScript tabId;
     match successFrame frameResults with
     | Some _ => mret {| ok := true; error := ""; usedTabId := createdTabId |}
     | None => mret (failed "fields_not_found_in_all_frames" createdTabId)
     end)
    (fun e => mret (failed ("scripting_inject_failed:" +:+ e) createdTabId)).

(** [async function openPortalTabAndSubmit(cfg)] *)
Definition openPortalTabAndSubmit (cfg : Config) : M SubmitRes :=
  let origin :=
    let o := originOf (Some (orEmpty (loginUrl cfg))) in
    if String.eqb o "" then orEmpty (loginUrl cfg) else o in
  emit (EvOrchestrator origin);;
  up ← connectivityGuard;
  if up : bool then mret (failed "already_up" None)
  else
    acquired ← acquirePortalTab origin;
    match acquired with
    | Return r => mret r
    | Continue (None, _) => mret (failed "no_portal_tab" None)
    | Continue (Some portalTab, createdTabId) =>
        first ← detectFieldsInTab (tab_id portalTab);
        detectResult ← detectRetries MAX_FIELD_CHECK_TRIES 0 (tab_id portalTab) first;
        if negb (found detectResult)
        then mret (failed "fields_not_found_in_all_frames" None)
        else injectAcrossFrames (tab_id portalTab) createdTabId
    end.

(** [failedAttemptsByOrigin[originKey] || 0] *)
Definition failedAttemptsOf (originKey : string) (g : Globals) : Z :=
  default 0 (failedAttemptsByOrigin g !! originKey).

Definition setFailedAttempts (originKey : string) (v : Z) (g : Globals) : Globals :=
  set_failedAttemptsByOrigin (<[originKey := v]> (failedAttemptsByOrigin g)) g.

(** [inFlightOrigins.delete(originKey)] *)
Definition clearInFlight (originKey : string) : M unit :=
  modifyJs (fun g => set_inFlightOrigins (inFlightOrigins g ∖ {[originKey]}) g).

(** [checkAndLogin]: the success notification, at most one per origin and
    cooldown *)
Definition notifySuccess (originKey : string) : M unit :=
  t ← dateNow;
  last ← getJs (fun g => default 0 (lastSuccessNotifiedAt g !! originKey));
  if t - last >? NOTIFY_SUCCESS_COOLDOWN_MS then
    notify NoticeSucceeded;;
    modifyJs (fun g => set_lastSuccessNotifiedAt (<[originKey := t]> (lastSuccessNotifiedAt g)) g)
  else mret tt.

(** [checkAndLogin]: "close tab we created during this attempt (only if we
    created it)" *)
Definition closeCreatedTab (submitRes : SubmitRes) : M unit :=
  try_catch
    (let tid := usedTabId submitRes in
     registered ← getJs (fun g => bool_decide (default 0 tid ∈ createdTabIds g));
     if truthyId tid && registered then
       try_catch (tabsRemove (default 0 tid)) (fun _ => mret tt);;
       modifyJs (fun g => set_createdTabIds (createdTabIds g ∖ {[default 0 tid]}) g);;
       probe ← getJs probeTabId;
       if truthyId probe && bool_decide (probe = tid)
       then modifyJs (set_probeTabId None)
       else mret tt
     else mret tt)
    (fun _ => mret tt).

(** [checkAndLogin]: "SPECIAL: If there's an existing portal tab and it's a
    keepalive page, avoid escalating backoff." *)
Definition keepaliveShortCircuit (originKey : string) : M (Flow unit bool) :=
  try_catch
    (tabsAll ← tabsQuery;
     match Fields.jsFind (tabAtOrigin originKey) tabsAll with
     | Some maybeTab =>
         keep ← isKeepaliveTab maybeTab;
         if keep : bool then
           emit (EvKeepalive originKey);;
           modifyJs (set_backoffSeconds 5);;
           clearInFlight originKey;;
           mret (Return false)
         else mret (Continue tt)
     | None => mret (Continue tt)
     end)
    (fun _ => mret (Continue tt)).

(** [checkAndLogin]: what follows [openPortalTabAndSubmit] *)
Definition afterSubmit (originKey : string) (submitRes : SubmitRes) : M bool :=
  if ok submitRes then
    sleep 2000;;
    up ← isInternetUp 2000;
    if up : bool then
      modifyJs (set_backoffSeconds 0);;
      modifyJs (setFailedAttempts originKey 0);;
      notifySuccess originKey;;
      closeCreatedTab submitRes;;
      clearInFlight originKey;;
      mret true
    else
      modifyJs (fun g => set_backoffSeconds (Backoff.stillDownBackoff (backoffSeconds g)) g);;
      clearInFlight originKey;;
      mret false
  else
    modifyJs (fun g => setFailedAttempts originKey (failedAttemptsOf originKey g + 1) g);;
    attempts ← getJs (failedAttemptsOf originKey);
    modifyJs (fun g => set_backoffSeconds (Backoff.friendlyBackoff (backoffSeconds g) attempts) g);;
    up ← isInternetUp 2000;
    if up : bool then
      modifyJs (setFailedAttempts originKey 0);;
      notifySuccess originKey;;
      clearInFlight originKey;;
      mret true
    else
      clearInFlight originKey;;
      mret false.

(** [checkAndLogin]: "If we have backoff active, wait before attempting" *)
Definition backoffWait : M unit :=
  backoff ← getJs backoffSeconds;
  if backoff >? 0 then sleep (backoff * 1000) else mret tt.

(** [checkAndLogin]: the inner [try] after the wait, from "re-check
    connectivity again before heavy work" on *)
Definition remediate (force : bool) (cfg : Config) (originKey : string) : M bool :=
  up ← (if force then mret false else isInternetUp 2000);
  if up : bool then clearInFlight originKey;; mret true
  else
    keepalive ← keepaliveShortCircuit originKey;
    match keepalive with
    | Return r => mret r
    | Continue _ =>
        submitRes ← openPortalTabAndSubmit cfg;
        afterSubmit originKey submitRes
    end.

(** [checkAndLogin]: the body of the inner [try] *)
Definition attempt (force : bool) (cfg : Config) (originKey : string) : M bool :=
  backoffWait;;
  remediate force cfg originKey.

(** the key of the per-origin bookkeeping: [originOf(cfg.loginUrl || '')] *)
Definition originKeyOf (cfg : Config) : string :=
  originOf (Some (orEmpty (loginUrl cfg))).

(** [checkAndLogin]: from [const cfg = cachedConfig] to the end of the outer
    [try]: the guard against overlapping attempts, and the attempt between
    [inFlightOrigins.add] and the [finally] that deletes the origin again *)
Definition exclusively (force : bool) (cfg : Config) : M bool :=
  if negb (truthy (loginUrl cfg)) then mret false
  else
    let originKey := originKeyOf cfg in
    inFlight ← getJs (fun g => bool_decide (originKey ∈ inFlightOrigins g));
    if inFlight && negb force then mret false
    else
      modifyJs (fun g => set_inFlightOrigins ({[originKey]} ∪ inFlightOrigins g) g);;
      try_finally (attempt force cfg originKey) (clearInFlight originKey).

(** [checkAndLogin]: the block of the outer [try] *)
Definition checkAndLoginTry (force : bool) : M bool :=
  up ← (if force then mret false else isInternetUp 2000);
  if up : bool then mret true
  else
    cached ← getJs cachedConfig;
    match cached with
    | None => notify NoticeLocked;; mret false
    | Some cfg => exclusively force cfg
    end.

(** [async function checkAndLogin(force)] *)
Definition checkAndLogin (force : bool) : M bool :=
  try_catch (checkAndLoginTry force) (fun _ => mret false).

(** *** The listeners *)

Inductive Message :=
| MsgSetPlainConfig (cfg : option Config)
| MsgDoLoginNow
| MsgClearCache
| MsgPageIsPortal (origin : string)
| MsgOther.

Record Response := {
  resp_ok : bool;
  resp_error : string
}.

(** [chrome.runtime.onMessage] *)
Definition onMessage (msg : Message) : M Response :=
  try_catch
    match msg with
    | MsgSetPlainConfig cfg =>
        cacheConfig cfg;;
        mret {| resp_ok := true; resp_error := "" |}
    | MsgDoLoginNow =>
        r ← checkAndLogin true;
        mret {| resp_ok := r; resp_error := "" |}
    | MsgClearCache =>
        modifyJs (set_cachedConfig None);;
        timer ← getJs clearTimerId;
        (if bool_decide (is_Some timer) then modifyJs (set_clearTimerId None) else mret tt);;
        try_catch (emit EvStorageRemove) (fun _ => mret tt);;
        mret {| resp_ok := true; resp_error := "" |}
    | MsgPageIsPortal origin =>
        try_catch
          (cached ← getJs cachedConfig;
           match cached with
           | Some cfg =>
               if String.eqb (originOf (loginUrl cfg)) origin then
                 result ← checkAndLogin true;
                 mret {| resp_ok := result; resp_error := "" |}
               else mret {| resp_ok := false; resp_error := "no_cached_match" |}
           | None => mret {| resp_ok := false; resp_error := "no_cached_match" |}
           end)
          (fun e => mret {| resp_ok := false; resp_error := e |})
    | MsgOther => mret {| resp_ok := false; resp_error := "unknown message" |}
    end
    (fun e => mret {| resp_ok := false; resp_error := e |}).

(** [chrome.alarms.onAlarm] *)
Definition onAlarm (name : string) : M unit :=
  if String.eqb name "checkConn" then checkAndLogin false;; mret tt
  else mret tt.

(** Everything that can make the worker run. *)
Inductive Operation :=
| OpMessage (msg : Message)
| OpAlarm (name : string).

Definition perform (op : Operation) (w : World) : World :=
  match op with
  | OpMessage msg => (onMessage msg w).2
  | OpAlarm name => (onAlarm name w).2
  end.

(** What a call of [checkAndLogin] does to the bookkeeping: with a cached
    configuration, only the records of its origin may change, and the origin
    is not left in flight by a call that went past the guard against
    overlapping attempts; without one, nothing changes. *)
Definition bookkeeping (force : bool) (g g' : Globals) : Prop :=
  match cachedConfig g with
  | Some cfg =>
      schedulerJs (originKeyOf cfg) g g' /\
      (truthy (loginUrl cfg) = true ->
       force = true \/ originKeyOf cfg ∉ inFlightOrigins g ->
       originKeyOf cfg ∉ inFlightOrigins g') /\
      (originKeyOf cfg ∈ inFlightOrigins g' -> originKeyOf cfg ∈ inFlightOrigins g)
  | None => g' = g
  end.

(** the worker after a sequence of operations, run one after the other *)
Definition performAll (ops : list Operation) (w : World) : World :=
  fold_left (fun w op => perform op w) ops w.

(** the two messages that assign [cachedConfig] *)
Definition assignsConfig (op : Operation) : bool :=
  match op with
  | OpMessage (MsgSetPlainConfig _) | OpMessage MsgClearCache => true
  | _ => false
  end.

(** the world [notifySuccess] leaves *)
Definition afterNotifySuccess (key : string) (w : World) : World :=
  if now (env w) - default 0 (lastSuccessNotifiedAt (js w) !! key) >? NOTIFY_SUCCESS_COOLDOWN_MS
  then {| js := set_lastSuccessNotifiedAt
                  (<[key := now (env w)]> (lastSuccessNotifiedAt (js w))) (js w);
          env := env w;
          trace := EvNotify NoticeSucceeded :: trace w |}
  else w.

(** the world [closeCreatedTab] leaves *)
Definition afterCloseCreatedTab (submitRes : SubmitRes) (w : World) : World :=
  match usedTabId submitRes with
  | Some tid =>
      if negb (tid =? 0) && bool_decide (tid ∈ createdTabIds (js w)) then
        {| js := (if bool_decide (probeTabId (js w) = Some tid)
                  then set_probeTabId None
                  else fun g => g)
                   (set_createdTabIds (createdTabIds (js w) ∖ {[tid]}) (js w));
           env := with_acks (tl (acks (env w))) (env w);
           trace := EvTabsRemove tid true :: trace w |}
      else w
  | None => w
  end.

(** the world after [await sleep(ms)] *)
Definition slept (ms : Z) (w : World) : World :=
  {| js := js w; env := with_now (now (env w) + ms) (env w); trace := EvSleep ms :: trace w |}.

(** the world after the assignment [f] to the module-level variables *)
Definition assigned (f : Globals -> Globals) (w : World) : World :=
  {| js := f (js w); env := env w; trace := trace w |}.

(** [openPortalTabAndSubmit]: [originOf(cfg.loginUrl || '') || cfg.loginUrl || ''] *)
Definition portalOriginOf (cfg : Config) : string :=
  let o := originOf (Some (orEmpty (loginUrl cfg))) in
  if String.eqb o "" then orEmpty (loginUrl cfg) else o.

(** the worker after [idle] ms have passed and then the operation [op] *)
Definition performAfter (step : Z * Operation) (w : World) : World :=
  perform step.2 {| js := js w; env := with_now (now (env w) + step.1) (env w);
                    trace := trace w |}.

(** a sequence of operations with the idle time before each *)
Definition performTimed (steps : list (Z * Operation)) (w : World) : World :=
  fold_left (fun w step => performAfter step w) steps w.

(** the cached configuration, if any, is one for the origin [key] *)
Definition configuredFor (key : string) (w : World) : Prop :=
  forall cfg, cachedConfig (js w) = Some cfg -> originKeyOf cfg = key.

(** popup.js, [saveConfig]: the worker after the [setPlainConfig] message *)
Definition saveConfig (trim : string -> string) (f : Form) (w : World) : World :=
  (onMessage (MsgSetPlainConfig (Some (Popup.formConfig trim f))) w).2.

(** popup.js, [testLogin]: [res && res.ok] of the answer to [doLoginNow], and
    the worker afterwards *)
Definition testLogin (w : World) : bool * World :=
  match onMessage MsgDoLoginNow w with
  | (Ret res, w') => (resp_ok res, w')
  | (Throw _, w') => (false, w')
  end.

(** [checkAndLogin]: the attempt from the keepalive check on *)
Definition keepaliveThenSubmit (cfg : Config) (originKey : string) : M bool :=
  keepalive ← keepaliveShortCircuit originKey;
  match keepalive with
  | Return r => mret r
  | Continue _ =>
      submitRes ← openPortalTabAndSubmit cfg;
      afterSubmit originKey submitRes
  end.

(** A call with a cached configuration goes on to an attempt: it is forced,
    or its probe answers down and the origin is not in flight. *)
Definition startsAttempt (force : bool) (cfg : Config) (w : World) : Prop :=
  force = true \/
  (probeResult (fetches (env w)) = false /\ originKeyOf cfg ∉ inFlightOrigins (js w)).

(** The attempt comes to its keepalive check: always when it is forced, and
    otherwise when the probe made after the backoff wait answers down as
    well. *)
Definition reachesKeepaliveCheck (force : bool) (cfg : Config) (w : World) : Prop :=
  startsAttempt force cfg w /\
  (force = true \/ probeResult (drop 2 (fetches (env w))) = false).

(** The call meets a session at the origin that is classified as a
    keepalive page: its attempt comes to the keepalive check, and the first
    of the open tabs that is at the origin of the configuration is one that
    [isKeepaliveTab] answers [true] for. *)
Definition keepaliveSession (force : bool) (cfg : Config) (w : World) : Prop :=
  reachesKeepaliveCheck force cfg w /\
  exists tabs rest tab,
    queries (env w) = Some tabs :: rest /\
    Fields.jsFind (tabAtOrigin (originKeyOf cfg)) tabs = Some tab /\
    (isKeepaliveTab tab w).1 = Ret true.

(** the world in which the attempt of a call starts: a call that is not
    forced has probed, and the origin is marked as in flight *)
Definition atAttempt (force : bool) (cfg : Config) (w : World) : World :=
  assigned (fun g => set_inFlightOrigins ({[originKeyOf cfg]} ∪ inFlightOrigins g) g)
    (if force then w else afterProbe w).

(** the world after the backoff wait *)
Definition waitedOut (w : World) : World :=
  if backoffSeconds (js w) >? 0 then slept (backoffSeconds (js w) * 1000) w else w.

(** the world in which the attempt makes its keepalive check *)
Definition atKeepaliveCheck (force : bool) (cfg : Config) (w : World) : World :=
  if force then waitedOut (atAttempt force cfg w)
  else afterProbe (waitedOut (atAttempt force cfg w)).

(** ** Reasoning about runs *)

Lemma bind_run {A B} (m : M A) (f : A -> M B) w :
  (m ≫= f) w = match m w with
               | (Ret a, w') => f a w'
               | (Throw e, w') => (Throw e, w')
               end.
Proof. reflexivity. Qed.

Lemma keeps_ret {A} (R : relation World) `{!Reflexive R} (a : A) : keeps R (mret a).
Proof. intros w. simpl. reflexivity. Qed.

Lemma keeps_throw {A} (R : relation World) `{!Reflexive R} (e : string) :
  keeps R (throw e : M A).
Proof. intros w. simpl. reflexivity. Qed.

Lemma keeps_bind {A B} (R : relation World) `{!Transitive R} (m : M A) (f : A -> M B) :
  keeps R m -> (forall a, keeps R (f a)) -> keeps R (m ≫= f).
Proof.
  intros Hm Hf w. unfold mbind, M_bind.
  specialize (Hm w). destruct (m w) as [[a|e] w1]; simpl in *.
  - etransitivity; [exact Hm | apply Hf].
  - exact Hm.
Qed.

Lemma keeps_try_catch {A} (R : relation World) `{!Transitive R} (m : M A) (h : string -> M A) :
  keeps R m -> (forall e, keeps R (h e)) -> keeps R (try_catch m h).
Proof.
  intros Hm Hh w. unfold try_catch.
  specialize (Hm w). destruct (m w) as [[a|e] w1]; simpl in *.
  - exact Hm.
  - etransitivity; [exact Hm | apply Hh].
Qed.

Lemma keeps_try_finally {A} (R : relation World) `{!Transitive R} (m : M A) (fin : M unit) :
  keeps R m -> keeps R fin -> keeps R (try_finally m fin).
Proof.
  intros Hm Hf w. unfold try_finally.
  specialize (Hm w). destruct (m w) as [r w1]; simpl in *.
  specialize (Hf w1). destruct (fin w1) as [[u|e] w2]; simpl in *;
    etransitivity; eassumption.
Qed.

Lemma keeps_weaken {A} (R R' : relation World) (m : M A) :
  (forall w w', R w w' -> R' w w') -> keeps R m -> keeps R' m.
Proof. intros H Hm w. apply H, Hm. Qed.

Lemma keeps_getJs {A} (R : relation World) `{!Reflexive R} (f : Globals -> A) :
  keeps R (getJs f).
Proof. intros w. simpl. reflexivity. Qed.

Lemma keeps_dateNow (R : relation World) `{!Reflexive R} : keeps R dateNow.
Proof. intros w. simpl. reflexivity. Qed.

Lemma keeps_modifyJs (R : relation World) (f : Globals -> Globals) :
  admits R f -> keeps R (modifyJs f).
Proof. intros H w. apply H. Qed.

Lemma keeps_emit (R : relation World) (e : Event) : absorbs R e -> keeps R (emit e).
Proof. intros H w. apply (H w (env w)). Qed.

Lemma keeps_sleep (R : relation World) (ms : Z) : absorbs R (EvSleep ms) -> keeps R (sleep ms).
Proof. intros H w. apply H. Qed.

Lemma keeps_fetch (R : relation World) (abortAfter : Z) :
  absorbs R EvFetch -> keeps R (fetch abortAfter).
Proof. intros H w. unfold fetch. destruct (fetches (env w)) as [|[]]; apply H. Qed.

Lemma keeps_tabsQuery (R : relation World) : absorbs R EvTabsQuery -> keeps R tabsQuery.
Proof. intros H w. unfold tabsQuery. destruct (queries (env w)) as [|[]]; apply H. Qed.

Lemma keeps_tabsGet (R : relation World) (id : Z) :
  absorbs R (EvTabsGet id) -> keeps R (tabsGet id).
Proof. intros H w. unfold tabsGet. destruct (gets (env w)) as [|[]]; apply H. Qed.

Lemma keeps_tabsCreate (R : relation World) (url : string) :
  (forall o, absorbs R (EvTabsCreate url o)) -> keeps R (tabsCreate url).
Proof. intros H w. unfold tabsCreate. destruct (creates (env w)) as [|[]]; apply H. Qed.

Lemma keeps_acknowledged (R : relation World) (e : Event) (what : string) :
  absorbs R e -> keeps R (acknowledged e what).
Proof. intros H w. unfold acknowledged. destruct (acks (env w)) as [|[]]; apply H. Qed.

Lemma keeps_tabsRemove (R : relation World) (id : Z) :
  (forall b, absorbs R (EvTabsRemove id b)) -> keeps R (tabsRemove id).
Proof. intros H w. unfold tabsRemove. apply keeps_acknowledged, H. Qed.

Lemma keeps_executeDetectScript (R : relation World) (id : Z) :
  absorbs R (EvDetectScript id) -> keeps R (executeDetectScript id).
Proof. intros H w. unfold executeDetectScript. destruct (detects (env w)) as [|[]]; apply H. Qed.

Lemma keeps_executeKeepaliveScript (R : relation World) (id : Z) :
  absorbs R (EvKeepaliveScript id) -> keeps R (executeKeepaliveScript id).
Proof.
  intros H w. unfold executeKeepaliveScript. destruct (keepalives (env w)) as [|[]]; apply H.
Qed.

Lemma keeps_executeInjectScript (R : relation World) (id : Z) :
  absorbs R (EvInjectScript id) -> keeps R (executeInjectScript id).
Proof. intros H w. unfold executeInjectScript. destruct (injects (env w)) as [|[]]; apply H. Qed.

(** *** Footprints *)

#[global] Instance Foot_reflexive okJs okEv `{!Reflexive okJs} : Reflexive (Foot okJs okEv).
Proof. intros w. split; [reflexivity|]. exists []. split; [reflexivity | constructor]. Qed.

#[global] Instance Foot_transitive okJs okEv `{!Transitive okJs} : Transitive (Foot okJs okEv).
Proof.
  intros w1 w2 w3 [H1 (l1 & E1 & F1)] [H2 (l2 & E2 & F2)]. split.
  - etransitivity; eassumption.
  - exists (l2 ++ l1). split.
    + rewrite E2, E1. apply app_assoc.
    + apply Forall_app. split; assumption.
Qed.

Lemma Foot_absorbs okJs okEv `{!Reflexive okJs} (e : Event) :
  okEv e -> absorbs (Foot okJs okEv) e.
Proof.
  intros He w b. split; [reflexivity|]. exists [e]. split; [reflexivity|].
  constructor; [exact He | constructor].
Qed.

Lemma Foot_admits okJs okEv (f : Globals -> Globals) :
  (forall g, okJs g (f g)) -> admits (Foot okJs okEv) f.
Proof.
  intros H w. split; [apply H|]. exists []. split; [reflexivity | constructor].
Qed.

Lemma Foot_weaken (okJs okJs' : relation Globals) (okEv okEv' : Event -> Prop) :
  (forall g g', okJs g g' -> okJs' g g') -> (forall e, okEv e -> okEv' e) ->
  forall w w', Foot okJs okEv w w' -> Foot okJs' okEv' w w'.
Proof.
  intros HJ HE w w' [H (l & E & F)]. split; [apply HJ, H|].
  exists l. split; [exact E|]. eapply Forall_impl; [exact F | exact HE].
Qed.

#[global] Instance orchestratorJs_reflexive : Reflexive orchestratorJs.
Proof. intros g. unfold orchestratorJs. tauto. Qed.

#[global] Instance orchestratorJs_transitive : Transitive orchestratorJs.
Proof. intros g1 g2 g3. unfold orchestratorJs. intuition congruence. Qed.

#[global] Instance schedulerJs_reflexive key : Reflexive (schedulerJs key).
Proof. intros g. unfold schedulerJs. split; [reflexivity|]. intros; tauto. Qed.

#[global] Instance schedulerJs_transitive key : Transitive (schedulerJs key).
Proof.
  intros g1 g2 g3 [C1 H1] [C2 H2]. split; [congruence|].
  intros k Hk. destruct (H1 k Hk) as [F1 I1]. destruct (H2 k Hk) as [F2 I2].
  split; [congruence | tauto].
Qed.

#[global] Instance anyJs_reflexive : Reflexive anyJs.
Proof. intros g. exact I. Qed.

#[global] Instance anyJs_transitive : Transitive anyJs.
Proof. intros g1 g2 g3 _ _. exact I. Qed.

(** *** Walking through the code of a function *)

Ltac foot_side :=
  lazymatch goal with
  | |- absorbs (Foot _ _) _ => apply Foot_absorbs; [typeclasses eauto | exact I]
  | |- forall _, absorbs (Foot _ _) _ => intros ?; apply Foot_absorbs; [typeclasses eauto | exact I]
  | |- admits (Foot _ _) _ => apply Foot_admits; intros ?; simpl
  end.

Ltac keeps_step sub :=
  lazymatch goal with
  | |- keeps _ (mret _) => apply keeps_ret; typeclasses eauto
  | |- keeps _ (throw _) => apply keeps_throw; typeclasses eauto
  | |- keeps _ (mbind _ _) => apply keeps_bind; [typeclasses eauto | | intros ?]
  | |- keeps _ (try_catch _ _) => apply keeps_try_catch; [typeclasses eauto | | intros ?]
  | |- keeps _ (try_finally _ _) => apply keeps_try_finally; [typeclasses eauto | | ]
  | |- keeps _ (getJs _) => apply keeps_getJs; typeclasses eauto
  | |- keeps _ dateNow => apply keeps_dateNow; typeclasses eauto
  | |- keeps _ (modifyJs _) => apply keeps_modifyJs
  | |- keeps _ (emit _) => apply keeps_emit
  | |- keeps _ (notify _) => apply keeps_emit
  | |- keeps _ (sleep _) => apply keeps_sleep
  | |- keeps _ (fetch _) => apply keeps_fetch
  | |- keeps _ (fetchWithTimeout _) => apply keeps_fetch
  | |- keeps _ tabsQuery => apply keeps_tabsQuery
  | |- keeps _ (tabsGet _) => apply keeps_tabsGet
  | |- keeps _ (tabsCreate _) => apply keeps_tabsCreate
  | |- keeps _ (tabsUpdate _ _) => apply keeps_acknowledged
  | |- keeps _ (tabsReload _) => apply keeps_acknowledged
  | |- keeps _ (tabsRemove _) => apply keeps_tabsRemove
  | |- keeps _ (executeDetectScript _) => apply keeps_executeDetectScript
  | |- keeps _ (executeKeepaliveScript _) => apply keeps_executeKeepaliveScript
  | |- keeps _ (executeInjectScript _) => apply keeps_executeInjectScript
  | |- keeps _ (if ?b then _ else _) => destruct b
  | |- keeps _ (match ?x with _ => _ end) => destruct x
  | |- keeps _ _ => sub
  end.

Ltac keeps_walk sub := repeat (keeps_step sub).

(** *** The functions that only observe *)

Lemma Probes_Observes w w' : Probes w w' -> Observes w w'.
Proof. apply Foot_weaken; [tauto | intros []; simpl; tauto]. Qed.

Lemma isInternetUp_probes (timeoutMs : Z) : keeps Probes (isInternetUp timeoutMs).
Proof. unfold isInternetUp, Probes. keeps_walk fail; foot_side. Qed.

Lemma isInternetUp_observes (timeoutMs : Z) : keeps Observes (isInternetUp timeoutMs).
Proof. eapply keeps_weaken; [apply Probes_Observes | apply isInternetUp_probes]. Qed.

Lemma waitLoop_observes (fuel : nat) (tabId start timeoutMs : Z) :
  keeps Observes (waitLoop fuel tabId start timeoutMs).
Proof.
  unfold Observes. induction fuel as [|fuel IH]; simpl.
  - keeps_walk fail.
  - keeps_walk ltac:(exact IH); foot_side.
Qed.

Lemma waitForTabLoaded_observes (tabId timeoutMs : Z) :
  keeps Observes (waitForTabLoaded tabId timeoutMs).
Proof.
  unfold waitForTabLoaded. unfold Observes.
  keeps_walk ltac:(apply waitLoop_observes).
Qed.

Lemma detectFieldsInTab_observes (tabId : Z) : keeps Observes (detectFieldsInTab tabId).
Proof. unfold detectFieldsInTab, Observes. keeps_walk fail; foot_side. Qed.

Lemma isKeepaliveTab_observes (tab : Tab) : keeps Observes (isKeepaliveTab tab).
Proof. unfold isKeepaliveTab, Observes. keeps_walk fail; foot_side. Qed.

Lemma Observes_Foot okJs okEv `{!Reflexive okJs} :
  (forall e, passive e -> okEv e) ->
  forall w w', Observes w w' -> Foot okJs okEv w w'.
Proof.
  intros HE. apply Foot_weaken; [|exact HE].
  intros g g' <-. reflexivity.
Qed.

Lemma backoffWait_probes : keeps Probes backoffWait.
Proof. unfold backoffWait, Probes. keeps_walk fail; foot_side. Qed.

Lemma backoffWait_observes : keeps Observes backoffWait.
Proof. eapply keeps_weaken; [apply Probes_Observes | apply backoffWait_probes]. Qed.

Ltac observer_lemma :=
  first [ apply isInternetUp_observes | apply waitForTabLoaded_observes
        | apply detectFieldsInTab_observes | apply isKeepaliveTab_observes
        | apply backoffWait_observes ].

Ltac by_observer :=
  eapply keeps_weaken; [ | observer_lemma ];
  apply Observes_Foot; [typeclasses eauto | intros []; simpl; tauto].

(** *** The footprint of [openPortalTabAndSubmit] *)

Ltac orchestrator_side :=
  try foot_side; try (unfold orchestratorJs; simpl; tauto).

Lemma connectivityGuard_foot : keeps (Foot orchestratorJs orchestratorEv) connectivityGuard.
Proof. unfold connectivityGuard. keeps_walk by_observer. Qed.

Lemma checkProbe_foot : keeps (Foot orchestratorJs orchestratorEv) checkProbe.
Proof. unfold checkProbe. keeps_walk fail; orchestrator_side. Qed.

Lemma createProbe_foot t0 : keeps (Foot orchestratorJs orchestratorEv) (createProbe t0).
Proof. unfold createProbe. keeps_walk by_observer; orchestrator_side. Qed.

Lemma navigateProbe_foot origin :
  keeps (Foot orchestratorJs orchestratorEv) (navigateProbe origin).
Proof.
  unfold navigateProbe.
  keeps_walk ltac:(first [apply connectivityGuard_foot | by_observer]); orchestrator_side.
Qed.

Lemma createPortalTab_foot origin :
  keeps (Foot orchestratorJs orchestratorEv) (createPortalTab origin).
Proof. unfold createPortalTab. keeps_walk by_observer; orchestrator_side. Qed.

Lemma acquirePortalTab_foot origin :
  keeps (Foot orchestratorJs orchestratorEv) (acquirePortalTab origin).
Proof.
  unfold acquirePortalTab.
  keeps_walk ltac:(first [ apply checkProbe_foot | apply createProbe_foot
                         | apply navigateProbe_foot | apply createPortalTab_foot ]);
    orchestrator_side.
Qed.

Lemma detectRetries_foot turns checkAttempt tabId detectResult :
  keeps (Foot orchestratorJs orchestratorEv)
        (detectRetries turns checkAttempt tabId detectResult).
Proof.
  revert checkAttempt detectResult.
  induction turns as [|turns IH]; intros checkAttempt detectResult; simpl.
  - keeps_walk fail.
  - keeps_walk ltac:(first [apply IH | by_observer]); orchestrator_side.
Qed.

Lemma injectAcrossFrames_foot tabId createdTabId :
  keeps (Foot orchestratorJs orchestratorEv) (injectAcrossFrames tabId createdTabId).
Proof. unfold injectAcrossFrames. keeps_walk fail; orchestrator_side. Qed.

Lemma openPortalTabAndSubmit_foot cfg :
  keeps (Foot orchestratorJs orchestratorEv) (openPortalTabAndSubmit cfg).
Proof.
  unfold openPortalTabAndSubmit.
  keeps_walk ltac:(first [ apply connectivityGuard_foot | apply acquirePortalTab_foot
                         | apply detectRetries_foot | apply injectAcrossFrames_foot
                         | by_observer ]);
    orchestrator_side.
Qed.

(** *** The footprint of an attempt *)

Lemma orchestratorJs_schedulerJs key g g' : orchestratorJs g g' -> schedulerJs key g g'.
Proof.
  intros (C & _ & _ & F & _ & I'). split; [exact C|].
  intros k _. rewrite F, I'. tauto.
Qed.

Ltac scheduler_side :=
  try foot_side;
  try (unfold schedulerJs, setFailedAttempts; simpl; split; [reflexivity|];
       intros k Hk; split; [try reflexivity; rewrite lookup_insert_ne by congruence;
                            reflexivity | set_solver]).

Ltac by_orchestrator :=
  eapply keeps_weaken; [ | apply openPortalTabAndSubmit_foot ];
  apply Foot_weaken; [ apply orchestratorJs_schedulerJs | intros []; simpl; tauto ].

Lemma notifySuccess_foot key :
  keeps (Foot (schedulerJs key) notKeepaliveNorOrchestrator) (notifySuccess key).
Proof. unfold notifySuccess. keeps_walk fail; scheduler_side. Qed.

Lemma closeCreatedTab_foot key submitRes :
  keeps (Foot (schedulerJs key) notKeepaliveNorOrchestrator) (closeCreatedTab submitRes).
Proof. unfold closeCreatedTab. keeps_walk fail; scheduler_side. Qed.

Lemma clearInFlight_foot key okEv : keeps (Foot (schedulerJs key) okEv) (clearInFlight key).
Proof. unfold clearInFlight. keeps_walk fail; scheduler_side. Qed.

Lemma afterSubmit_foot key submitRes :
  keeps (Foot (schedulerJs key) notKeepaliveNorOrchestrator) (afterSubmit key submitRes).
Proof.
  unfold afterSubmit.
  keeps_walk ltac:(first [ apply notifySuccess_foot | apply closeCreatedTab_foot
                         | apply clearInFlight_foot | by_observer ]);
    scheduler_side.
Qed.

Lemma keepaliveShortCircuit_foot key :
  keeps (Foot (schedulerJs key) anyEvent) (keepaliveShortCircuit key).
Proof.
  unfold keepaliveShortCircuit.
  keeps_walk ltac:(first [ apply clearInFlight_foot | by_observer ]); scheduler_side.
Qed.

Lemma afterOrchestrator_foot key cfg :
  keeps (Foot (schedulerJs key) notKeepalive)
        (submitRes ← openPortalTabAndSubmit cfg; afterSubmit key submitRes).
Proof.
  apply keeps_bind; [typeclasses eauto | by_orchestrator | intros submitRes].
  eapply keeps_weaken; [ | apply afterSubmit_foot ].
  apply Foot_weaken; [tauto | intros []; simpl; tauto].
Qed.

Ltac by_afterSubmit :=
  eapply keeps_weaken; [ | apply afterSubmit_foot ];
  apply Foot_weaken; [tauto | intros []; simpl; tauto].

Lemma remediate_foot force cfg key :
  keeps (Foot (schedulerJs key) anyEvent) (remediate force cfg key).
Proof.
  unfold remediate.
  keeps_walk ltac:(first [ apply clearInFlight_foot | apply keepaliveShortCircuit_foot
                         | by_orchestrator | by_afterSubmit | by_observer ]);
    scheduler_side.
Qed.

Lemma attempt_foot force cfg key :
  keeps (Foot (schedulerJs key) anyEvent) (attempt force cfg key).
Proof.
  unfold attempt. keeps_walk ltac:(first [ apply remediate_foot | by_observer ]).
Qed.

(** *** Runs through the keepalive short-circuit *)

Ltac trace_shape :=
  first [ exists []; split; [reflexivity|]
        | eexists [_]; split; [reflexivity|]
        | eexists [_; _]; split; [reflexivity|]
        | eexists [_; _; _]; split; [reflexivity|] ];
  repeat constructor.

Lemma keepaliveShortCircuit_cases key w :
  let r := keepaliveShortCircuit key w in
  (r.1 = Ret (Return false) /\
   backoffSeconds (js r.2) = 5 /\
   failedAttemptsByOrigin (js r.2) = failedAttemptsByOrigin (js w) /\
   exists l, trace r.2 = EvKeepalive key :: l ++ trace w /\ Forall calm l)
  \/
  (r.1 = Ret (Continue tt) /\
   js r.2 = js w /\
   fetches (env r.2) = fetches (env w) /\
   exists l, trace r.2 = l ++ trace w /\ Forall calm l).
Proof.
  unfold keepaliveShortCircuit, isKeepaliveTab, tabsQuery, executeKeepaliveScript,
    try_catch, mbind, M_bind, mret, M_ret, emit, modifyJs, clearInFlight, called.
  simpl.
  repeat (case_match; simpl in * ; simplify_eq);
    first [ right; repeat split; trace_shape
          | left; repeat split; trace_shape ].
Qed.

Lemma probing_calm e : probing e -> calm e.
Proof. destruct e; simpl; tauto. Qed.


(** *** The in-flight set *)

Lemma exclusively_inFlight force cfg w :
  let r := exclusively force cfg w in
  schedulerJs (originKeyOf cfg) (js w) (js r.2) /\
  (truthy (loginUrl cfg) = true ->
   force = true \/ originKeyOf cfg ∉ inFlightOrigins (js w) ->
   originKeyOf cfg ∉ inFlightOrigins (js r.2)) /\
  (originKeyOf cfg ∈ inFlightOrigins (js r.2) -> originKeyOf cfg ∈ inFlightOrigins (js w)).
Proof.
  unfold exclusively.
  destruct (truthy (loginUrl cfg)) eqn:Ht; simpl.
  2:{ split; [reflexivity|]. split; [discriminate | tauto]. }
  unfold mbind, M_bind, getJs. simpl.
  destruct (bool_decide (originKeyOf cfg ∈ inFlightOrigins (js w))) eqn:Hin;
    destruct force; simpl.
  all: try (apply bool_decide_eq_true in Hin).
  all: try (apply bool_decide_eq_false in Hin).
  2:{ split; [reflexivity|]. split; [|tauto]. intros _ [?|?]; [discriminate | contradiction]. }
  all: unfold try_finally;
    match goal with |- context [attempt ?f ?c ?k ?w1] =>
      pose proof (attempt_foot f c k w1) as [[C H] _];
      destruct (attempt f c k w1) as [r w2] end;
    unfold clearInFlight, modifyJs;
    cbn [js fst snd set_inFlightOrigins failedAttemptsByOrigin inFlightOrigins cachedConfig] in *.
  all: split; [split; [exact C|]; intros k Hk; destruct (H k Hk) as [Hfa I']; split;
                 [exact Hfa | set_solver] | ].
  all: split; [intros _ _; set_solver | set_solver].
Qed.

Lemma checkAndLogin_returns force w : exists b, (checkAndLogin force w).1 = Ret b.
Proof.
  unfold checkAndLogin, checkAndLoginTry, try_catch.
  match goal with |- context [match ?m w with _ => _ end] => destruct (m w) as [[b|e] w'] end;
    simpl; eauto.
Qed.

Lemma try_catch_world {A} (m : M A) (h : string -> M A) w :
  (forall e w', (h e w').2 = w') -> (try_catch m h w).2 = (m w).2.
Proof. intros H. unfold try_catch. destruct (m w) as [[a|e] w']; [reflexivity | apply H]. Qed.

Lemma bookkeeping_refl force g :
  force = false \/ cachedConfig g = None -> bookkeeping force g g.
Proof.
  intros H. unfold bookkeeping. destruct (cachedConfig g) as [cfg|]; [|reflexivity].
  split; [reflexivity|]. split; [|tauto].
  intros _ [Hf|Hn]; [|exact Hn]. destruct H; congruence.
Qed.

Lemma checkAndLogin_bookkeeping force w :
  bookkeeping force (js w) (js (checkAndLogin force w).2).
Proof.
  assert (Hrest : forall w1, js w1 = js w ->
    bookkeeping force (js w)
      (js ((cached ← getJs cachedConfig;
            match cached with
            | None => notify NoticeLocked;; mret false
            | Some cfg => exclusively force cfg
            end) w1).2)).
  { intros w1 Hjs. unfold mbind at 1, M_bind at 1, getJs. cbn [fst snd].
    unfold bookkeeping.
    destruct (cachedConfig (js w1)) as [cfg|] eqn:E1; rewrite Hjs in E1; rewrite E1.
    - pose proof (exclusively_inFlight force cfg w1) as H. rewrite Hjs in H. exact H.
    - simpl. exact Hjs. }
  unfold checkAndLogin. rewrite try_catch_world by reflexivity. unfold checkAndLoginTry.
  unfold mbind at 1, M_bind at 1. destruct force.
  - simpl. apply Hrest. reflexivity.
  - pose proof (isInternetUp_probes 2000 w) as [Hjs _].
    destruct (isInternetUp 2000 w) as [[[|]|e] w1]; simpl in *.
    + rewrite <- Hjs. apply bookkeeping_refl. left; reflexivity.
    + apply Hrest. symmetry. exact Hjs.
    + rewrite <- Hjs. apply bookkeeping_refl. left; reflexivity.
Qed.

(** *** The wait before an attempt *)

Lemma attempt_sleeps force cfg key w :
  0 < backoffSeconds (js w) ->
  exists l, trace (attempt force cfg key w).2
            = l ++ EvSleep (backoffSeconds (js w) * 1000) :: trace w.
Proof.
  intros Hpos. unfold attempt, backoffWait, mbind, M_bind, getJs. cbn [fst snd].
  apply Z.gtb_lt in Hpos. rewrite Hpos. unfold sleep at 1.
  match goal with |- context [remediate force cfg key ?w1] =>
    pose proof (remediate_foot force cfg key w1) as [_ (l & E & _)];
    exists l; exact E end.
Qed.

Lemma exclusively_sleeps force cfg w :
  truthy (loginUrl cfg) = true ->
  force = true \/ originKeyOf cfg ∉ inFlightOrigins (js w) ->
  0 < backoffSeconds (js w) ->
  exists l, trace (exclusively force cfg w).2
            = l ++ EvSleep (backoffSeconds (js w) * 1000) :: trace w.
Proof.
  intros Ht Hpass Hpos. unfold exclusively. rewrite Ht. simpl.
  unfold mbind, M_bind, getJs. simpl.
  assert (Hguard : bool_decide (originKeyOf cfg ∈ inFlightOrigins (js w)) && negb force = false).
  { destruct Hpass as [->|Hn]; [apply andb_false_r|].
    rewrite bool_decide_eq_false_2 by exact Hn. reflexivity. }
  rewrite Hguard. unfold try_finally.
  match goal with |- context [attempt force cfg ?k ?w1] =>
    destruct (attempt_sleeps force cfg k w1 Hpos) as [l E];
    destruct (attempt force cfg k w1) as [r w2] end.
  unfold clearInFlight, modifyJs. simpl in *. exists l. exact E.
Qed.

Lemma checkAndLogin_sleeps force w cfg :
  cachedConfig (js w) = Some cfg ->
  truthy (loginUrl cfg) = true ->
  0 < backoffSeconds (js w) ->
  force = true \/
    ((isInternetUp 2000 w).1 = Ret false /\ originKeyOf cfg ∉ inFlightOrigins (js w)) ->
  exists l1 l2,
    trace (checkAndLogin force w).2
      = l2 ++ EvSleep (backoffSeconds (js w) * 1000) :: l1 ++ trace w /\
    Forall probing l1 /\
    (force = true -> l1 = []).
Proof.
  intros Hc Ht Hpos Hpass. unfold checkAndLogin. rewrite try_catch_world by reflexivity. unfold checkAndLoginTry.
  unfold mbind at 1, M_bind at 1. destruct force.
  - simpl. unfold mbind at 1, M_bind at 1, getJs. cbn [fst snd]. rewrite Hc.
    destruct (exclusively_sleeps true cfg w Ht (or_introl eq_refl) Hpos) as [l E].
    exists [], l. split; [exact E|]. split; [constructor | reflexivity].
  - destruct Hpass as [Hf|[Hdown Hn]]; [discriminate Hf|].
    pose proof (isInternetUp_probes 2000 w) as [Hjs (l1 & E1 & F1)].
    destruct (isInternetUp 2000 w) as [r1 w1]. simpl in Hdown. subst r1.
    cbn [fst snd] in *. unfold mbind at 1, M_bind at 1, getJs. cbn [fst snd].
    rewrite <- Hjs, Hc.
    assert (Hn1 : originKeyOf cfg ∉ inFlightOrigins (js w1)) by (rewrite <- Hjs; exact Hn).
    assert (Hpos1 : 0 < backoffSeconds (js w1)) by (rewrite <- Hjs; exact Hpos).
    destruct (exclusively_sleeps false cfg w1 Ht (or_intror Hn1) Hpos1) as [l E].
    exists l1, l. split; [|split; [exact F1 | discriminate]].
    rewrite E, E1, <- Hjs. reflexivity.
Qed.

(** *** Runs while the probe answers 204 *)

Lemma isInternetUp_up timeoutMs w rest :
  fetches (env w) = FetchStatus 204 :: rest ->
  isInternetUp timeoutMs w = (Ret true, called (with_fetches rest (env w)) EvFetch w).
Proof.
  intros H. unfold isInternetUp, fetchWithTimeout, fetch, try_catch, mbind, M_bind.
  rewrite H. reflexivity.
Qed.

Lemma openPortalTabAndSubmit_already_up cfg w rest :
  fetches (env w) = FetchStatus 204 :: rest ->
  exists origin w',
    openPortalTabAndSubmit cfg w = (Ret (failed "already_up" None), w') /\
    js w' = js w /\
    fetches (env w') = rest /\
    trace w' = EvFetch :: EvOrchestrator origin :: trace w.
Proof.
  intros H. unfold openPortalTabAndSubmit, connectivityGuard.
  unfold mbind at 1, M_bind at 1, emit at 1. cbn [fst snd].
  unfold mbind at 1, M_bind at 1, try_catch at 1.
  erewrite isInternetUp_up by exact H.
  eexists _, _. split; [reflexivity|]. simpl. repeat split.
Qed.

Lemma afterSubmit_recovered key submitRes w rest :
  ok submitRes = false ->
  fetches (env w) = FetchStatus 204 :: rest ->
  exists w',
    afterSubmit key submitRes w = (Ret true, w') /\
    failedAttemptsOf key (js w') = 0 /\
    backoffSeconds (js w')
      = Backoff.friendlyBackoff (backoffSeconds (js w)) (failedAttemptsOf key (js w) + 1) /\
    createdTabIds (js w') = createdTabIds (js w) /\
    exists l, trace w' = l ++ trace w /\ Forall recovering l /\
              Forall (fun e => forall id b, e <> EvTabsRemove id b) l.
Proof.
  intros Hok H. unfold afterSubmit. rewrite Hok.
  unfold mbind at 1, M_bind at 1, modifyJs at 1. cbn [fst snd].
  unfold mbind at 1, M_bind at 1, getJs at 1. cbn [fst snd].
  unfold mbind at 1, M_bind at 1, modifyJs at 1. cbn [fst snd].
  unfold mbind at 1, M_bind at 1.
  erewrite isInternetUp_up by exact H.
  unfold notifySuccess, clearInFlight, notify, emit, dateNow, getJs, modifyJs,
    mbind, M_bind, mret, M_ret, called. simpl.
  match goal with |- context [if ?c then _ else _] => destruct c end; simpl;
    eexists; (split; [reflexivity|]); simpl; unfold failedAttemptsOf, setFailedAttempts; simpl;
    rewrite ?lookup_insert_eq; simpl; (repeat split; try reflexivity).
  - eexists [_; _]. split; [reflexivity|]. split; repeat constructor; discriminate.
  - eexists [_]. split; [reflexivity|]. split; repeat constructor; discriminate.
Qed.

Lemma calm_leavesTabsAlone e : calm e -> leavesTabsAlone e.
Proof. destruct e; simpl; tauto. Qed.

Lemma recovering_leavesTabsAlone e : recovering e -> leavesTabsAlone e.
Proof. destruct e as [| |[]| | | | | | | | | | | |]; simpl; tauto. Qed.

Lemma remediate_forced_while_up cfg key w rest :
  fetches (env w) = FetchStatus 204 :: FetchStatus 204 :: rest ->
  forcedWhileUp key (failedAttemptsOf key) w (remediate true cfg key w).
Proof.
  intros Hf. unfold remediate. unfold mbind at 1, M_bind at 1. simpl.
  unfold mbind at 1, M_bind at 1.
  destruct (keepaliveShortCircuit_cases key w)
    as [(R & _ & _ & l & E & _) | (R & Hjs & Hfe & l & E & F)];
    destruct (keepaliveShortCircuit key w) as [r1 w2]; simpl in R; subst r1;
    cbn [fst snd] in *.
  - left. exists key, (EvKeepalive key :: l). split; [exact E | left].
  - rewrite <- Hfe in Hf.
    destruct (openPortalTabAndSubmit_already_up cfg w2 _ Hf)
      as (origin & w3 & Eo & Hjs3 & Hfe3 & Et3).
    unfold mbind, M_bind. rewrite Eo.
    destruct (afterSubmit_recovered key (failed "already_up" None) w3 rest eq_refl Hfe3)
      as (w4 & Ea & Hz & _ & _ & l4 & Et4 & F4 & _).
    rewrite Ea. right. cbn [fst snd]. split; [reflexivity|]. split; [exact Hz|].
    exists (l4 ++ EvFetch :: EvOrchestrator origin :: l). split; [|split].
    + rewrite Et4, Et3, E, <- app_assoc. reflexivity.
    + apply Forall_app. split; [eapply Forall_impl; [exact F4 | exact recovering_leavesTabsAlone]|].
      constructor; [exact I|]. constructor; [exact I|].
      eapply Forall_impl; [exact F | exact calm_leavesTabsAlone].
    + exists origin. apply elem_of_app. right. right. left.
Qed.

Lemma forcedWhileUp_after key fa w w1 r l1 :
  trace w1 = l1 ++ trace w -> Forall leavesTabsAlone l1 ->
  forcedWhileUp key fa w1 r -> forcedWhileUp key fa w r.
Proof.
  intros E1 F1 [(k & l & E & Hin) | (R & Hz & l & E & F & o & Ho)].
  - left. exists k, (l ++ l1). split; [rewrite E, E1, app_assoc; reflexivity|].
    apply elem_of_app. left. exact Hin.
  - right. split; [exact R|]. split; [exact Hz|].
    exists (l ++ l1). split; [rewrite E, E1, app_assoc; reflexivity|].
    split; [apply Forall_app; split; assumption|].
    exists o. apply elem_of_app. left. exact Ho.
Qed.

Lemma attempt_forced_while_up cfg key w rest :
  fetches (env w) = FetchStatus 204 :: FetchStatus 204 :: rest ->
  forcedWhileUp key (failedAttemptsOf key) w (attempt true cfg key w).
Proof.
  intros Hf. unfold attempt, backoffWait, mbind, M_bind, getJs. cbn [fst snd].
  destruct (backoffSeconds (js w) >? 0).
  - unfold sleep at 1.
    match goal with |- context [remediate true cfg key ?w1] =>
      apply (forcedWhileUp_after _ _ w w1 _ [EvSleep (backoffSeconds (js w) * 1000)]) end;
      [reflexivity | repeat constructor | eapply remediate_forced_while_up; exact Hf].
  - simpl. eapply remediate_forced_while_up. exact Hf.
Qed.

Lemma checkAndLogin_forced_while_up w cfg rest :
  cachedConfig (js w) = Some cfg ->
  truthy (loginUrl cfg) = true ->
  fetches (env w) = FetchStatus 204 :: FetchStatus 204 :: rest ->
  forcedWhileUp (originKeyOf cfg) (failedAttemptsOf (originKeyOf cfg)) w (checkAndLogin true w).
Proof.
  intros Hc Ht Hf. unfold checkAndLogin, checkAndLoginTry, try_catch.
  unfold mbind at 1, M_bind at 1. simpl.
  unfold mbind at 1, M_bind at 1, getJs. cbn [fst snd]. rewrite Hc.
  unfold exclusively. rewrite Ht. simpl.
  unfold mbind, M_bind, getJs. simpl. rewrite andb_false_r. unfold try_finally.
  match goal with |- context [attempt true cfg ?k ?w1] =>
    pose proof (attempt_forced_while_up cfg k w1 rest Hf) as H;
    destruct (attempt true cfg k w1) as [r w2] end.
  unfold clearInFlight, modifyJs. simpl in *.
  destruct H as [(k & l & E & Hin) | (R & Hz & l & E & F & o & Ho)].
  - left. exists k, l. split; [|exact Hin]. destruct r; exact E.
  - simpl in R. subst r. right. simpl. split; [reflexivity|]. split; [exact Hz|].
    exists l. split; [exact E|]. split; [exact F|]. exists o. exact Ho.
Qed.

(** *** The registry of created tabs *)

#[global] Instance KeepsRegistry_reflexive K : Reflexive (KeepsRegistry K).
Proof. intros w H. exact H. Qed.

#[global] Instance KeepsRegistry_transitive K : Transitive (KeepsRegistry K).
Proof. intros w1 w2 w3 H1 H2 H. apply H2, H1, H. Qed.

Lemma engineCreated_cons e tr id : engineCreated tr id -> engineCreated (e :: tr) id.
Proof. intros [url H]. exists url. right. exact H. Qed.

Lemma engineCreated_app l tr id : engineCreated tr id -> engineCreated (l ++ tr) id.
Proof. intros [url H]. exists url. apply elem_of_app. right. exact H. Qed.

Lemma RegistryInvWith_extend K w g' b l :
  createdTabIds g' ⊆ createdTabIds (js w) ∪ K ->
  Forall (fun e => forall id r, e <> EvTabsRemove id r) l ->
  RegistryInvWith K w ->
  RegistryInvWith K {| js := g'; env := b; trace := l ++ trace w |}.
Proof.
  intros Hsub Hl [[Hreg Hrem] Hk]. split; [split|]; simpl.
  - intros id Hid. apply engineCreated_app.
    apply Hsub in Hid. apply elem_of_union in Hid as [Hid|Hid]; [apply Hreg | apply Hk]; exact Hid.
  - intros id r Hin. apply elem_of_app in Hin as [Hin|Hin].
    + rewrite Forall_forall in Hl. exfalso. eapply (Hl _ Hin). reflexivity.
    + destruct (Hrem id r Hin) as [-> Hc]. split; [reflexivity|].
      apply engineCreated_app. exact Hc.
  - intros id Hid. apply engineCreated_app, Hk, Hid.
Qed.

Lemma KeepsRegistry_absorbs K e :
  (forall id r, e <> EvTabsRemove id r) -> absorbs (KeepsRegistry K) e.
Proof.
  intros He w b H. apply (RegistryInvWith_extend K w (js w) b [e]); [set_solver| |exact H].
  constructor; [exact He | constructor].
Qed.

Lemma KeepsRegistry_admits K f :
  (forall g, createdTabIds (f g) ⊆ createdTabIds g ∪ K) -> admits (KeepsRegistry K) f.
Proof.
  intros Hf w H. apply (RegistryInvWith_extend K w (f (js w)) (env w) []);
    [apply Hf | constructor | exact H].
Qed.

Lemma Foot_KeepsRegistry okJs okEv K :
  (forall g g', okJs g g' -> createdTabIds g' = createdTabIds g) ->
  (forall e, okEv e -> forall id r, e <> EvTabsRemove id r) ->
  forall w w', Foot okJs okEv w w' -> KeepsRegistry K w w'.
Proof.
  intros HJ HE w w' [Hjs (l & E & F)] H.
  destruct w' as [g' b' tr']. simpl in *. subst tr'.
  apply RegistryInvWith_extend; [rewrite (HJ _ _ Hjs); set_solver | | exact H].
  eapply Forall_impl; [exact F | exact HE].
Qed.

Lemma Observes_KeepsRegistry K w w' : Observes w w' -> KeepsRegistry K w w'.
Proof.
  apply Foot_KeepsRegistry.
  - intros g g' <-. reflexivity.
  - intros [] He; try contradiction; discriminate.
Qed.

Lemma RegistryInvWith_weaken K K' w :
  K ⊆ K' -> RegistryInvWith K' w -> RegistryInvWith K w.
Proof. intros Hs [H Hk]. split; [exact H|]. intros id Hid. apply Hk, Hs, Hid. Qed.

(** after [chrome.tabs.create] resolves, the identifier of the new tab is
    known to be engine-created *)
Lemma keeps_tabsCreate_bind {B} K url (f : Tab -> M B) :
  (forall t, keeps (KeepsRegistry ({[tab_id t]} ∪ K)) (f t)) ->
  keeps (KeepsRegistry K) (tabsCreate url ≫= f).
Proof.
  intros Hf w H. unfold mbind, M_bind, tabsCreate.
  destruct (creates (env w)) as [|[t|] rest]; cbn [fst snd].
  - apply (KeepsRegistry_absorbs K (EvTabsCreate url None)); [discriminate | exact H].
  - apply (RegistryInvWith_weaken K ({[tab_id t]} ∪ K)); [set_solver|].
    apply Hf. split.
    + apply (KeepsRegistry_absorbs K (EvTabsCreate url (Some (tab_id t)))); [discriminate | exact H].
    + intros id Hid. apply elem_of_union in Hid as [Hid|Hid].
      * apply elem_of_singleton in Hid. subst id. exists url. left.
      * apply engineCreated_cons. apply H, Hid.
  - apply (KeepsRegistry_absorbs K (EvTabsCreate url None)); [discriminate | exact H].
Qed.

(** the cleanup closes a tab only after finding it in [createdTabIds] *)
Lemma closeCreatedTab_registry K submitRes :
  keeps (KeepsRegistry K) (closeCreatedTab submitRes).
Proof.
  intros w H. unfold closeCreatedTab, try_catch, mbind, M_bind, getJs. cbn [fst snd].
  destruct (truthyId (usedTabId submitRes)
            && bool_decide (default 0 (usedTabId submitRes) ∈ createdTabIds (js w))) eqn:Hc;
    [|exact H].
  apply andb_true_iff in Hc as [_ Hin]. apply bool_decide_eq_true in Hin.
  assert (Hclosed : forall g' b,
            createdTabIds g' ⊆ createdTabIds (js w) ->
            RegistryInvWith K
              {| js := g'; env := b;
                 trace := EvTabsRemove (default 0 (usedTabId submitRes)) true :: trace w |}).
  { intros g' b Hsub. destruct H as [[Hreg Hrem] Hk]. split; [split|]; simpl.
    - intros id Hid. apply engineCreated_cons, Hreg, Hsub, Hid.
    - intros id r Hr. apply elem_of_cons in Hr as [Hr|Hr].
      + inversion Hr; subst. split; [reflexivity|]. apply engineCreated_cons, Hreg, Hin.
      + destruct (Hrem id r Hr) as [-> Hc]. split; [reflexivity|].
        apply engineCreated_cons, Hc.
    - intros id Hid. apply engineCreated_cons, Hk, Hid. }
  unfold tabsRemove, acknowledged.
  rewrite (bool_decide_eq_true_2 _ Hin).
  destruct (acks (env w)) as [|[|] rest];
    unfold modifyJs, called, mret, M_ret; simpl;
    match goal with |- context [if ?c then _ else _] => destruct c end;
    simpl; apply Hclosed; simpl; set_solver.
Qed.

Ltac registry_side :=
  lazymatch goal with
  | |- absorbs (KeepsRegistry _) _ =>
      apply KeepsRegistry_absorbs; intros ? ?; discriminate
  | |- forall _, absorbs (KeepsRegistry _) _ =>
      intros ?; apply KeepsRegistry_absorbs; intros ? ?; discriminate
  | |- admits (KeepsRegistry _) _ =>
      apply KeepsRegistry_admits; intros ?; simpl; set_solver
  end.

Ltac registry_observer :=
  eapply keeps_weaken; [apply Observes_KeepsRegistry | observer_lemma].

Ltac registry_step sub :=
  first [ lazymatch goal with
          | |- keeps (KeepsRegistry _) (mbind _ (tabsCreate _)) =>
              apply keeps_tabsCreate_bind; intros ?
          end
        | keeps_step sub ].

Ltac registry_walk sub := repeat (registry_step sub); try registry_side.

Lemma connectivityGuard_registry K : keeps (KeepsRegistry K) connectivityGuard.
Proof. unfold connectivityGuard. registry_walk registry_observer. Qed.

Lemma checkProbe_registry K : keeps (KeepsRegistry K) checkProbe.
Proof. unfold checkProbe. registry_walk fail. Qed.

Lemma createProbe_registry K t0 : keeps (KeepsRegistry K) (createProbe t0).
Proof. unfold createProbe. registry_walk registry_observer. Qed.

Lemma navigateProbe_registry K origin : keeps (KeepsRegistry K) (navigateProbe origin).
Proof.
  unfold navigateProbe.
  registry_walk ltac:(first [apply connectivityGuard_registry | registry_observer]).
Qed.

Lemma createPortalTab_registry K origin : keeps (KeepsRegistry K) (createPortalTab origin).
Proof. unfold createPortalTab. registry_walk registry_observer. Qed.

Lemma acquirePortalTab_registry K origin : keeps (KeepsRegistry K) (acquirePortalTab origin).
Proof.
  unfold acquirePortalTab.
  registry_walk ltac:(first [ apply checkProbe_registry | apply createProbe_registry
                            | apply navigateProbe_registry | apply createPortalTab_registry ]).
Qed.

Lemma detectRetries_registry K turns checkAttempt tabId detectResult :
  keeps (KeepsRegistry K) (detectRetries turns checkAttempt tabId detectResult).
Proof.
  revert checkAttempt detectResult.
  induction turns as [|turns IH]; intros checkAttempt detectResult; simpl.
  - registry_walk fail.
  - registry_walk ltac:(first [apply IH | registry_observer]).
Qed.

Lemma injectAcrossFrames_registry K tabId createdTabId :
  keeps (KeepsRegistry K) (injectAcrossFrames tabId createdTabId).
Proof. unfold injectAcrossFrames. registry_walk fail. Qed.

Lemma openPortalTabAndSubmit_registry K cfg :
  keeps (KeepsRegistry K) (openPortalTabAndSubmit cfg).
Proof.
  unfold openPortalTabAndSubmit.
  registry_walk ltac:(first [ apply connectivityGuard_registry
                            | apply acquirePortalTab_registry
                            | apply detectRetries_registry
                            | apply injectAcrossFrames_registry
                            | registry_observer ]).
Qed.

Lemma afterSubmit_registry K key submitRes :
  keeps (KeepsRegistry K) (afterSubmit key submitRes).
Proof.
  unfold afterSubmit, notifySuccess, clearInFlight.
  registry_walk ltac:(first [ apply closeCreatedTab_registry | registry_observer ]).
Qed.

Lemma keepaliveShortCircuit_registry K key :
  keeps (KeepsRegistry K) (keepaliveShortCircuit key).
Proof.
  unfold keepaliveShortCircuit, clearInFlight. registry_walk registry_observer.
Qed.

Lemma checkAndLogin_registry K force : keeps (KeepsRegistry K) (checkAndLogin force).
Proof.
  unfold checkAndLogin, checkAndLoginTry, exclusively, attempt, remediate, clearInFlight.
  registry_walk ltac:(first [ apply keepaliveShortCircuit_registry
                            | apply openPortalTabAndSubmit_registry
                            | apply afterSubmit_registry
                            | registry_observer ]).
Qed.

Lemma onMessage_registry K msg : keeps (KeepsRegistry K) (onMessage msg).
Proof.
  unfold onMessage, cacheConfig.
  registry_walk ltac:(apply checkAndLogin_registry).
Qed.

Lemma onAlarm_registry K name : keeps (KeepsRegistry K) (onAlarm name).
Proof. unfold onAlarm. registry_walk ltac:(apply checkAndLogin_registry). Qed.

(** *** The loop of [waitForTabLoaded] always reaches its exit *)

Lemma waitLoop_S fuel tabId start timeoutMs :
  waitLoop (S fuel) tabId start timeoutMs =
  (t ← dateNow;
   if t - start <? timeoutMs then
     r ← try_catch
           (tab ← tabsGet tabId;
            match tab with
            | None => mret (Some false)
            | Some tab =>
                if String.eqb (tab_status tab) "complete" then mret (Some true)
                else mret None
            end)
           (fun _ => mret (Some false));
     match r with
     | Some b => mret b
     | None => sleep 300;; waitLoop fuel tabId start timeoutMs
     end
   else mret false).
Proof. reflexivity. Qed.

Lemma waitLoop_fuel fuel tabId start timeoutMs w :
  timeoutMs <= (now (env w) - start) + 300 * Z.of_nat fuel ->
  waitLoop (S fuel) tabId start timeoutMs w = waitLoop fuel tabId start timeoutMs w.
Proof.
  revert w. induction fuel as [|fuel IH]; intros w Hle.
  - simpl. unfold mbind, M_bind, dateNow. cbn [fst snd].
    assert ((now (env w) - start <? timeoutMs) = false) as -> by lia. reflexivity.
  - rewrite (waitLoop_S (S fuel)), (waitLoop_S fuel).
    unfold mbind, M_bind, dateNow, try_catch, tabsGet, sleep, called, mret, M_ret.
    cbn [fst snd].
    destruct (now (env w) - start <? timeoutMs); [|reflexivity].
    destruct (gets (env w)) as [|[[t|]|] rest]; cbn [fst snd];
      try destruct (String.eqb (tab_status t) "complete"); cbn [fst snd]; try reflexivity.
    apply IH. cbn [env now with_now with_gets]. lia.
Qed.

Lemma waitLoop_enough extra tabId start timeoutMs w :
  start <= now (env w) ->
  waitLoop (Z.to_nat (timeoutMs / 300) + 1 + extra) tabId start timeoutMs w
  = waitLoop (Z.to_nat (timeoutMs / 300) + 1) tabId start timeoutMs w.
Proof.
  intros Hstart. induction extra as [|extra IH].
  - rewrite Nat.add_0_r. reflexivity.
  - rewrite Nat.add_succ_r, waitLoop_fuel; [exact IH|].
    destruct (Z.le_gt_cases 0 timeoutMs) as [Hpos|Hneg].
    + pose proof (Z.mul_succ_div_gt timeoutMs 300 ltac:(lia)).
      rewrite !Nat2Z.inj_add, Z2Nat.id by (apply Z.div_pos; lia). lia.
    + lia.
Qed.

(** [waitForTabLoaded] does not depend on the number of turns it is given,
    beyond the ones it has *)
Lemma waitForTabLoaded_fuel extra tabId timeoutMs w :
  (start ← dateNow;
   waitLoop (Z.to_nat (timeoutMs / 300) + 1 + extra) tabId start timeoutMs) w
  = waitForTabLoaded tabId timeoutMs w.
Proof.
  unfold waitForTabLoaded. rewrite !bind_run. unfold dateNow. cbn [fst snd].
  apply waitLoop_enough. reflexivity.
Qed.

(** *** The loop of the field detection stops by its own condition *)

Lemma detectRetries_S turns checkAttempt tabId detectResult :
  detectRetries (S turns) checkAttempt tabId detectResult =
  if (checkAttempt <? MAX_FIELD_CHECK_TRIES)%nat && negb (found detectResult) then
    (if RELOAD_ON_FIRST_FAIL && (checkAttempt =? 0)%nat then
       try_catch (tabsReload tabId;; waitForTabLoaded tabId 7000;; mret tt)
                 (fun _ => mret tt)
     else sleep FIELD_CHECK_INTERVAL_MS);;
    detectResult' ← detectFieldsInTab tabId;
    detectRetries turns (S checkAttempt) tabId detectResult'
  else mret detectResult.
Proof. reflexivity. Qed.

Lemma detectRetries_fuel turns checkAttempt tabId detectResult w :
  (MAX_FIELD_CHECK_TRIES <= checkAttempt + turns)%nat ->
  detectRetries (S turns) checkAttempt tabId detectResult w
  = detectRetries turns checkAttempt tabId detectResult w.
Proof.
  revert checkAttempt detectResult w.
  induction turns as [|turns IH]; intros checkAttempt detectResult w Hle.
  - cbn [detectRetries].
    assert ((checkAttempt <? MAX_FIELD_CHECK_TRIES)%nat = false) as ->
      by (apply Nat.ltb_ge; lia).
    reflexivity.
  - rewrite (detectRetries_S (S turns)), (detectRetries_S turns).
    destruct ((checkAttempt <? MAX_FIELD_CHECK_TRIES)%nat && negb (found detectResult));
      [|reflexivity].
    rewrite !bind_run.
    match goal with |- context [match ?m w with _ => _ end] =>
      destruct (m w) as [[[]|e] w1] end; [|reflexivity].
    rewrite !bind_run.
    destruct (detectFieldsInTab tabId w1) as [[detectResult'|e] w2]; [|reflexivity].
    apply IH. lia.
Qed.

(** *** Ignoring case and lower-casing *)

Lemma N_of_ascii_inj a b : N_of_ascii a = N_of_ascii b -> a = b.
Proof.
  intros H. rewrite <- (ascii_N_embedding a), <- (ascii_N_embedding b), H. reflexivity.
Qed.

Lemma charEq_ignoreCase_lower p c :
  isUpperAZ p = false -> charEq true p c = true -> charToLower c = p.
Proof.
  unfold charEq, charToUpper, charToLower, isUpperAZ, isLowerAZ.
  pose proof (N_ascii_bounded p) as Hp. pose proof (N_ascii_bounded c) as Hc.
  intros Hup Heq. apply Ascii.eqb_eq in Heq. apply (f_equal N_of_ascii) in Heq.
  apply N_of_ascii_inj. revert Hup Heq.
  destruct (N.leb_spec 97 (N_of_ascii p)); destruct (N.leb_spec (N_of_ascii p) 122);
  destruct (N.leb_spec 97 (N_of_ascii c)); destruct (N.leb_spec (N_of_ascii c) 122);
  destruct (N.leb_spec 65 (N_of_ascii p)); destruct (N.leb_spec (N_of_ascii p) 90);
  destruct (N.leb_spec 65 (N_of_ascii c)); destruct (N.leb_spec (N_of_ascii c) 90);
  cbn [andb]; intros Hup Heq; try discriminate Hup;
  rewrite ?N_ascii_embedding in * by lia; lia.
Qed.

Lemma matchAt_ignoreCase_lower pat s :
  lowerLiteral pat = true -> matchAt true pat s = true ->
  matchAt false pat (toLowerCase s) = true.
Proof.
  revert s. induction pat as [|p pat IH]; intros s Hl H; [reflexivity|].
  destruct s as [|c s]; [discriminate H|].
  simpl in *. apply andb_true_iff in Hl as [Hp Hl]. apply andb_true_iff in H as [Hc H].
  apply negb_true_iff in Hp.
  rewrite (charEq_ignoreCase_lower p c Hp Hc). unfold charEq. rewrite Ascii.eqb_refl.
  simpl. apply IH; assumption.
Qed.

Lemma search_ignoreCase_lower pat s :
  lowerLiteral pat = true -> search true pat s = true ->
  search false pat (toLowerCase s) = true.
Proof.
  intros Hl. induction s as [|c s IH]; intros H; cbn [search] in H;
    apply orb_true_iff in H as [H|H]; cbn [toLowerCase search].
  - apply (matchAt_ignoreCase_lower _ _ Hl) in H. cbn [toLowerCase] in H.
    rewrite H. reflexivity.
  - discriminate H.
  - apply (matchAt_ignoreCase_lower _ _ Hl) in H. cbn [toLowerCase] in H.
    rewrite H. reflexivity.
  - rewrite (IH H). apply orb_true_r.
Qed.

Lemma regexTest_ignoreCase_lower alternatives s :
  forallb lowerLiteral alternatives = true ->
  regexTest true alternatives s = true ->
  regexTest false alternatives (toLowerCase s) = true.
Proof.
  unfold regexTest. induction alternatives as [|pat alts IH]; simpl; intros Hl H;
    [discriminate H|].
  apply andb_true_iff in Hl as [Hp Hl]. apply orb_true_iff in H as [H|H].
  - rewrite (search_ignoreCase_lower pat s Hp H). reflexivity.
  - rewrite (IH Hl H). apply orb_true_r.
Qed.

(** *** A forced call reaches the keepalive short-circuit or the orchestrator *)

Lemma openPortalTabAndSubmit_marks cfg w :
  exists origin l,
    trace (openPortalTabAndSubmit cfg w).2 = l ++ EvOrchestrator origin :: trace w /\
    (originKeyOf cfg <> "" -> origin = originKeyOf cfg).
Proof.
  unfold openPortalTabAndSubmit, originKeyOf.
  set (o := originOf (Some (orEmpty (loginUrl cfg)))).
  set (origin := if String.eqb o "" then orEmpty (loginUrl cfg) else o).
  unfold mbind at 1, M_bind at 1, emit at 1. cbn [fst snd].
  match goal with |- context [mbind ?f connectivityGuard ?w1] =>
    assert (Hk : keeps (Foot orchestratorJs orchestratorEv) (mbind f connectivityGuard));
    [ | destruct (Hk w1) as [_ (l & E & _)] ]
  end.
  { keeps_walk ltac:(first [ apply connectivityGuard_foot | apply acquirePortalTab_foot
                           | apply detectRetries_foot | apply injectAcrossFrames_foot
                           | by_observer ]);
      orchestrator_side. }
  exists origin, l. split; [exact E|].
  intros Hne. subst origin. destruct (String.eqb o "") eqn:Eo; [|reflexivity].
  apply String.eqb_eq in Eo. contradiction.
Qed.

Lemma remediate_forced_reaches cfg key w :
  exists l, trace (remediate true cfg key w).2 = l ++ trace w /\
    (EvKeepalive key ∈ l \/
     exists origin, EvOrchestrator origin ∈ l /\
                    (originKeyOf cfg <> "" -> origin = originKeyOf cfg)).
Proof.
  unfold remediate. unfold mbind at 1, M_bind at 1. simpl.
  unfold mbind at 1, M_bind at 1.
  destruct (keepaliveShortCircuit_cases key w)
    as [(R & _ & _ & l & E & _) | (R & _ & _ & l & E & _)];
    destruct (keepaliveShortCircuit key w) as [r1 w2]; simpl in R; subst r1;
    cbn [fst snd] in *.
  - exists (EvKeepalive key :: l). split; [exact E|]. left. left.
  - unfold mbind, M_bind.
    destruct (openPortalTabAndSubmit_marks cfg w2) as (origin & l2 & E2 & Ho).
    destruct (openPortalTabAndSubmit cfg w2) as [[submitRes|e] w3]; cbn [fst snd] in *.
    + pose proof (afterSubmit_foot key submitRes w3) as [_ (l3 & E3 & _)].
      exists (l3 ++ l2 ++ EvOrchestrator origin :: l). split.
      * rewrite E3, E2, E, <- !app_assoc. reflexivity.
      * right. exists origin. split; [|exact Ho].
        apply elem_of_app. right. apply elem_of_app. right. left.
    + exists (l2 ++ EvOrchestrator origin :: l). split.
      * rewrite E2, E, <- app_assoc. reflexivity.
      * right. exists origin. split; [|exact Ho]. apply elem_of_app. right. left.
Qed.

Lemma backoffWait_returns w : (backoffWait w).1 = Ret tt.
Proof.
  unfold backoffWait, mbind, M_bind, getJs. cbn [fst snd].
  destruct (backoffSeconds (js w) >? 0); reflexivity.
Qed.

Lemma checkAndLogin_forced_reaches w cfg :
  cachedConfig (js w) = Some cfg ->
  truthy (loginUrl cfg) = true ->
  exists l, trace (checkAndLogin true w).2 = l ++ trace w /\
    (EvKeepalive (originKeyOf cfg) ∈ l \/
     exists origin, EvOrchestrator origin ∈ l /\
                    (originKeyOf cfg <> "" -> origin = originKeyOf cfg)).
Proof.
  intros Hc Ht. unfold checkAndLogin. rewrite try_catch_world by reflexivity. unfold checkAndLoginTry.
  unfold mbind at 1, M_bind at 1. simpl.
  unfold mbind at 1, M_bind at 1, getJs. cbn [fst snd]. rewrite Hc.
  unfold exclusively. rewrite Ht. simpl.
  unfold mbind, M_bind, getJs. simpl. rewrite andb_false_r. unfold try_finally.
  unfold attempt, mbind, M_bind.
  match goal with |- context [backoffWait ?w1] =>
    pose proof (backoffWait_probes w1) as [_ (l1 & E1 & _)];
    pose proof (backoffWait_returns w1) as Hr;
    destruct (backoffWait w1) as [r0 w2] end; cbn [fst snd] in *. subst r0.
  destruct (remediate_forced_reaches cfg (originKeyOf cfg) w2) as (l & E & H).
  destruct (remediate true cfg (originKeyOf cfg) w2) as [r w3].
  unfold clearInFlight, modifyJs. simpl in *.
  exists (l ++ l1). split; [rewrite E, E1, app_assoc; reflexivity|].
  destruct H as [H|(o & H & Ho)]; [left | right; exists o; split; [|exact Ho]];
    apply elem_of_app; left; exact H.
Qed.

(** *** The tab handed to the cleanup was created by the same call *)

Lemma Foot_trace okJs okEv w w' : Foot okJs okEv w w' -> exists l, trace w' = l ++ trace w.
Proof. intros [_ (l & E & _)]. exists l. exact E. Qed.

Lemma createProbe_created t0 w id w' :
  createProbe t0 w = (Ret (Some id), w') ->
  exists l, trace w' = l ++ trace w /\ EvTabsCreate PROBE_URL (Some id) ∈ l.
Proof.
  unfold createProbe, try_catch, mbind, M_bind, getJs, modifyJs, dateNow, mret, M_ret,
    tabsCreate.
  cbn [fst snd].
  destruct (negb (truthyId (probeTabId (js w))) && _); [|intros Hd; discriminate Hd].
  destruct (creates (env w)) as [|[t|] rest]; cbn [fst snd js env trace called];
    try (intros Hd; discriminate Hd).
  match goal with |- context [waitForTabLoaded ?i ?t ?w1] =>
    pose proof (waitForTabLoaded_observes i t w1) as Hw;
    destruct (waitForTabLoaded i t w1) as [[b|e] w2] end;
    apply Foot_trace in Hw as [l E]; cbn [fst snd js env trace] in *;
    intros [= <- <-]; cbn [trace];
    exists (l ++ [EvTabsCreate PROBE_URL (Some (tab_id t))]);
    (split; [rewrite E, <- app_assoc; reflexivity | apply elem_of_app; right; left]).
Qed.

Lemma createPortalTab_created origin w p id w' :
  createPortalTab origin w = (Ret (Continue (p, Some id)), w') ->
  exists l, trace w' = l ++ trace w /\ EvTabsCreate origin (Some id) ∈ l.
Proof.
  unfold createPortalTab, try_catch, mbind, M_bind, modifyJs, mret, M_ret, tabsCreate.
  destruct (creates (env w)) as [|[t|] rest]; cbn [fst snd js env trace called];
    try (intros Hd; discriminate Hd).
  match goal with |- context [waitForTabLoaded ?i ?t ?w1] =>
    pose proof (waitForTabLoaded_observes i t w1) as Hw;
    destruct (waitForTabLoaded i t w1) as [[b|e] w2] end;
    apply Foot_trace in Hw as [l E]; cbn [fst snd js env trace] in *;
    intros [= ]; subst.
  exists (l ++ [EvTabsCreate origin (Some (tab_id t))]).
  split; [rewrite E, <- app_assoc; reflexivity | apply elem_of_app; right; left].
Qed.

Lemma createPortalTab_returns origin w r w' :
  createPortalTab origin w = (Ret (Return r), w') -> usedTabId r = None.
Proof.
  unfold createPortalTab, try_catch, mbind, M_bind, modifyJs, mret, M_ret, tabsCreate.
  destruct (creates (env w)) as [|[t|] rest]; cbn [fst snd js env trace called];
    try (intros [= <- _]; reflexivity).
  match goal with |- context [waitForTabLoaded ?i ?t ?w1] =>
    destruct (waitForTabLoaded i t w1) as [[b|e] w2] end;
    cbn [fst snd]; intros [= ]; subst; reflexivity.
Qed.

Lemma navigateProbe_returns origin w r w' :
  navigateProbe origin w = (Ret (Return r), w') -> usedTabId r = None.
Proof.
  unfold navigateProbe, try_catch, mbind, M_bind, getJs. cbn [fst snd].
  destruct (connectivityGuard w) as [[[|]|e] w1]; cbn [fst snd];
    unfold mret, M_ret; try (intros [= <- _]; reflexivity); try (intros Hd; discriminate Hd).
  destruct (tabsUpdate _ _ w1) as [[[]|e] w2]; cbn [fst snd];
    try (intros Hd; discriminate Hd).
  destruct (waitForTabLoaded _ _ w2) as [[b|e] w3]; cbn [fst snd];
    try (intros Hd; discriminate Hd).
  destruct (tabsGet _ w3) as [[t|e] w4]; cbn [fst snd]; intros Hd; discriminate Hd.
Qed.

Lemma tabsQuery_trace w : exists l, trace (tabsQuery w).2 = l ++ trace w.
Proof.
  apply (Foot_trace anyJs anyEvent). apply (keeps_tabsQuery (Foot anyJs anyEvent)). foot_side.
Qed.

Lemma extends_trans (w1 w2 w3 : World) :
  (exists l, trace w2 = l ++ trace w1) -> (exists l, trace w3 = l ++ trace w2) ->
  exists l, trace w3 = l ++ trace w1.
Proof.
  intros [l1 E1] [l2 E2]. exists (l2 ++ l1). rewrite E2, E1, app_assoc. reflexivity.
Qed.

Lemma created_later (w1 w2 w3 : World) url id :
  (exists l, trace w2 = l ++ trace w1) ->
  (exists l, trace w3 = l ++ trace w2 /\ EvTabsCreate url (Some id) ∈ l) ->
  exists l, trace w3 = l ++ trace w1 /\ EvTabsCreate url (Some id) ∈ l.
Proof.
  intros [l1 E1] (l2 & E2 & Hin). exists (l2 ++ l1).
  split; [rewrite E2, E1, app_assoc; reflexivity | apply elem_of_app; left; exact Hin].
Qed.

Lemma created_earlier (w1 w2 w3 : World) url id :
  (exists l, trace w2 = l ++ trace w1 /\ EvTabsCreate url (Some id) ∈ l) ->
  (exists l, trace w3 = l ++ trace w2) ->
  exists l, trace w3 = l ++ trace w1 /\ EvTabsCreate url (Some id) ∈ l.
Proof.
  intros (l1 & E1 & Hin) [l2 E2]. exists (l2 ++ l1).
  split; [rewrite E2, E1, app_assoc; reflexivity | apply elem_of_app; right; exact Hin].
Qed.

Lemma acquirePortalTab_result origin w a w' :
  acquirePortalTab origin w = (Ret a, w') ->
  match a with
  | Continue (_, Some id) =>
      exists url l, trace w' = l ++ trace w /\ EvTabsCreate url (Some id) ∈ l
  | Continue (_, None) => True
  | Return r => usedTabId r = None
  end.
Proof.
  unfold acquirePortalTab. rewrite bind_run.
  pose proof (tabsQuery_trace w) as T1.
  destruct (tabsQuery w) as [[tabs|e] w1]; [|intros Hd; discriminate Hd].
  cbn [fst snd] in T1.
  destruct (Fields.jsFind (tabAtOrigin origin) tabs) as [portalTab|].
  { rewrite bind_run. destruct (try_catch _ _ w1) as [[[]|e] w2]; intros [= <- _]. exact I. }
  rewrite bind_run. unfold dateNow at 1. cbn [fst snd].
  rewrite bind_run.
  pose proof (Foot_trace _ _ _ _ (checkProbe_foot w1)) as T2.
  destruct (checkProbe w1) as [[[]|e] w2]; [|intros Hd; discriminate Hd].
  cbn [fst snd] in T2.
  rewrite bind_run.
  pose proof (createProbe_created (now (env w1)) w2) as C3.
  pose proof (Foot_trace _ _ _ _ (createProbe_foot (now (env w1)) w2)) as T3.
  destruct (createProbe (now (env w1)) w2) as [[createdTabId|e] w3];
    [|intros Hd; discriminate Hd].
  cbn [fst snd] in T3.
  rewrite bind_run.
  match goal with |- context [try_catch ?m ?h w3] =>
    assert (T4 : exists l, trace (try_catch m h w3).2 = l ++ trace w3)
      by (apply (Foot_trace orchestratorJs orchestratorEv);
          revert w3 C3 T3; clear; intros w3 _ _; revert w3;
          change (keeps (Foot orchestratorJs orchestratorEv) (try_catch m h));
          keeps_walk fail; orchestrator_side);
    destruct (try_catch m h w3) as [[portalTab|e] w4]
  end; [|intros Hd; discriminate Hd].
  cbn [fst snd] in T4.
  rewrite bind_run. unfold getJs at 1. cbn [fst snd].
  rewrite bind_run.
  assert (Hnav : forall p w5,
            (if negb (bool_decide (is_Some portalTab)) && truthyId (probeTabId (js w4))
             then navigateProbe origin
             else mret (Continue portalTab)) w4 = (Ret (Continue p), w5) ->
            exists l, trace w5 = l ++ trace w4).
  { intros p w5 E. destruct (negb _ && _).
    - pose proof (Foot_trace _ _ _ _ (navigateProbe_foot origin w4)) as T. rewrite E in T. exact T.
    - injection E as _ <-. exists []. reflexivity. }
  assert (Hret : forall r w5,
            (if negb (bool_decide (is_Some portalTab)) && truthyId (probeTabId (js w4))
             then navigateProbe origin
             else mret (Continue portalTab)) w4 = (Ret (Return r), w5) ->
            usedTabId r = None).
  { intros r w5 E. destruct (negb _ && _).
    - eapply navigateProbe_returns. exact E.
    - discriminate E. }
  destruct ((if negb (bool_decide (is_Some portalTab)) && truthyId (probeTabId (js w4))
             then navigateProbe origin
             else mret (Continue portalTab)) w4) as [[[[p|]|r]|e] w5] eqn:En.
  - (* a portal tab was found: the probe, if created, is the created tab *)
    intros [= <- <-]. destruct createdTabId as [id|]; [|exact I].
    exists PROBE_URL.
    eapply created_earlier; [|eapply extends_trans; [exact T4 | eapply Hnav; reflexivity]].
    eapply created_later; [eapply extends_trans; [exact T1 | exact T2]|].
    apply C3. reflexivity.
  - (* last resort *)
    intros E. destruct a as [[p [id|]]|r].
    + exists origin.
      eapply created_later; [|eapply createPortalTab_created; exact E].
      eapply extends_trans; [|eapply Hnav; reflexivity].
      eapply extends_trans; [|exact T4].
      eapply extends_trans; [|exact T3].
      eapply extends_trans; [exact T1 | exact T2].
    + exact I.
    + eapply createPortalTab_returns. exact E.
  - intros [= <- _]. eapply Hret. reflexivity.
  - intros Hd. discriminate Hd.
Qed.

Lemma injectAcrossFrames_used tabId createdTabId w r w' :
  injectAcrossFrames tabId createdTabId w = (Ret r, w') ->
  usedTabId r = createdTabId /\ exists l, trace w' = l ++ trace w.
Proof.
  intros E. split.
  - revert E. unfold injectAcrossFrames, try_catch, mbind, M_bind, executeInjectScript, mret, M_ret.
    destruct (injects (env w)) as [|[rs|] rest]; cbn [fst snd];
      try destruct (successFrame rs); intros [= <- _]; reflexivity.
  - pose proof (Foot_trace _ _ _ _ (injectAcrossFrames_foot tabId createdTabId w)) as T.
    rewrite E in T. exact T.
Qed.

Lemma openPortalTabAndSubmit_uses_created cfg w r w' id :
  openPortalTabAndSubmit cfg w = (Ret r, w') ->
  usedTabId r = Some id ->
  exists url l, trace w' = l ++ trace w /\ EvTabsCreate url (Some id) ∈ l.
Proof.
  unfold openPortalTabAndSubmit.
  set (origin := if String.eqb _ "" then _ else _).
  rewrite bind_run. unfold emit at 1. cbn [fst snd].
  set (w1 := {| js := js w; env := env w; trace := EvOrchestrator origin :: trace w |}).
  assert (T1 : exists l, trace w1 = l ++ trace w) by (exists [EvOrchestrator origin]; reflexivity).
  rewrite bind_run.
  pose proof (Foot_trace _ _ _ _ (connectivityGuard_foot w1)) as T2.
  destruct (connectivityGuard w1) as [[[|]|e] w2]; cbn [fst snd] in *;
    try (intros [= <- _] Hd; discriminate Hd); try (intros Hd; discriminate Hd).
  rewrite bind_run.
  pose proof (acquirePortalTab_result origin w2) as HA.
  destruct (acquirePortalTab origin w2) as [[[[[portalTab|] createdTabId]|r0]|e] w3];
    cbn [fst snd] in *;
    try (intros [= <- _] Hd; discriminate Hd); try (intros Hd; discriminate Hd).
  - specialize (HA _ _ eq_refl). cbn beta iota in HA.
    rewrite bind_run.
    pose proof (Foot_trace _ _ _ _ (detectFieldsInTab_observes (tab_id portalTab) w3)) as T4.
    destruct (detectFieldsInTab (tab_id portalTab) w3) as [[first|e] w4]; cbn [fst snd] in *;
      try (intros Hd; discriminate Hd).
    rewrite bind_run.
    pose proof (Foot_trace _ _ _ _
                  (detectRetries_foot MAX_FIELD_CHECK_TRIES 0 (tab_id portalTab) first w4)) as T5.
    destruct (detectRetries MAX_FIELD_CHECK_TRIES 0 (tab_id portalTab) first w4)
      as [[detectResult|e] w5]; cbn [fst snd] in *; try (intros Hd; discriminate Hd).
    destruct (negb (found detectResult)); [intros [= <- _] Hd; discriminate Hd|].
    intros EI Hu. destruct (injectAcrossFrames_used _ _ _ _ _ EI) as [Hc T6].
    rewrite Hu in Hc. subst createdTabId. destruct HA as (url & HA). exists url.
    eapply created_earlier; [|eapply extends_trans; [|exact T6];
                              eapply extends_trans; [exact T4 | exact T5]].
    eapply created_later; [eapply extends_trans; [exact T1 | exact T2] | exact HA].
  - specialize (HA _ _ eq_refl). cbn beta iota in HA.
    intros [= <- _] Hu. rewrite HA in Hu. discriminate Hu.
Qed.

Lemma closeCreatedTab_closes_used submitRes w id r :
  EvTabsRemove id r ∈ trace (closeCreatedTab submitRes w).2 ->
  EvTabsRemove id r ∈ trace w \/ usedTabId submitRes = Some id.
Proof.
  unfold closeCreatedTab, try_catch, mbind, M_bind, getJs, tabsRemove, acknowledged,
    modifyJs, mret, M_ret, called.
  cbn [fst snd].
  destruct (usedTabId submitRes) as [tid|]; cbn [truthyId default andb];
    [|intros H; left; exact H].
  destruct (negb (tid =? 0) && _); [|intros H; left; exact H].
  destruct (acks (env w)) as [|[|] rest]; cbn [fst snd js env trace];
    match goal with |- context [if ?c then _ else _] => destruct c end;
    cbn [fst snd js env trace];
    intros H; apply elem_of_cons in H as [H|H];
    try (left; exact H); injection H as -> _; right; reflexivity.
Qed.

(** *** Runs written out: the probe, the wait, the first query *)

Lemma isInternetUp_probed timeoutMs w :
  isInternetUp timeoutMs w = (Ret (probeResult (fetches (env w))), probed timeoutMs w).
Proof.
  unfold isInternetUp, fetchWithTimeout, fetch, sleep, try_catch, mbind, M_bind, mret, M_ret,
    probeResult, probed, waited, called.
  destruct w as [g b tr]. cbn [js env trace fst snd].
  destruct (fetches b) as [|[s1| |] [|[s2| |] rest]];
    cbn [fst snd lookup list_lookup is204 orb];
    try destruct (s1 =? 204); cbn [fst snd orb js env trace fetches now with_fetches with_now];
    rewrite ?Z.add_0_r; reflexivity.
Qed.

Lemma isInternetUp_run w :
  isInternetUp 2000 w = (Ret (probeResult (fetches (env w))), afterProbe w).
Proof. apply isInternetUp_probed. Qed.

Lemma waited_bounds timeoutMs o : 0 <= waited timeoutMs o <= Z.max 0 timeoutMs.
Proof. unfold waited. destruct o as [[]|]; lia. Qed.

Lemma afterProbe_js w : js (afterProbe w) = js w.
Proof. unfold afterProbe, probed. destruct (is204 _); reflexivity. Qed.

Lemma probeResult_down fs :
  probeResult fs = false -> is204 (fs !! 0%nat) = false /\ is204 (fs !! 1%nat) = false.
Proof. unfold probeResult. intros H. apply orb_false_iff in H. exact H. Qed.

Lemma afterProbe_down w :
  probeResult (fetches (env w)) = false ->
  afterProbe w
  = {| js := js w;
       env := with_fetches (drop 2 (fetches (env w)))
                (with_now (now (env w) + waited 2000 (fetches (env w) !! 0%nat) + 300
                           + waited 2000 (fetches (env w) !! 1%nat)) (env w));
       trace := EvFetch :: EvSleep 300 :: EvFetch :: trace w |}.
Proof.
  intros H. apply probeResult_down in H as [H _]. unfold afterProbe, probed. rewrite H.
  reflexivity.
Qed.

Lemma afterProbe_env w :
  queries (env (afterProbe w)) = queries (env w) /\
  gets (env (afterProbe w)) = gets (env w) /\
  creates (env (afterProbe w)) = creates (env w) /\
  acks (env (afterProbe w)) = acks (env w) /\
  detects (env (afterProbe w)) = detects (env w) /\
  keepalives (env (afterProbe w)) = keepalives (env w) /\
  injects (env (afterProbe w)) = injects (env w) /\
  now (env w) <= now (env (afterProbe w)) <= now (env w) + (2 * 2000 + 300).
Proof.
  pose proof (waited_bounds 2000 (fetches (env w) !! 0%nat)) as H0.
  pose proof (waited_bounds 2000 (fetches (env w) !! 1%nat)) as H1.
  unfold afterProbe, probed. destruct (is204 _); cbn [env js fetches queries gets creates acks
    detects keepalives injects now with_fetches with_now]; repeat split; lia.
Qed.

Lemma checkAndLogin_nonforced_run w :
  checkAndLogin false w
  = if probeResult (fetches (env w)) then (Ret true, afterProbe w)
    else try_catch (cached ← getJs cachedConfig;
                    match cached with
                    | None => notify NoticeLocked;; mret false
                    | Some cfg => exclusively false cfg
                    end) (fun _ => mret false) (afterProbe w).
Proof.
  unfold checkAndLogin, checkAndLoginTry, try_catch. rewrite bind_run, isInternetUp_run.
  destruct (probeResult (fetches (env w))); reflexivity.
Qed.

Lemma bind_assoc {A B C} (m : M A) (f : A -> M B) (g : B -> M C) w :
  ((m ≫= f) ≫= g) w = (m ≫= (fun a => f a ≫= g)) w.
Proof. rewrite !bind_run. destruct (m w) as [[a|e] w1]; reflexivity. Qed.

Lemma tabsQuery_run w :
  tabsQuery w
  = match queries (env w) with
    | Some tabs :: _ =>
        (Ret tabs, called (with_queries (tl (queries (env w))) (env w)) EvTabsQuery w)
    | None :: _ =>
        (Throw "Error: tabs.query",
         called (with_queries (tl (queries (env w))) (env w)) EvTabsQuery w)
    | [] => (Ret [], called (with_queries (tl (queries (env w))) (env w)) EvTabsQuery w)
    end.
Proof. reflexivity. Qed.

Lemma backoffWait_run w :
  backoffWait w
  = (Ret tt, if backoffSeconds (js w) >? 0 then slept (backoffSeconds (js w) * 1000) w else w).
Proof.
  unfold backoffWait. rewrite bind_run. unfold getJs at 1. cbn [fst snd].
  destruct (backoffSeconds (js w) >? 0); reflexivity.
Qed.

(** *** Runs written out: from the entry of [checkAndLogin] to the keepalive check *)

Lemma afterProbe_probes w : Probes w (afterProbe w).
Proof.
  pose proof (isInternetUp_probes 2000 w) as H. rewrite isInternetUp_run in H. exact H.
Qed.

Lemma checkAndLogin_attempt_run force w cfg :
  cachedConfig (js w) = Some cfg ->
  truthy (loginUrl cfg) = true ->
  startsAttempt force cfg w ->
  checkAndLogin force w
  = try_catch (try_finally (attempt force cfg (originKeyOf cfg))
                           (clearInFlight (originKeyOf cfg)))
              (fun _ => mret false) (atAttempt force cfg w).
Proof.
  intros Hc Ht Hs. unfold atAttempt, assigned. destruct force.
  - unfold checkAndLogin, checkAndLoginTry, try_catch. rewrite bind_run.
    unfold mret at 1, M_ret at 1. cbn beta iota.
    rewrite bind_run. unfold getJs at 1. cbn [fst snd]. rewrite Hc.
    unfold exclusively. rewrite Ht. cbn [negb].
    rewrite bind_run. unfold getJs at 1. cbn [fst snd]. rewrite andb_false_r.
    rewrite bind_run. unfold modifyJs at 1. cbn [fst snd]. reflexivity.
  - destruct Hs as [Hf | [Hdown Hout]]; [discriminate Hf|].
    rewrite checkAndLogin_nonforced_run, Hdown. unfold try_catch.
    rewrite bind_run. unfold getJs at 1. cbn [fst snd]. rewrite afterProbe_js, Hc.
    unfold exclusively. rewrite Ht. cbn [negb].
    rewrite bind_run. unfold getJs at 1. cbn [fst snd]. rewrite afterProbe_js.
    rewrite bool_decide_eq_false_2 by exact Hout. cbn [andb].
    rewrite bind_run. unfold modifyJs at 1. cbn [fst snd js]. rewrite !afterProbe_js.
    reflexivity.
Qed.

Lemma attempt_run force cfg key w :
  attempt force cfg key w = remediate force cfg key (waitedOut w).
Proof. unfold attempt, waitedOut. rewrite bind_run, backoffWait_run. reflexivity. Qed.

Lemma remediate_run force cfg key w :
  remediate force cfg key w
  = if force then keepaliveThenSubmit cfg key w
    else if probeResult (fetches (env w))
         then (clearInFlight key;; mret true) (afterProbe w)
         else keepaliveThenSubmit cfg key (afterProbe w).
Proof.
  unfold remediate. rewrite bind_run. destruct force.
  - reflexivity.
  - rewrite isInternetUp_run. destruct (probeResult (fetches (env w))); reflexivity.
Qed.

Lemma waitedOut_env w :
  fetches (env (waitedOut w)) = fetches (env w) /\
  queries (env (waitedOut w)) = queries (env w) /\
  keepalives (env (waitedOut w)) = keepalives (env w) /\
  js (waitedOut w) = js w /\
  Probes w (waitedOut w).
Proof.
  unfold waitedOut. destruct (backoffSeconds (js w) >? 0).
  - repeat split; try reflexivity. eexists [_]. split; [reflexivity | repeat constructor].
  - repeat split; try reflexivity. exists []. split; [reflexivity | constructor].
Qed.

Lemma atAttempt_env force cfg w :
  probeResult (fetches (env w)) = false ->
  fetches (env (atAttempt force cfg w))
    = (if force then fetches (env w) else drop 2 (fetches (env w))) /\
  queries (env (atAttempt force cfg w)) = queries (env w) /\
  keepalives (env (atAttempt force cfg w)) = keepalives (env w).
Proof.
  intros Hdown. unfold atAttempt, assigned. cbn [env]. destruct force; [tauto|].
  destruct (afterProbe_env w) as (Hq & _ & _ & _ & _ & Hk & _).
  rewrite Hq, Hk. rewrite afterProbe_down by exact Hdown. cbn [env fetches with_fetches].
  tauto.
Qed.

Lemma atAttempt_js force cfg w :
  js (atAttempt force cfg w)
  = set_inFlightOrigins ({[originKeyOf cfg]} ∪ inFlightOrigins (js w)) (js w).
Proof.
  unfold atAttempt, assigned. cbn [js]. destruct force; [reflexivity|].
  rewrite afterProbe_js. reflexivity.
Qed.

Lemma atAttempt_trace force cfg w :
  exists l, trace (atAttempt force cfg w) = l ++ trace w /\ Forall probing l.
Proof.
  unfold atAttempt, assigned. cbn [trace]. destruct force.
  - exists []. split; [reflexivity | constructor].
  - destruct (afterProbe_probes w) as [_ H]. exact H.
Qed.

Lemma checkAndLogin_check_run force w cfg :
  cachedConfig (js w) = Some cfg ->
  truthy (loginUrl cfg) = true ->
  reachesKeepaliveCheck force cfg w ->
  checkAndLogin force w
  = try_catch (try_finally (keepaliveThenSubmit cfg (originKeyOf cfg))
                           (clearInFlight (originKeyOf cfg)))
              (fun _ => mret false) (atKeepaliveCheck force cfg w).
Proof.
  intros Hc Ht [Hs Hr]. rewrite (checkAndLogin_attempt_run force w cfg Hc Ht Hs).
  unfold try_catch, try_finally. rewrite attempt_run, remediate_run.
  unfold atKeepaliveCheck. destruct force; [reflexivity|].
  destruct Hs as [Hf | [Hdown _]]; [discriminate Hf|].
  destruct Hr as [Hf | Hdown2]; [discriminate Hf|].
  destruct (waitedOut_env (atAttempt false cfg w)) as (Hfe & _).
  destruct (atAttempt_env false cfg w Hdown) as (Hfa & _).
  rewrite Hfe, Hfa, Hdown2. reflexivity.
Qed.

Lemma atKeepaliveCheck_env force cfg w :
  (force = false -> probeResult (fetches (env w)) = false) ->
  queries (env (atKeepaliveCheck force cfg w)) = queries (env w) /\
  keepalives (env (atKeepaliveCheck force cfg w)) = keepalives (env w) /\
  js (atKeepaliveCheck force cfg w)
    = set_inFlightOrigins ({[originKeyOf cfg]} ∪ inFlightOrigins (js w)) (js w) /\
  exists l, trace (atKeepaliveCheck force cfg w) = l ++ trace w /\ Forall probing l.
Proof.
  intros Hdown.
  assert (Hq : queries (env (atAttempt force cfg w)) = queries (env w) /\
               keepalives (env (atAttempt force cfg w)) = keepalives (env w)).
  { unfold atAttempt, assigned. cbn [env]. destruct force; [tauto|].
    destruct (afterProbe_env w) as (Hq & _ & _ & _ & _ & Hk & _). tauto. }
  destruct Hq as [Hq Hk].
  destruct (waitedOut_env (atAttempt force cfg w)) as (_ & Hq1 & Hk1 & Hjs1 & _ & l1 & E1 & F1).
  destruct (atAttempt_trace force cfg w) as (l0 & E0 & F0).
  pose proof (atAttempt_js force cfg w) as Hjs0.
  unfold atKeepaliveCheck. destruct force.
  - rewrite Hq1, Hk1, Hjs1, Hq, Hk, Hjs0. repeat split.
    exists (l1 ++ l0). split; [rewrite E1, E0, app_assoc; reflexivity|].
    apply Forall_app. split; assumption.
  - destruct (afterProbe_env (waitedOut (atAttempt false cfg w)))
      as (Hq2 & _ & _ & _ & _ & Hk2 & _).
    destruct (afterProbe_probes (waitedOut (atAttempt false cfg w))) as [_ (l2 & E2 & F2)].
    rewrite Hq2, Hk2, afterProbe_js, Hq1, Hk1, Hjs1, Hq, Hk, Hjs0. repeat split.
    exists (l2 ++ l1 ++ l0). split; [rewrite E2, E1, E0, !app_assoc; reflexivity|].
    repeat (apply Forall_app; split); assumption.
Qed.

(** *** Runs written out: the keepalive check *)

Lemma isKeepaliveTab_by_script tab w1 w2 :
  keepalives (env w1) = keepalives (env w2) ->
  (isKeepaliveTab tab w1).1 = (isKeepaliveTab tab w2).1.
Proof.
  intros H. unfold isKeepaliveTab, try_catch.
  destruct (tab_id tab =? 0); [reflexivity|].
  destruct (match tab_url tab with Some u => _ | None => false end); [reflexivity|].
  rewrite !bind_run. unfold executeKeepaliveScript. rewrite H.
  destruct (keepalives (env w2)) as [|[[text|]|] rest]; reflexivity.
Qed.

Lemma keepaliveShortCircuit_run key w :
  keepaliveShortCircuit key w
  = match queries (env w) with
    | Some tabs :: _ =>
        match Fields.jsFind (tabAtOrigin key) tabs with
        | Some tab =>
            match isKeepaliveTab tab
                    (called (with_queries (tl (queries (env w))) (env w)) EvTabsQuery w) with
            | (Ret true, w2) =>
                (Ret (Return false),
                 assigned (fun g => set_inFlightOrigins (inFlightOrigins g ∖ {[key]}) g)
                   (assigned (set_backoffSeconds 5)
                      {| js := js w2; env := env w2; trace := EvKeepalive key :: trace w2 |}))
            | (_, w2) => (Ret (Continue tt), w2)
            end
        | None =>
            (Ret (Continue tt),
             called (with_queries (tl (queries (env w))) (env w)) EvTabsQuery w)
        end
    | _ =>
        (Ret (Continue tt), called (with_queries (tl (queries (env w))) (env w)) EvTabsQuery w)
    end.
Proof.
  unfold keepaliveShortCircuit, try_catch. rewrite bind_run, tabsQuery_run.
  destruct (queries (env w)) as [|[tabs|] rest]; try reflexivity.
  destruct (Fields.jsFind (tabAtOrigin key) tabs) as [tab|]; [|reflexivity].
  rewrite bind_run.
  destruct (isKeepaliveTab tab _) as [[[|]|e] w2]; reflexivity.
Qed.

Lemma keepaliveThenSubmit_taken cfg key w tabs rest tab :
  queries (env w) = Some tabs :: rest ->
  Fields.jsFind (tabAtOrigin key) tabs = Some tab ->
  (isKeepaliveTab tab w).1 = Ret true ->
  exists w',
    keepaliveThenSubmit cfg key w = (Ret false, w') /\
    backoffSeconds (js w') = 5 /\
    failedAttemptsByOrigin (js w') = failedAttemptsByOrigin (js w) /\
    exists l, trace w' = EvKeepalive key :: l ++ trace w /\ Forall calm l.
Proof.
  intros Hq Hf Hk. unfold keepaliveThenSubmit. rewrite bind_run.
  pose proof (keepaliveShortCircuit_cases key w) as Hcases.
  pose proof (keepaliveShortCircuit_run key w) as Hrun. rewrite Hq, Hf in Hrun.
  rewrite (isKeepaliveTab_by_script tab w
             (called (with_queries (tl (Some tabs :: rest)) (env w)) EvTabsQuery w)
             eq_refl) in Hk.
  destruct (isKeepaliveTab tab _) as [r w2]. cbn [fst] in Hk. subst r.
  rewrite Hrun in *. cbn [fst snd] in Hcases.
  destruct Hcases as [(_ & B & Fa & l & E & F) | (R & _)]; [|discriminate R].
  eexists. split; [reflexivity|]. split; [exact B|]. split; [exact Fa|].
  exists l. split; assumption.
Qed.

Lemma keepaliveThenSubmit_mark cfg key w l origin :
  trace (keepaliveThenSubmit cfg key w).2 = l ++ trace w ->
  EvKeepalive origin ∈ l ->
  exists tabs rest tab,
    queries (env w) = Some tabs :: rest /\
    Fields.jsFind (tabAtOrigin key) tabs = Some tab /\
    (isKeepaliveTab tab w).1 = Ret true.
Proof.
  intros E Hin.
  assert (Hno : forall w1 l1,
            trace w1 = l1 ++ trace w -> Forall notKeepalive l1 ->
            trace ((submitRes ← openPortalTabAndSubmit cfg; afterSubmit key submitRes) w1).2
            = l ++ trace w -> False).
  { intros w1 l1 E1 F1 E2.
    destruct (afterOrchestrator_foot key cfg w1) as [_ (l2 & E3 & F2)].
    rewrite E3, E1, app_assoc in E2. apply app_inv_tail in E2. subst l.
    apply elem_of_app in Hin as [Hin|Hin].
    - rewrite Forall_forall in F2. exact (F2 _ Hin).
    - rewrite Forall_forall in F1. exact (F1 _ Hin). }
  revert E. unfold keepaliveThenSubmit. rewrite bind_run, keepaliveShortCircuit_run.
  set (w1 := called (with_queries (tl (queries (env w))) (env w)) EvTabsQuery w).
  assert (E1 : trace w1 = [EvTabsQuery] ++ trace w) by reflexivity.
  assert (F1 : Forall notKeepalive [EvTabsQuery]) by (repeat constructor).
  destruct (queries (env w)) as [|[tabs|] rest] eqn:Hq;
    try (intros E; exfalso; exact (Hno w1 _ E1 F1 E)).
  destruct (Fields.jsFind (tabAtOrigin key) tabs) as [tab|] eqn:Hf;
    [|intros E; exfalso; exact (Hno w1 _ E1 F1 E)].
  pose proof (isKeepaliveTab_by_script tab w w1 eq_refl) as Hv.
  pose proof (isKeepaliveTab_observes tab w1) as [_ (l2 & E2 & F2)].
  destruct (isKeepaliveTab tab w1) as [[[|]|e] w2]; cbn [fst snd] in *.
  - intros _. exists tabs, rest, tab. split; [reflexivity|]. split; [exact Hf | exact Hv].
  - intros E. exfalso. apply (Hno w2 (l2 ++ [EvTabsQuery])); [ | | exact E].
    + rewrite E2, E1, app_assoc. reflexivity.
    + apply Forall_app. split; [|exact F1].
      eapply Forall_impl; [exact F2|]. intros [] Hp; cbn in *; tauto.
  - intros E. exfalso. apply (Hno w2 (l2 ++ [EvTabsQuery])); [ | | exact E].
    + rewrite E2, E1, app_assoc. reflexivity.
    + apply Forall_app. split; [|exact F1].
      eapply Forall_impl; [exact F2|]. intros [] Hp; cbn in *; tauto.
Qed.

Lemma guarded_ret (m : M bool) key w b w' :
  m w = (Ret b, w') ->
  try_catch (try_finally m (clearInFlight key)) (fun _ => mret false) w
  = (Ret b, assigned (fun g => set_inFlightOrigins (inFlightOrigins g ∖ {[key]}) g) w').
Proof. intros E. unfold try_catch, try_finally. rewrite E. reflexivity. Qed.

Lemma guarded_trace (m : M bool) key w :
  trace (try_catch (try_finally m (clearInFlight key)) (fun _ => mret false) w).2
  = trace (m w).2.
Proof.
  unfold try_catch, try_finally, clearInFlight, modifyJs.
  destruct (m w) as [[b|e] w']; reflexivity.
Qed.

Lemma reachesKeepaliveCheck_dec force cfg w :
  reachesKeepaliveCheck force cfg w \/ ~ reachesKeepaliveCheck force cfg w.
Proof.
  unfold reachesKeepaliveCheck, startsAttempt. destruct force; [left; split; left; reflexivity|].
  destruct (probeResult (fetches (env w))) eqn:H1;
    [right; intros [[H|[H _]] _]; discriminate H|].
  destruct (decide (originKeyOf cfg ∈ inFlightOrigins (js w))) as [Hin|Hout];
    [right; intros [[H|[_ H]] _]; [discriminate H | exact (H Hin)]|].
  destruct (probeResult (drop 2 (fetches (env w)))) eqn:H2;
    [right; intros [_ [H|H]]; discriminate H|].
  left. split; right; [split|]; [reflexivity | exact Hout | reflexivity].
Qed.

(** a call that does not come to the keepalive check has only probed and
    slept *)
Lemma checkAndLogin_without_check force w cfg :
  cachedConfig (js w) = Some cfg ->
  truthy (loginUrl cfg) = true ->
  ~ reachesKeepaliveCheck force cfg w ->
  exists l, trace (checkAndLogin force w).2 = l ++ trace w /\ Forall probing l.
Proof.
  intros Hc Ht Hn. destruct force.
  { exfalso. apply Hn. split; left; reflexivity. }
  destruct (probeResult (fetches (env w))) eqn:Hdown.
  { rewrite checkAndLogin_nonforced_run, Hdown. cbn [snd].
    destruct (afterProbe_probes w) as [_ H]. exact H. }
  destruct (decide (originKeyOf cfg ∈ inFlightOrigins (js w))) as [Hin|Hout].
  { rewrite checkAndLogin_nonforced_run, Hdown. unfold try_catch.
    rewrite bind_run. unfold getJs at 1. cbn [fst snd]. rewrite afterProbe_js, Hc.
    unfold exclusively. rewrite Ht. cbn [negb].
    rewrite bind_run. unfold getJs at 1. cbn [fst snd]. rewrite afterProbe_js.
    rewrite bool_decide_eq_true_2 by exact Hin. cbn [andb negb snd].
    destruct (afterProbe_probes w) as [_ H]. exact H. }
  assert (Hs : startsAttempt false cfg w) by (right; split; [exact Hdown | exact Hout]).
  assert (Hup : probeResult (drop 2 (fetches (env w))) = true).
  { destruct (probeResult (drop 2 (fetches (env w)))) eqn:H2; [reflexivity|].
    exfalso. apply Hn. split; [exact Hs | right; exact H2]. }
  rewrite (checkAndLogin_attempt_run false w cfg Hc Ht Hs), guarded_trace.
  rewrite attempt_run, remediate_run.
  destruct (waitedOut_env (atAttempt false cfg w)) as (Hfe & _ & _ & _ & _ & l1 & E1 & F1).
  destruct (atAttempt_env false cfg w Hdown) as (Hfa & _).
  destruct (atAttempt_trace false cfg w) as (l0 & E0 & F0).
  rewrite Hfe, Hfa, Hup.
  destruct (afterProbe_probes (waitedOut (atAttempt false cfg w))) as [_ (l2 & E2 & F2)].
  unfold clearInFlight, modifyJs, mbind, M_bind, mret, M_ret. cbn [fst snd trace].
  exists (l2 ++ l1 ++ l0). split; [rewrite E2, E1, E0, !app_assoc; reflexivity|].
  repeat (apply Forall_app; split); assumption.
Qed.

Lemma afterSubmit_failed_down_run key submitRes w :
  ok submitRes = false ->
  probeResult (fetches (env w)) = false ->
  afterSubmit key submitRes w
  = (Ret false,
     assigned (fun g => set_inFlightOrigins (inFlightOrigins g ∖ {[key]}) g)
       (afterProbe
          (assigned (fun g => set_backoffSeconds
                                (Backoff.friendlyBackoff (backoffSeconds g)
                                   (failedAttemptsOf key g)) g)
             (assigned (fun g => setFailedAttempts key (failedAttemptsOf key g + 1) g) w)))).
Proof.
  intros Hok Hdown. unfold afterSubmit. rewrite Hok.
  rewrite bind_run. unfold modifyJs at 1. cbn [fst snd].
  rewrite bind_run. unfold getJs at 1. cbn [fst snd].
  rewrite bind_run. unfold modifyJs at 1. cbn [fst snd].
  rewrite bind_run, isInternetUp_run. cbn [env fetches]. rewrite Hdown.
  reflexivity.
Qed.

(** *** Runs written out: a failed attempt, from the call *)


(** ** The properties of the specification *)

(** C2, as the code has it.  The wait before an attempt does not look at
    [force]: whenever a call with a cached configuration goes past the entry
    checks while [backoffSeconds] is positive, it sleeps
    [backoffSeconds * 1000] ms before anything else of the attempt, forced or
    not.  A forced call has no effect at all before that sleep; a call that
    is not forced has only probed the connectivity. *)
Theorem backoff_wait_ignores_force force w cfg :
  cachedConfig (js w) = Some cfg ->
  truthy (loginUrl cfg) = true ->
  0 < backoffSeconds (js w) ->
  force = true \/
    ((isInternetUp 2000 w).1 = Ret false /\ originKeyOf cfg ∉ inFlightOrigins (js w)) ->
  exists l1 l2,
    trace (checkAndLogin force w).2
      = l2 ++ EvSleep (backoffSeconds (js w) * 1000) :: l1 ++ trace w /\
    Forall probing l1 /\
    (force = true -> l1 = []).
Proof. apply checkAndLogin_sleeps. Qed.

(** C3, as the code has it.  A forced call made while the connectivity probe
    answers 204, with a configuration cached and no keepalive page met,
    returns [true]; it does enter [openPortalTabAndSubmit], which gives up
    before any tab is opened, navigated, reloaded, closed or scripted for
    detection or injection; and the failure counter of the origin is 0
    afterwards. *)
Theorem forced_call_while_up w cfg rest l :
  cachedConfig (js w) = Some cfg ->
  truthy (loginUrl cfg) = true ->
  fetches (env w) = FetchStatus 204 :: FetchStatus 204 :: rest ->
  trace (checkAndLogin true w).2 = l ++ trace w ->
  (forall origin, EvKeepalive origin ∉ l) ->
  (checkAndLogin true w).1 = Ret true /\
  (exists origin, EvOrchestrator origin ∈ l) /\
  Forall leavesTabsAlone l /\
  failedAttemptsOf (originKeyOf cfg) (js (checkAndLogin true w).2) = 0.
Proof.
  intros Hc Ht Hf El Hno.
  destruct (checkAndLogin_forced_while_up w cfg rest Hc Ht Hf)
    as [(k & l' & E & Hin) | (R & Hz & l' & E & F & Ho)];
    rewrite El in E; apply app_inv_tail in E; subst l'.
  - exfalso. exact (Hno k Hin).
  - repeat split; assumption.
Qed.

(** C5.  Every call of [checkAndLogin] returns a boolean: whatever is thrown
    inside the outer [try] is caught and becomes the return value [false],
    nothing is propagated to the caller.  No origin is in flight after the
    call that was not in flight before it, and the origin of the cached
    configuration is not in flight after any call that went past the guard
    against overlapping attempts (forced, or origin not in flight at entry),
    however the call ended. *)
Theorem checkAndLogin_clears_in_flight force w :
  (exists b, (checkAndLogin force w).1 = Ret b) /\
  (forall e w1,
     checkAndLoginTry force w = (Throw e, w1) -> checkAndLogin force w = (Ret false, w1)) /\
  inFlightOrigins (js (checkAndLogin force w).2) ⊆ inFlightOrigins (js w) /\
  forall cfg,
    cachedConfig (js w) = Some cfg ->
    truthy (loginUrl cfg) = true ->
    force = true \/ originKeyOf cfg ∉ inFlightOrigins (js w) ->
    originKeyOf cfg ∉ inFlightOrigins (js (checkAndLogin force w).2).
Proof.
  split; [apply checkAndLogin_returns|]. split.
  { intros e w1 E. unfold checkAndLogin, try_catch. rewrite E. reflexivity. }
  pose proof (checkAndLogin_bookkeeping force w) as H. unfold bookkeeping in H.
  destruct (cachedConfig (js w)) as [cfg|].
  - destruct H as ((_ & Hother) & Hclear & Hback). split.
    + intros k Hk. destruct (decide (k = originKeyOf cfg)) as [->|Hne].
      * apply Hback, Hk.
      * apply (Hother k Hne), Hk.
    + intros cfg' [= <-]. exact Hclear.
  - rewrite H. split; [reflexivity | discriminate].
Qed.

(** C6.  A call with a cached configuration meets a session at the origin
    that is classified as a keepalive page when its attempt comes to the
    keepalive check (a forced call always does; a call that is not forced
    does when its probes answer down and the origin is not in flight) and
    the first of the open tabs at the origin is one [isKeepaliveTab] answers
    [true] for.  In every such call [checkAndLogin] returns [false],
    [backoffSeconds] is 5, [failedAttemptsByOrigin] is what it was, the
    origin is not left in flight, and the call has neither entered
    [openPortalTabAndSubmit] nor run the detection or the injection script:
    all it did before the override was to sleep, probe, list the open tabs
    and run the keepalive script.  The override is taken in no other call. *)
Theorem keepalive_page_forces_backoff_5 force w cfg :
  cachedConfig (js w) = Some cfg ->
  truthy (loginUrl cfg) = true ->
  (keepaliveSession force cfg w ->
   (checkAndLogin force w).1 = Ret false /\
   backoffSeconds (js (checkAndLogin force w).2) = 5 /\
   failedAttemptsByOrigin (js (checkAndLogin force w).2) = failedAttemptsByOrigin (js w) /\
   (originKeyOf cfg ∉ inFlightOrigins (js (checkAndLogin force w).2)) /\
   exists l,
     trace (checkAndLogin force w).2 = EvKeepalive (originKeyOf cfg) :: l ++ trace w /\
     Forall calm l /\
     (forall origin, EvOrchestrator origin ∉ l) /\
     (forall id, (EvDetectScript id ∉ l) /\ (EvInjectScript id ∉ l))) /\
  (forall l origin,
     trace (checkAndLogin force w).2 = l ++ trace w ->
     EvKeepalive origin ∈ l ->
     keepaliveSession force cfg w).
Proof.
  intros Hc Ht. split.
  - intros [Hr (tabs & rest & tab & Hq & Hf & Hk)].
    assert (Hdown : force = false -> probeResult (fetches (env w)) = false).
    { intros ->. destruct Hr as [[H|[H _]] _]; [discriminate H | exact H]. }
    rewrite (checkAndLogin_check_run force w cfg Hc Ht Hr).
    destruct (atKeepaliveCheck_env force cfg w Hdown) as (Hq' & Hk' & Hjs & l0 & E0 & F0).
    destruct (keepaliveThenSubmit_taken cfg (originKeyOf cfg) (atKeepaliveCheck force cfg w)
                tabs rest tab) as (w' & E & B & Fa & l & El & Fl).
    { rewrite Hq'. exact Hq. }
    { exact Hf. }
    { rewrite (isKeepaliveTab_by_script tab _ w Hk'). exact Hk. }
    rewrite (guarded_ret _ _ _ _ _ E). unfold assigned.
    cbn [fst snd js trace backoffSeconds failedAttemptsByOrigin inFlightOrigins
         set_inFlightOrigins].
    split; [reflexivity|]. split; [exact B|]. split.
    { rewrite Fa, Hjs. reflexivity. }
    split; [set_solver|].
    assert (Hcalm : Forall calm (l ++ l0)).
    { apply Forall_app. split; [exact Fl|].
      eapply Forall_impl; [exact F0 | exact probing_calm]. }
    exists (l ++ l0). split; [rewrite El, E0, app_assoc; reflexivity|].
    split; [exact Hcalm|]. rewrite Forall_forall in Hcalm. split.
    + intros o Ho. exact (Hcalm _ Ho).
    + intros id. split; intros Hi; exact (Hcalm _ Hi).
  - intros l origin El Hin.
    destruct (reachesKeepaliveCheck_dec force cfg w) as [Hr|Hn].
    2:{ exfalso. destruct (checkAndLogin_without_check force w cfg Hc Ht Hn) as (l' & E & F).
        rewrite El in E. apply app_inv_tail in E. subst l'.
        rewrite Forall_forall in F. exact (F _ Hin). }
    split; [exact Hr|].
    assert (Hdown : force = false -> probeResult (fetches (env w)) = false).
    { intros ->. destruct Hr as [[H|[H _]] _]; [discriminate H | exact H]. }
    destruct (atKeepaliveCheck_env force cfg w Hdown) as (Hq' & Hk' & _ & l0 & E0 & F0).
    rewrite (checkAndLogin_check_run force w cfg Hc Ht Hr), guarded_trace in El.
    destruct (remediate_foot true cfg (originKeyOf cfg) (atKeepaliveCheck force cfg w))
      as [_ (l1 & E1 & _)].
    change (remediate true cfg (originKeyOf cfg) (atKeepaliveCheck force cfg w))
      with (keepaliveThenSubmit cfg (originKeyOf cfg) (atKeepaliveCheck force cfg w)) in E1.
    assert (El1 : l = l1 ++ l0).
    { rewrite E1, E0, app_assoc in El. apply app_inv_tail in El. symmetry. exact El. }
    subst l. apply elem_of_app in Hin as [Hin|Hin].
    2:{ exfalso. rewrite Forall_forall in F0. exact (F0 _ Hin). }
    destruct (keepaliveThenSubmit_mark cfg (originKeyOf cfg) _ l1 origin E1 Hin)
      as (tabs & rest & tab & Hq & Hf & Hk).
    exists tabs, rest, tab. split; [rewrite <- Hq'; exact Hq|]. split; [exact Hf|].
    rewrite <- (isKeepaliveTab_by_script tab _ w Hk'). exact Hk.
Qed.

(** C7.  The registry invariant holds when the worker starts, and every
    operation of the worker (a message, an alarm) preserves it:
    [createdTabIds] contains only identifiers returned by the worker's own
    [chrome.tabs.create], and every [chrome.tabs.remove] the worker ever
    issued was for an identifier that was in [createdTabIds] at that moment,
    hence for a tab the worker created.  Moreover the tab that
    [openPortalTabAndSubmit] hands to the cleanup ([usedTabId]) is one that
    this very call created, and the cleanup closes no other tab: a tab that
    was found open and reused is never closed. *)
Theorem registry_invariant_preserved :
  (forall b, RegistryInv (worldOf initialGlobals b)) /\
  (forall op w, RegistryInv w -> RegistryInv (perform op w)) /\
  (forall cfg w r w' id,
     openPortalTabAndSubmit cfg w = (Ret r, w') ->
     usedTabId r = Some id ->
     exists url l, trace w' = l ++ trace w /\ EvTabsCreate url (Some id) ∈ l) /\
  (forall submitRes w id r,
     EvTabsRemove id r ∈ trace (closeCreatedTab submitRes w).2 ->
     EvTabsRemove id r ∈ trace w \/ usedTabId submitRes = Some id).
Proof.
  split; [|split; [|split]].
  - intros b. split; simpl.
    + intros id Hid. apply not_elem_of_empty in Hid. contradiction.
    + intros id r Hr. apply not_elem_of_nil in Hr. contradiction.
  - intros op w H.
    assert (Hw : RegistryInvWith ∅ w).
    { split; [exact H|]. intros id Hid. apply not_elem_of_empty in Hid. contradiction. }
    destruct op as [msg|name]; simpl.
    + apply (onMessage_registry ∅ msg w Hw).
    + apply (onAlarm_registry ∅ name w Hw).
  - apply openPortalTabAndSubmit_uses_created.
  - apply closeCreatedTab_closes_used.
Qed.

(** C8, as the code has it.  The failure counters and the in-flight marks are
    kept per origin: a call of [checkAndLogin] for the origin of the cached
    configuration leaves those of every other origin as they were.  The
    backoff is not: [backoffSeconds] is one variable of the worker, and a
    forced attempt for any origin starts by sleeping whatever it holds. *)
Theorem counters_per_origin_backoff_shared force w cfg :
  cachedConfig (js w) = Some cfg ->
  (forall k, k <> originKeyOf cfg ->
     failedAttemptsByOrigin (js (checkAndLogin force w).2) !! k
       = failedAttemptsByOrigin (js w) !! k /\
     (k ∈ inFlightOrigins (js (checkAndLogin force w).2) <-> k ∈ inFlightOrigins (js w))) /\
  (force = true ->
   truthy (loginUrl cfg) = true ->
   0 < backoffSeconds (js w) ->
   exists l, trace (checkAndLogin force w).2
             = l ++ EvSleep (backoffSeconds (js w) * 1000) :: trace w).
Proof.
  intros Hc. split.
  - pose proof (checkAndLogin_bookkeeping force w) as H. unfold bookkeeping in H.
    rewrite Hc in H. destruct H as ((_ & Hother) & _). exact Hother.
  - intros -> Ht Hpos.
    destruct (checkAndLogin_sleeps true w cfg Hc Ht Hpos (or_introl eq_refl))
      as (l1 & l2 & E & _ & Hnil).
    rewrite (Hnil eq_refl) in E. exists l2. exact E.
Qed.


(** ** Further properties of the code *)

(** *** The connectivity probe *)


(** X1.  [isInternetUp] never throws and leaves the module-level variables
    alone.  It answers [true] exactly when the first request is answered
    with status 204 or, failing that, the second one is; it makes one request
    in the first case, and otherwise two with one sleep of 300 ms between
    them.  A rejected request, a request aborted by the timeout and a
    response with any other status count alike.  On the worker's clock the
    call is over within [timeoutMs] in the first case; in the second it
    lasts at least the 300 ms of the sleep and the whole timeout of every
    request that got no answer, and at most 300 ms and two timeouts. *)
Theorem isInternetUp_retries_once timeoutMs w :
  (isInternetUp timeoutMs w).1
    = Ret (is204 (fetches (env w) !! 0%nat) || is204 (fetches (env w) !! 1%nat)) /\
  js (isInternetUp timeoutMs w).2 = js w /\
  if is204 (fetches (env w) !! 0%nat) then
    trace (isInternetUp timeoutMs w).2 = EvFetch :: trace w /\
    fetches (env (isInternetUp timeoutMs w).2) = drop 1 (fetches (env w)) /\
    now (env w) <= now (env (isInternetUp timeoutMs w).2) <= now (env w) + Z.max 0 timeoutMs
  else
    trace (isInternetUp timeoutMs w).2 = EvFetch :: EvSleep 300 :: EvFetch :: trace w /\
    fetches (env (isInternetUp timeoutMs w).2) = drop 2 (fetches (env w)) /\
    now (env w) + 300 + waited timeoutMs (fetches (env w) !! 0%nat)
      + waited timeoutMs (fetches (env w) !! 1%nat)
      <= now (env (isInternetUp timeoutMs w).2)
      <= now (env w) + 300 + 2 * Z.max 0 timeoutMs.
Proof.
  rewrite isInternetUp_probed. unfold probeResult, probed. cbn [fst snd].
  pose proof (waited_bounds timeoutMs (fetches (env w) !! 0%nat)) as H0.
  pose proof (waited_bounds timeoutMs (fetches (env w) !! 1%nat)) as H1.
  destruct (is204 (fetches (env w) !! 0%nat)); cbn [js env trace fetches now with_fetches with_now];
    repeat split; try reflexivity; lia.
Qed.

(** *** The entry of [checkAndLogin] *)


(** X2.  A call that is not forced comes down to the connectivity probe,
    whatever else the state of the worker, in two cases: the probe answers
    up, or an attempt for the origin of the cached configuration is in
    flight.  The call then returns what the probe answered, assigns no
    module-level variable, and makes no other use of the browser than the
    one or two requests of the probe: no notification, no tab. *)
Theorem nonforced_call_reduces_to_probe w :
  (isInternetUp 2000 w).1 = Ret true \/
  (exists cfg, cachedConfig (js w) = Some cfg /\ originKeyOf cfg ∈ inFlightOrigins (js w)) ->
  checkAndLogin false w = isInternetUp 2000 w /\
  js (checkAndLogin false w).2 = js w.
Proof.
  intros H. rewrite checkAndLogin_nonforced_run, isInternetUp_run in *. cbn [fst snd] in H.
  destruct (probeResult (fetches (env w))) eqn:Ep.
  - split; [reflexivity | apply afterProbe_js].
  - destruct H as [H|(cfg & Hc & Hin)]; [discriminate H|].
    unfold try_catch. rewrite bind_run. unfold getJs. cbn [fst snd].
    rewrite afterProbe_js, Hc. unfold exclusively.
    destruct (negb (truthy (loginUrl cfg))).
    + split; [reflexivity | apply afterProbe_js].
    + rewrite bind_run. unfold getJs. cbn [fst snd]. rewrite afterProbe_js.
      rewrite bool_decide_eq_true_2 by exact Hin. cbn [andb negb].
      split; [reflexivity | apply afterProbe_js].
Qed.

Lemma checkAndLogin_forced_locked w :
  cachedConfig (js w) = None ->
  checkAndLogin true w
  = (Ret false, {| js := js w; env := env w; trace := EvNotify NoticeLocked :: trace w |}).
Proof.
  intros Hc. unfold checkAndLogin, checkAndLoginTry, try_catch. rewrite bind_run.
  unfold mret at 1, M_ret at 1. cbn beta iota.
  rewrite bind_run. unfold getJs. cbn [fst snd]. rewrite Hc. reflexivity.
Qed.

(** X3.  Without a cached configuration a call never goes further than the
    "locked" notification: a forced call does nothing else and returns
    [false]; a call that is not forced probes first, returns [true] without a
    notification when the probe answers up, and otherwise notifies and
    returns [false].  No module-level variable is assigned and no tab is
    touched. *)
Theorem no_configuration_locked w :
  cachedConfig (js w) = None ->
  checkAndLogin true w
    = (Ret false, {| js := js w; env := env w; trace := EvNotify NoticeLocked :: trace w |}) /\
  checkAndLogin false w
    = (if probeResult (fetches (env w)) then (Ret true, (isInternetUp 2000 w).2)
       else (Ret false, (notify NoticeLocked (isInternetUp 2000 w).2).2)) /\
  js (checkAndLogin false w).2 = js w.
Proof.
  intros Hc. split; [|split].
  - apply checkAndLogin_forced_locked, Hc.
  - rewrite checkAndLogin_nonforced_run, isInternetUp_run. cbn [fst snd].
    destruct (probeResult (fetches (env w))); [reflexivity|].
    unfold try_catch. rewrite bind_run. unfold getJs. cbn [fst snd].
    rewrite afterProbe_js, Hc. reflexivity.
  - rewrite checkAndLogin_nonforced_run.
    destruct (probeResult (fetches (env w))); [apply afterProbe_js|].
    unfold try_catch. rewrite bind_run. unfold getJs. cbn [fst snd].
    rewrite afterProbe_js, Hc. cbn. apply afterProbe_js.
Qed.

(** X4.  A cached configuration whose [loginUrl] is absent or empty disables
    the worker silently: a forced call returns [false] and leaves the world
    exactly as it was (no notification, unlike the case of no configuration
    at all); a call that is not forced does what the probe does and returns
    [true] only if the probe answers up. *)
Theorem missing_loginUrl_is_silent force w cfg :
  cachedConfig (js w) = Some cfg ->
  truthy (loginUrl cfg) = false ->
  checkAndLogin force w
  = (Ret (negb force && probeResult (fetches (env w))),
     if force then w else (isInternetUp 2000 w).2).
Proof.
  intros Hc Ht. destruct force.
  - unfold checkAndLogin, checkAndLoginTry, try_catch. rewrite bind_run.
    unfold mret at 1, M_ret at 1. cbn beta iota.
    rewrite bind_run. unfold getJs. cbn [fst snd]. rewrite Hc.
    unfold exclusively. rewrite Ht. reflexivity.
  - rewrite checkAndLogin_nonforced_run, isInternetUp_run. cbn [fst snd negb andb].
    destruct (probeResult (fetches (env w))); [reflexivity|].
    unfold try_catch. rewrite bind_run. unfold getJs. cbn [fst snd].
    rewrite afterProbe_js, Hc. unfold exclusively. rewrite Ht. reflexivity.
Qed.

(** *** The messages *)

Lemma checkAndLogin_keeps_config force w :
  cachedConfig (js (checkAndLogin force w).2) = cachedConfig (js w).
Proof.
  pose proof (checkAndLogin_bookkeeping force w) as H. unfold bookkeeping in H.
  destruct (cachedConfig (js w)) as [cfg|] eqn:Hc.
  - destruct H as ((C & _) & _). rewrite C. exact Hc.
  - rewrite H. exact Hc.
Qed.

Lemma perform_keeps_config op w :
  assignsConfig op = false -> cachedConfig (js (perform op w)) = cachedConfig (js w).
Proof.
  destruct op as [[cfg| | |origin|]|name]; cbn [assignsConfig perform];
    intros Hop; try discriminate Hop.
  - unfold onMessage. rewrite try_catch_world by reflexivity. rewrite bind_run.
    pose proof (checkAndLogin_keeps_config true w) as H.
    destruct (checkAndLogin true w) as [[b|e] w1]; exact H.
  - unfold onMessage. rewrite !try_catch_world by reflexivity.
    rewrite bind_run. unfold getJs. cbn [fst snd].
    destruct (cachedConfig (js w)) as [cfg|] eqn:Hc; [|cbn; exact Hc].
    destruct (String.eqb _ origin); [|cbn; exact Hc].
    rewrite bind_run. pose proof (checkAndLogin_keeps_config true w) as H.
    destruct (checkAndLogin true w) as [[b|e] w1]; cbn [fst snd] in H; rewrite <- Hc, <- H;
      reflexivity.
  - reflexivity.
  - unfold onAlarm. destruct (String.eqb name "checkConn"); [|reflexivity].
    rewrite bind_run. pose proof (checkAndLogin_keeps_config false w) as H.
    destruct (checkAndLogin false w) as [[b|e] w1]; exact H.
Qed.

(** X5.  The cached configuration stays until a message replaces or clears
    it: whatever sequence of alarms, [doLoginNow], [page_is_portal] and
    unknown messages the worker handles, and however the attempts end,
    [cachedConfig] afterwards is what it was.  Nothing in the worker ever
    lets the credentials expire ([clearTimerId] is only ever reset). *)
Theorem configuration_kept_until_cleared ops w :
  forallb (fun op => negb (assignsConfig op)) ops = true ->
  cachedConfig (js (performAll ops w)) = cachedConfig (js w).
Proof.
  unfold performAll. revert w. induction ops as [|op ops IH]; intros w H; [reflexivity|].
  cbn [forallb] in H. apply andb_true_iff in H as [Hop H]. apply negb_true_iff in Hop.
  cbn [fold_left]. rewrite (IH _ H). apply perform_keeps_config, Hop.
Qed.

(** X6.  [setPlainConfig] replaces the cached configuration and nothing
    else: the answer is [{ ok: true }], [cachedConfig] is the configuration
    received, the browser is not called, and the backoff, the failure
    counters, the probe tab and the registry of created tabs stay as they
    were (saving new credentials does not reset the backoff).  Hence the last
    configuration saved wins, and saving the same one twice is saving it
    once. *)
Theorem setPlainConfig_last_write_wins cfg1 cfg2 w :
  onMessage (MsgSetPlainConfig cfg2) w
  = (Ret {| resp_ok := true; resp_error := "" |},
     {| js := set_clearTimerId None (set_cachedConfig cfg2 (js w));
        env := env w; trace := trace w |}) /\
  perform (OpMessage (MsgSetPlainConfig cfg2)) (perform (OpMessage (MsgSetPlainConfig cfg1)) w)
  = perform (OpMessage (MsgSetPlainConfig cfg2)) w.
Proof.
  assert (H : forall cfg w0,
             onMessage (MsgSetPlainConfig cfg) w0
             = (Ret {| resp_ok := true; resp_error := "" |},
                {| js := set_clearTimerId None (set_cachedConfig cfg (js w0));
                   env := env w0; trace := trace w0 |})).
  { intros cfg [g b tr]. unfold onMessage, cacheConfig, try_catch, mbind, M_bind, modifyJs,
      getJs, mret, M_ret.
    destruct g as [c [t|] bo p lp fa ls ct fl]; reflexivity. }
  split; [apply H|].
  cbn [perform]. rewrite !H. cbn [fst snd js env trace]. reflexivity.
Qed.

(** X7.  [clearCache] drops the cached configuration, asks the storage to
    forget it and answers [{ ok: true }]; the backoff, the failure counters
    and the registry of created tabs are not reset.  A [doLoginNow] that
    follows is answered [{ ok: false }] after the "locked" notification and
    nothing else. *)
Theorem clearCache_locks w :
  onMessage MsgClearCache w
  = (Ret {| resp_ok := true; resp_error := "" |},
     {| js := set_clearTimerId None (set_cachedConfig None (js w));
        env := env w; trace := EvStorageRemove :: trace w |}) /\
  onMessage MsgDoLoginNow (perform (OpMessage MsgClearCache) w)
  = (Ret {| resp_ok := false; resp_error := "" |},
     {| js := set_clearTimerId None (set_cachedConfig None (js w));
        env := env w; trace := EvNotify NoticeLocked :: EvStorageRemove :: trace w |}).
Proof.
  assert (H : onMessage MsgClearCache w
              = (Ret {| resp_ok := true; resp_error := "" |},
                 {| js := set_clearTimerId None (set_cachedConfig None (js w));
                    env := env w; trace := EvStorageRemove :: trace w |})).
  { destruct w as [g b tr]. unfold onMessage, try_catch, mbind, M_bind, modifyJs,
      getJs, emit, mret, M_ret.
    destruct g as [c [t|] bo p lp fa ls ct fl]; reflexivity. }
  split; [exact H|].
  cbn [perform]. rewrite H. cbn [snd].
  unfold onMessage at 1. unfold try_catch at 1. rewrite bind_run.
  rewrite checkAndLogin_forced_locked by reflexivity. reflexivity.
Qed.

(** X8.  A message that does not concern the cached configuration is
    answered [{ ok: false }] and changes nothing at all: a [page_is_portal]
    from an origin other than the origin of the cached [loginUrl] (or
    received while no configuration is cached), and a message of an unknown
    type.  A portal page of another network cannot start an attempt. *)
Theorem foreign_message_is_ignored msg w :
  msg = MsgOther \/
  (exists origin, msg = MsgPageIsPortal origin /\
     forall cfg, cachedConfig (js w) = Some cfg -> originOf (loginUrl cfg) <> origin) ->
  exists reason,
    onMessage msg w = (Ret {| resp_ok := false; resp_error := reason |}, w) /\
    reason <> "".
Proof.
  intros [->|(origin & -> & H)].
  - exists "unknown message". split; [reflexivity | discriminate].
  - exists "no_cached_match". split; [|discriminate].
    unfold onMessage, try_catch. rewrite bind_run. unfold getJs. cbn [fst snd].
    destruct (cachedConfig (js w)) as [cfg|]; [|reflexivity].
    destruct (String.eqb_spec (originOf (loginUrl cfg)) origin) as [E|_]; [|reflexivity].
    exfalso. exact (H cfg eq_refl E).
Qed.

(** *** The backoff *)

Lemma backoffValues_spec b :
  b ∈ backoffValues <->
  b = 0 \/ b = 2 \/ b = 4 \/ b = 5 \/ b = 8 \/ b = 10 \/ b = 16 \/ b = 32 \/ b = 60.
Proof.
  unfold backoffValues. rewrite !elem_of_cons, elem_of_nil. tauto.
Qed.

Lemma friendlyBackoff_values b attempts :
  b ∈ backoffValues -> Backoff.friendlyBackoff b attempts ∈ backoffValues.
Proof.
  rewrite !backoffValues_spec. unfold Backoff.friendlyBackoff.
  intros H. destruct (attempts >=? 6);
    repeat (destruct H as [->|H]; [cbn; tauto|]); subst b; cbn; tauto.
Qed.

Lemma stillDownBackoff_values b :
  b ∈ backoffValues -> Backoff.stillDownBackoff b ∈ backoffValues.
Proof.
  rewrite !backoffValues_spec. unfold Backoff.stillDownBackoff.
  intros H. repeat (destruct H as [->|H]; [cbn; tauto|]); subst b; cbn; tauto.
Qed.

(** X9.  The "friendly policy" applied after a failed
    [openPortalTabAndSubmit], for a backoff between 0 and 60: the new backoff
    lies between 2 and 60; below six counted failures it never goes down and
    grows strictly until it reaches 60; and the only way down is the collapse
    to 5, taken with six failures or more from a backoff of 16 or more. *)
Theorem friendlyBackoff_bounds b attempts :
  0 <= b <= 60 ->
  2 <= Backoff.friendlyBackoff b attempts <= 60 /\
  (attempts < 6 ->
   b <= Backoff.friendlyBackoff b attempts /\
   (b < 60 -> b < Backoff.friendlyBackoff b attempts)) /\
  (Backoff.friendlyBackoff b attempts < b ->
   6 <= attempts /\ 16 <= b /\ Backoff.friendlyBackoff b attempts = 5).
Proof.
  intros Hb. unfold Backoff.friendlyBackoff.
  destruct (Z.eqb_spec b 0) as [->|Hne]; [lia|].
  destruct (Z.ltb_spec b 16); [lia|].
  destruct (attempts >=? 6) eqn:Ha; [apply Z.geb_le in Ha; lia|].
  assert (attempts < 6) by (rewrite Z.geb_leb in Ha; apply Z.leb_gt in Ha; lia). lia.
Qed.

(** X10.  The backoff chosen when the injection went through but the
    internet stayed down, for a backoff that is not negative: it lies
    between 2 and 16, it grows strictly from any backoff below 16, and it
    brings a larger backoff (32 or 60 after failures) down to 16.  It never
    exceeds what the friendly policy would give below six failures. *)
Theorem stillDownBackoff_bounds b :
  0 <= b ->
  2 <= Backoff.stillDownBackoff b <= 16 /\
  (b < 16 -> b < Backoff.stillDownBackoff b) /\
  (16 <= b -> Backoff.stillDownBackoff b = 16) /\
  (forall attempts, attempts < 6 ->
     Backoff.stillDownBackoff b <= Backoff.friendlyBackoff b attempts).
Proof.
  intros Hb. unfold Backoff.stillDownBackoff, Backoff.friendlyBackoff.
  destruct (Z.eqb_spec b 0) as [->|Hne]; [repeat split; intros; lia|].
  repeat split; try lia.
  intros attempts Ha. destruct (Z.ltb_spec b 16); [lia|].
  destruct (attempts >=? 6) eqn:Hg; [apply Z.geb_le in Hg; lia | lia].
Qed.

#[global] Instance KeepsBackoff_reflexive : Reflexive KeepsBackoff.
Proof. intros w H. exact H. Qed.

#[global] Instance KeepsBackoff_transitive : Transitive KeepsBackoff.
Proof. intros w1 w2 w3 H1 H2 H. apply H2, H1, H. Qed.

Lemma KeepsBackoff_absorbs e : shortSleep e -> absorbs KeepsBackoff e.
Proof.
  intros He w b [Hb Hs]. split; [exact Hb|]. cbn. constructor; assumption.
Qed.

Lemma KeepsBackoff_admits f :
  (forall g, backoffSeconds g ∈ backoffValues -> backoffSeconds (f g) ∈ backoffValues) ->
  admits KeepsBackoff f.
Proof. intros Hf w [Hb Hs]. split; [apply Hf, Hb | exact Hs]. Qed.

Ltac backoff_side :=
  lazymatch goal with
  | |- absorbs KeepsBackoff _ =>
      apply KeepsBackoff_absorbs; intros ? Hd;
      first [discriminate Hd | injection Hd as <-; unfold FIELD_CHECK_INTERVAL_MS; lia]
  | |- forall _, absorbs KeepsBackoff _ =>
      intros ?; apply KeepsBackoff_absorbs; intros ? Hd; discriminate Hd
  | |- admits KeepsBackoff _ =>
      apply KeepsBackoff_admits; intros ? Hg; cbn;
      first [ exact Hg | apply friendlyBackoff_values, Hg | apply stillDownBackoff_values, Hg
            | apply backoffValues_spec; tauto ]
  end.

Ltac backoff_walk sub := repeat (keeps_step sub); try backoff_side.

Lemma isInternetUp_backoff timeoutMs : keeps KeepsBackoff (isInternetUp timeoutMs).
Proof. unfold isInternetUp. backoff_walk fail. Qed.

Lemma waitLoop_backoff fuel tabId start timeoutMs :
  keeps KeepsBackoff (waitLoop fuel tabId start timeoutMs).
Proof.
  induction fuel as [|fuel IH]; simpl.
  - backoff_walk fail.
  - backoff_walk ltac:(exact IH).
Qed.

Lemma waitForTabLoaded_backoff tabId timeoutMs :
  keeps KeepsBackoff (waitForTabLoaded tabId timeoutMs).
Proof. unfold waitForTabLoaded. backoff_walk ltac:(apply waitLoop_backoff). Qed.

Lemma detectFieldsInTab_backoff tabId : keeps KeepsBackoff (detectFieldsInTab tabId).
Proof. unfold detectFieldsInTab. backoff_walk fail. Qed.

Lemma detectRetries_backoff turns checkAttempt tabId detectResult :
  keeps KeepsBackoff (detectRetries turns checkAttempt tabId detectResult).
Proof.
  revert checkAttempt detectResult.
  induction turns as [|turns IH]; intros checkAttempt detectResult; simpl.
  - backoff_walk fail.
  - backoff_walk ltac:(first [ apply IH | apply waitForTabLoaded_backoff
                             | apply detectFieldsInTab_backoff ]).
Qed.

Lemma openPortalTabAndSubmit_backoff cfg : keeps KeepsBackoff (openPortalTabAndSubmit cfg).
Proof.
  unfold openPortalTabAndSubmit, connectivityGuard, acquirePortalTab, checkProbe, createProbe,
    navigateProbe, createPortalTab, injectAcrossFrames, connectivityGuard.
  backoff_walk ltac:(first [ apply isInternetUp_backoff | apply waitForTabLoaded_backoff
                           | apply detectFieldsInTab_backoff | apply detectRetries_backoff ]).
Qed.

(** the wait itself: [backoffSeconds] seconds, at most sixty *)
Lemma backoffWait_backoff : keeps KeepsBackoff backoffWait.
Proof.
  intros w [Hb Hs]. unfold backoffWait, mbind, M_bind, getJs. cbn [fst snd].
  destruct (Z.gtb_spec (backoffSeconds (js w)) 0) as [Hpos|_]; [|split; assumption].
  split; [exact Hb|]. cbn. constructor; [|exact Hs].
  intros ms [= <-]. apply backoffValues_spec in Hb. lia.
Qed.

Lemma checkAndLogin_backoff force : keeps KeepsBackoff (checkAndLogin force).
Proof.
  unfold checkAndLogin, checkAndLoginTry, exclusively, attempt, remediate, afterSubmit,
    keepaliveShortCircuit, isKeepaliveTab, notifySuccess, closeCreatedTab, clearInFlight.
  backoff_walk ltac:(first [ apply isInternetUp_backoff | apply backoffWait_backoff
                           | apply openPortalTabAndSubmit_backoff ]).
Qed.

Lemma perform_backoff op w : BackoffInv w -> BackoffInv (perform op w).
Proof.
  destruct op as [msg|name]; cbn [perform].
  - revert w. change (keeps KeepsBackoff (onMessage msg)).
    unfold onMessage, cacheConfig. backoff_walk ltac:(apply checkAndLogin_backoff).
  - revert w. change (keeps KeepsBackoff (onAlarm name)).
    unfold onAlarm. backoff_walk ltac:(apply checkAndLogin_backoff).
Qed.

(** X11.  The backoff invariant holds when the worker starts and every
    sequence of operations preserves it, whatever the browser and the portal
    answer: [backoffSeconds] is always one of 0, 2, 4, 5, 8, 10, 16, 32 and
    60, and no single sleep of the worker (a wait between two probes or two
    scans, or the backoff wait before an attempt) lasts longer than
    60 seconds. *)
Theorem backoff_invariant_preserved :
  (forall b, BackoffInv (worldOf initialGlobals b)) /\
  (forall ops w, BackoffInv w -> BackoffInv (performAll ops w)).
Proof.
  split.
  - intros b. split; [apply backoffValues_spec; left; reflexivity | constructor].
  - unfold performAll. intros ops. induction ops as [|op ops IH]; intros w H; [exact H|].
    cbn [fold_left]. apply IH, perform_backoff, H.
Qed.

(** *** After [openPortalTabAndSubmit] *)

Lemma notifySuccess_run key w : notifySuccess key w = (Ret tt, afterNotifySuccess key w).
Proof.
  unfold notifySuccess, afterNotifySuccess, mbind, M_bind, dateNow, getJs, notify, emit,
    modifyJs, mret, M_ret.
  cbn [fst snd]. destruct (_ >? _); reflexivity.
Qed.

Lemma closeCreatedTab_run submitRes w :
  closeCreatedTab submitRes w = (Ret tt, afterCloseCreatedTab submitRes w).
Proof.
  unfold closeCreatedTab, afterCloseCreatedTab, try_catch, mbind, M_bind, getJs, tabsRemove,
    acknowledged, modifyJs, mret, M_ret, called.
  cbn [fst snd].
  destruct (usedTabId submitRes) as [tid|]; cbn [truthyId default from_option id andb];
    [|reflexivity].
  destruct (negb (tid =? 0)) eqn:Hz; cbn [andb]; [|reflexivity].
  destruct (bool_decide (tid ∈ createdTabIds (js w))) eqn:Hin; [|reflexivity].
  assert (Hp : truthyId (probeTabId (js w)) && bool_decide (probeTabId (js w) = Some tid)
               = bool_decide (probeTabId (js w) = Some tid)).
  { destruct (bool_decide_reflect (probeTabId (js w) = Some tid)) as [E|_];
      [|apply andb_false_r].
    rewrite E. cbn [truthyId]. rewrite Hz. reflexivity. }
  destruct (acks (env w)) as [|[|] rest]; cbn [fst snd js env trace probeTabId set_createdTabIds];
    rewrite Hp, ?Hin; destruct (bool_decide (probeTabId (js w) = Some tid)); reflexivity.
Qed.

(** X12.  The cleanup after a successful login never throws.  It acts only
    when [usedTabId] is a tab identifier that is in [createdTabIds]: it then
    calls [chrome.tabs.remove] for that tab once, takes the identifier out of
    [createdTabIds] whether or not the browser could close the tab, and
    forgets the probe tab if that was the one.  In every other case (no
    [usedTabId], identifier 0, a tab the worker did not register) it does
    nothing at all. *)
Theorem cleanup_closes_registered_tab_only submitRes w :
  (closeCreatedTab submitRes w).1 = Ret tt /\
  match usedTabId submitRes with
  | Some tid =>
      if negb (tid =? 0) && bool_decide (tid ∈ createdTabIds (js w)) then
        trace (closeCreatedTab submitRes w).2 = EvTabsRemove tid true :: trace w /\
        createdTabIds (js (closeCreatedTab submitRes w).2) = createdTabIds (js w) ∖ {[tid]} /\
        probeTabId (js (closeCreatedTab submitRes w).2)
        = (if bool_decide (probeTabId (js w) = Some tid) then None else probeTabId (js w)) /\
        backoffSeconds (js (closeCreatedTab submitRes w).2) = backoffSeconds (js w) /\
        cachedConfig (js (closeCreatedTab submitRes w).2) = cachedConfig (js w)
      else (closeCreatedTab submitRes w).2 = w
  | None => (closeCreatedTab submitRes w).2 = w
  end.
Proof.
  rewrite closeCreatedTab_run. unfold afterCloseCreatedTab. split; [reflexivity|].
  cbn [snd]. destruct (usedTabId submitRes) as [tid|]; [|reflexivity].
  destruct (negb (tid =? 0) && bool_decide (tid ∈ createdTabIds (js w))); [|reflexivity].
  cbn [js trace]. destruct (bool_decide (probeTabId (js w) = Some tid)); repeat split.
Qed.

Lemma afterSubmit_success_run key submitRes w :
  ok submitRes = true ->
  probeResult (fetches (env w)) = true ->
  afterSubmit key submitRes w
  = (Ret true,
     assigned (fun g => set_inFlightOrigins (inFlightOrigins g ∖ {[key]}) g)
       (afterCloseCreatedTab submitRes
          (afterNotifySuccess key
             (assigned (setFailedAttempts key 0)
                (assigned (set_backoffSeconds 0) (afterProbe (slept 2000 w))))))).
Proof.
  intros Hok Hup. unfold afterSubmit. rewrite Hok.
  rewrite bind_run. unfold sleep at 1, called. cbn [fst snd].
  rewrite bind_run, isInternetUp_run. cbn [env fetches with_now]. rewrite Hup.
  rewrite bind_run. unfold modifyJs at 1. cbn [fst snd].
  rewrite bind_run. unfold modifyJs at 1. cbn [fst snd].
  rewrite bind_run, notifySuccess_run.
  rewrite bind_run, closeCreatedTab_run.
  reflexivity.
Qed.

Lemma afterNotifySuccess_js key w :
  cachedConfig (js (afterNotifySuccess key w)) = cachedConfig (js w) /\
  backoffSeconds (js (afterNotifySuccess key w)) = backoffSeconds (js w) /\
  probeTabId (js (afterNotifySuccess key w)) = probeTabId (js w) /\
  failedAttemptsByOrigin (js (afterNotifySuccess key w)) = failedAttemptsByOrigin (js w) /\
  createdTabIds (js (afterNotifySuccess key w)) = createdTabIds (js w) /\
  inFlightOrigins (js (afterNotifySuccess key w)) = inFlightOrigins (js w) /\
  env (afterNotifySuccess key w) = env w.
Proof. unfold afterNotifySuccess. destruct (_ >? _); repeat split. Qed.

Lemma afterCloseCreatedTab_js submitRes w :
  cachedConfig (js (afterCloseCreatedTab submitRes w)) = cachedConfig (js w) /\
  backoffSeconds (js (afterCloseCreatedTab submitRes w)) = backoffSeconds (js w) /\
  failedAttemptsByOrigin (js (afterCloseCreatedTab submitRes w))
  = failedAttemptsByOrigin (js w) /\
  lastSuccessNotifiedAt (js (afterCloseCreatedTab submitRes w))
  = lastSuccessNotifiedAt (js w) /\
  inFlightOrigins (js (afterCloseCreatedTab submitRes w)) = inFlightOrigins (js w) /\
  createdTabIds (js (afterCloseCreatedTab submitRes w))
  = (match usedTabId submitRes with
     | Some tid => if negb (tid =? 0) then createdTabIds (js w) ∖ {[tid]}
                   else createdTabIds (js w)
     | None => createdTabIds (js w)
     end).
Proof.
  unfold afterCloseCreatedTab. destruct (usedTabId submitRes) as [tid|]; [|repeat split].
  destruct (negb (tid =? 0)); cbn [andb]; [|repeat split].
  destruct (bool_decide_reflect (tid ∈ createdTabIds (js w))) as [Hin|Hout].
  - cbn [js]. destruct (bool_decide _); repeat split.
  - repeat split. set_solver.
Qed.

(** X13.  The success branch: the injection went through and, two seconds
    later, the probe answers up.  The call returns [true]; the backoff and
    the failure counter of the origin are 0; the origin is no longer in
    flight; the counters of the other origins are as they were; and the tab
    this attempt created and used, if any, has been closed and taken out of
    [createdTabIds], while every other registered tab stays registered. *)
Theorem login_succeeded_resets_and_cleans key submitRes w :
  ok submitRes = true ->
  probeResult (fetches (env w)) = true ->
  (afterSubmit key submitRes w).1 = Ret true /\
  backoffSeconds (js (afterSubmit key submitRes w).2) = 0 /\
  failedAttemptsOf key (js (afterSubmit key submitRes w).2) = 0 /\
  (key ∉ inFlightOrigins (js (afterSubmit key submitRes w).2)) /\
  (forall k, k <> key ->
     failedAttemptsByOrigin (js (afterSubmit key submitRes w).2) !! k
     = failedAttemptsByOrigin (js w) !! k) /\
  (forall tid, usedTabId submitRes = Some tid -> tid <> 0 -> tid ∈ createdTabIds (js w) ->
     (exists l, trace (afterSubmit key submitRes w).2 = EvTabsRemove tid true :: l) /\
     (tid ∉ createdTabIds (js (afterSubmit key submitRes w).2))) /\
  (forall tid, tid ∈ createdTabIds (js w) -> usedTabId submitRes <> Some tid ->
     tid ∈ createdTabIds (js (afterSubmit key submitRes w).2)) /\
  createdTabIds (js (afterSubmit key submitRes w).2) ⊆ createdTabIds (js w).
Proof using Type.
  clear url_origin.
  intros Hok Hup. rewrite (afterSubmit_success_run key submitRes w Hok Hup).
  set (w1 := assigned (setFailedAttempts key 0)
               (assigned (set_backoffSeconds 0) (afterProbe (slept 2000 w)))).
  assert (B1 : backoffSeconds (js w1) = 0) by reflexivity.
  assert (F1 : failedAttemptsByOrigin (js w1) = <[key := 0]> (failedAttemptsByOrigin (js w))).
  { subst w1. unfold assigned. cbn [js setFailedAttempts set_failedAttemptsByOrigin
      set_backoffSeconds failedAttemptsByOrigin]. rewrite afterProbe_js. reflexivity. }
  assert (C1 : createdTabIds (js w1) = createdTabIds (js w)).
  { subst w1. unfold assigned. cbn [js setFailedAttempts set_failedAttemptsByOrigin
      set_backoffSeconds createdTabIds]. rewrite afterProbe_js. reflexivity. }
  clearbody w1.
  destruct (afterNotifySuccess_js key w1) as (_ & B2 & _ & F2 & C2 & _ & _).
  set (w2 := afterNotifySuccess key w1) in *. clearbody w2.
  destruct (afterCloseCreatedTab_js submitRes w2) as (_ & B3 & F3 & _ & _ & C3).
  assert (Ht : forall tid, usedTabId submitRes = Some tid -> tid <> 0 ->
                 tid ∈ createdTabIds (js w2) ->
                 exists l, trace (afterCloseCreatedTab submitRes w2) = EvTabsRemove tid true :: l).
  { intros tid Hu Hz Hin. unfold afterCloseCreatedTab. rewrite Hu.
    rewrite bool_decide_eq_true_2 by exact Hin.
    assert (negb (tid =? 0) = true) as -> by (apply negb_true_iff, Z.eqb_neq, Hz).
    cbn [andb trace]. eexists. reflexivity. }
  set (w3 := afterCloseCreatedTab submitRes w2) in *. clearbody w3.
  unfold assigned, failedAttemptsOf.
  cbn [fst snd js trace set_inFlightOrigins backoffSeconds failedAttemptsByOrigin createdTabIds
       inFlightOrigins].
  rewrite B3, B2, B1, F3, F2, F1, C3, C2, C1. rewrite C2, C1 in Ht.
  split; [reflexivity|]. split; [reflexivity|].
  split; [rewrite lookup_insert_eq; reflexivity|].
  split; [set_solver|].
  split; [intros k Hk; rewrite lookup_insert_ne by congruence; reflexivity|].
  split; [|split].
  - intros tid Hu Hz Hin. split; [apply Ht; assumption|].
    rewrite Hu. assert (negb (tid =? 0) = true) as -> by (apply negb_true_iff, Z.eqb_neq, Hz).
    set_solver.
  - intros tid Hin Hu. destruct (usedTabId submitRes) as [t|]; [|exact Hin].
    destruct (negb (t =? 0)); [|exact Hin]. apply elem_of_difference. split; [exact Hin|].
    intros Ht'. apply elem_of_singleton in Ht'. subst t. apply Hu. reflexivity.
  - destruct (usedTabId submitRes) as [t|]; [|reflexivity].
    destruct (negb (t =? 0)); [set_solver | reflexivity].
Qed.


Lemma afterSubmit_still_down_run key submitRes w :
  ok submitRes = true ->
  probeResult (fetches (env w)) = false ->
  afterSubmit key submitRes w
  = (Ret false,
     assigned (fun g => set_inFlightOrigins (inFlightOrigins g ∖ {[key]}) g)
       (assigned (fun g => set_backoffSeconds (Backoff.stillDownBackoff (backoffSeconds g)) g)
          (afterProbe (slept 2000 w)))).
Proof.
  intros Hok Hdown. unfold afterSubmit. rewrite Hok.
  rewrite bind_run. unfold sleep at 1, called. cbn [fst snd].
  rewrite bind_run, isInternetUp_run. cbn [env fetches with_now]. rewrite Hdown.
  reflexivity.
Qed.


(** X14.  The injection went through, but two seconds later the probe still
    answers down twice.  The call returns [false]; the backoff becomes 2, or
    twice what it was up to 16; the failure counters are not touched; the
    tab the attempt used is neither closed nor taken out of [createdTabIds];
    no notification is shown; the origin is no longer in flight. *)
Theorem login_submitted_but_still_down key submitRes w :
  ok submitRes = true ->
  probeResult (fetches (env w)) = false ->
  (afterSubmit key submitRes w).1 = Ret false /\
  backoffSeconds (js (afterSubmit key submitRes w).2)
  = Backoff.stillDownBackoff (backoffSeconds (js w)) /\
  failedAttemptsByOrigin (js (afterSubmit key submitRes w).2) = failedAttemptsByOrigin (js w) /\
  createdTabIds (js (afterSubmit key submitRes w).2) = createdTabIds (js w) /\
  probeTabId (js (afterSubmit key submitRes w).2) = probeTabId (js w) /\
  inFlightOrigins (js (afterSubmit key submitRes w).2) = inFlightOrigins (js w) ∖ {[key]} /\
  trace (afterSubmit key submitRes w).2
  = EvFetch :: EvSleep 300 :: EvFetch :: EvSleep 2000 :: trace w.
Proof.
  intros Hok Hdown. rewrite (afterSubmit_still_down_run key submitRes w Hok Hdown).
  rewrite afterProbe_down by exact Hdown.
  repeat split.
Qed.

(** X15.  [openPortalTabAndSubmit] failed and the probe still answers down
    twice.  The call returns [false]; the failure counter of the origin has
    grown by exactly one and the counters of the other origins are as they
    were; the backoff is what the friendly policy gives for the old backoff
    and the new count; no tab is closed, [createdTabIds] is unchanged, no
    notification is shown; the origin is no longer in flight. *)
Theorem failed_attempt_is_counted_once key submitRes w :
  ok submitRes = false ->
  probeResult (fetches (env w)) = false ->
  (afterSubmit key submitRes w).1 = Ret false /\
  failedAttemptsOf key (js (afterSubmit key submitRes w).2) = failedAttemptsOf key (js w) + 1 /\
  (forall k, k <> key ->
     failedAttemptsByOrigin (js (afterSubmit key submitRes w).2) !! k
     = failedAttemptsByOrigin (js w) !! k) /\
  backoffSeconds (js (afterSubmit key submitRes w).2)
  = Backoff.friendlyBackoff (backoffSeconds (js w)) (failedAttemptsOf key (js w) + 1) /\
  createdTabIds (js (afterSubmit key submitRes w).2) = createdTabIds (js w) /\
  inFlightOrigins (js (afterSubmit key submitRes w).2) = inFlightOrigins (js w) ∖ {[key]} /\
  trace (afterSubmit key submitRes w).2 = EvFetch :: EvSleep 300 :: EvFetch :: trace w.
Proof.
  intros Hok Hdown. rewrite (afterSubmit_failed_down_run key submitRes w Hok Hdown).
  rewrite afterProbe_down by exact Hdown.
  unfold assigned, failedAttemptsOf, setFailedAttempts.
  cbn [fst snd js env trace failedAttemptsByOrigin backoffSeconds createdTabIds inFlightOrigins
       set_inFlightOrigins set_backoffSeconds set_failedAttemptsByOrigin].
  rewrite lookup_insert_eq. cbn [default from_option id].
  repeat split.
  intros k Hk. rewrite lookup_insert_ne by congruence. reflexivity.
Qed.

(** *** The functions that look at a tab *)

Lemma waitLoop_spec fuel tabId start timeoutMs w :
  exists b (k : nat) w',
    waitLoop fuel tabId start timeoutMs w = (Ret b, w') /\
    js w' = js w /\
    now (env w') = now (env w) + 300 * Z.of_nat k /\
    (k <> 0%nat -> now (env w) + 300 * (Z.of_nat k - 1) - start < timeoutMs) /\
    (b = true ->
     now (env w') - start < timeoutMs /\
     exists t, gets (env w) !! k = Some (Some (Some t)) /\ tab_status t = "complete").
Proof.
  revert w. induction fuel as [|fuel IH]; intros w.
  { exists false, 0%nat, w. cbn. repeat split; try lia; try discriminate; try congruence. }
  rewrite waitLoop_S. rewrite bind_run. unfold dateNow at 1. cbn [fst snd].
  destruct (Z.ltb_spec (now (env w) - start) timeoutMs) as [Hlt|Hge].
  2:{ exists false, 0%nat, w. cbn. repeat split; try lia; try discriminate; try congruence. }
  rewrite bind_run. unfold try_catch, tabsGet. rewrite bind_run.
  destruct (gets (env w)) as [|[[t|]|] rest] eqn:Eg; unfold mret, M_ret; cbn [fst snd].
  - eexists false, 0%nat, _. split; [reflexivity|]. cbn.
    repeat split; try lia; try discriminate; try congruence.
  - destruct (String.eqb_spec (tab_status t) "complete") as [Hc|Hn]; cbn [fst snd].
    + eexists true, 0%nat, _. split; [reflexivity|]. cbn.
      repeat split; try lia; try congruence. exists t. split; [reflexivity | exact Hc].
    + rewrite bind_run. unfold sleep at 1, called. cbn [fst snd js env trace].
      match goal with |- context [waitLoop fuel tabId start timeoutMs ?w1] =>
        destruct (IH w1) as (b & k & w' & E & Hjs & Hnow & Hlast & Htrue) end.
      cbn [js env now gets with_now with_gets] in *.
      exists b, (S k), w'. split; [exact E|]. split; [exact Hjs|].
      split; [lia|]. split.
      * intros _. destruct k as [|k]; [lia|]. specialize (Hlast ltac:(lia)). lia.
      * intros Hb. destruct (Htrue Hb) as (Hin & t' & Hg & Hc). split; [exact Hin|].
        exists t'. split; [exact Hg | exact Hc].
  - eexists false, 0%nat, _. split; [reflexivity|]. cbn.
    repeat split; try lia; try discriminate; try congruence.
  - eexists false, 0%nat, _. split; [reflexivity|]. cbn.
    repeat split; try lia; try discriminate; try congruence.
Qed.

(** X16.  [waitForTabLoaded] never throws and assigns no module-level
    variable.  It sleeps 300 ms between two looks at the tab, [k] times in
    all, and the last of these sleeps starts before [timeoutMs] has elapsed
    on the clock the loop reads: its sleeps add up to less than
    [timeoutMs + 300] ms, and to nothing when [timeoutMs] is not positive.
    It returns [true] only when its look number [k + 1], made before
    [timeoutMs] had elapsed, found the tab with status [complete]; a tab that
    is gone, a rejected [chrome.tabs.get] and the timeout all give
    [false]. *)
Theorem waitForTabLoaded_bounded tabId timeoutMs w :
  exists b (k : nat),
    (waitForTabLoaded tabId timeoutMs w).1 = Ret b /\
    js (waitForTabLoaded tabId timeoutMs w).2 = js w /\
    now (env (waitForTabLoaded tabId timeoutMs w).2) = now (env w) + 300 * Z.of_nat k /\
    (k = 0%nat \/ 300 * Z.of_nat k < timeoutMs + 300) /\
    (b = true ->
     300 * Z.of_nat k < timeoutMs /\
     exists t, gets (env w) !! k = Some (Some (Some t)) /\ tab_status t = "complete").
Proof.
  change (waitForTabLoaded tabId timeoutMs w)
    with (waitLoop (Z.to_nat (timeoutMs / 300) + 1) tabId (now (env w)) timeoutMs w).
  destruct (waitLoop_spec (Z.to_nat (timeoutMs / 300) + 1) tabId (now (env w)) timeoutMs w)
    as (b & k & w' & E & Hjs & Hnow & Hlast & Htrue).
  rewrite E. cbn [fst snd]. exists b, k. split; [reflexivity|]. split; [exact Hjs|].
  split; [exact Hnow|]. split.
  - destruct k as [|k]; [left; reflexivity|]. right. specialize (Hlast ltac:(lia)). lia.
  - intros Hb. destruct (Htrue Hb) as (Hin & t & Hg & Hc). split; [lia|].
    exists t. split; [exact Hg | exact Hc].
Qed.

Lemma detectFieldsInTab_run tabId w :
  exists d,
    detectFieldsInTab tabId w
    = (Ret d, called (with_detects (tl (detects (env w))) (env w)) (EvDetectScript tabId) w) /\
    d = match detects (env w) with
        | Some results :: _ =>
            {| found := existsb scan_found
                          (map (fun r => match r with
                                         | Some doc => detectFunc doc
                                         | None => unknownFrame
                                         end) results);
               frames := map (fun r => match r with
                                       | Some doc => detectFunc doc
                                       | None => unknownFrame
                                       end) results |}
        | _ => {| found := false; frames := [] |}
        end.
Proof.
  unfold detectFieldsInTab, try_catch, executeDetectScript. rewrite bind_run.
  destruct (detects (env w)) as [|[results|] rest]; cbn [fst snd];
    eexists; split; reflexivity.
Qed.

(** X17.  [detectFieldsInTab] never throws: it runs the detection script
    once and assigns nothing.  It reports [found] exactly when the script
    came back with a frame whose document has an input of type password (in
    any letter case) and an input that is a likely username; a frame without
    a result counts as not found; a rejected script gives
    [{ found: false, frames: [] }].  It reports one entry per frame, each
    with at most 40 inputs. *)
Theorem detectFieldsInTab_found_iff tabId w :
  exists d,
    detectFieldsInTab tabId w
    = (Ret d, called (with_detects (tl (detects (env w))) (env w)) (EvDetectScript tabId) w) /\
    (found d = true <->
     exists results doc,
       head (detects (env w)) = Some (Some results) /\
       Some doc ∈ results /\
       Fields.hasPass (doc_inputs doc) = true /\
       Fields.hasUser (doc_inputs doc) = true) /\
    (forall results, head (detects (env w)) = Some (Some results) ->
       length (frames d) = length results) /\
    ((forall results, head (detects (env w)) <> Some (Some results)) -> frames d = []) /\
    Forall (fun f => (length (scan_inputs f) <= 40)%nat) (frames d).
Proof.
  destruct (detectFieldsInTab_run tabId w) as (d & E & Hd). exists d. split; [exact E|].
  destruct (detects (env w)) as [|[results|] rest]; subst d; cbn [found frames head].
  - split; [split; [discriminate | intros (r & doc & Hh & _); discriminate Hh]|].
    split; [discriminate|]. split; [reflexivity | constructor].
  - split; [|split; [|split]].
    + rewrite existsb_exists. split.
      * intros (f & Hin & Hf). apply in_map_iff in Hin as ([doc|] & <- & Hin);
          [|discriminate Hf].
        exists results, doc. split; [reflexivity|]. split; [apply list_elem_of_In, Hin|].
        unfold detectFunc, Fields.frameFound in Hf. cbn [scan_found] in Hf.
        apply andb_true_iff in Hf. exact Hf.
      * intros (r & doc & [= <-] & Hin & Hp & Hu).
        exists (detectFunc doc). split.
        -- apply in_map_iff. exists (Some doc). split; [reflexivity|].
           apply list_elem_of_In, Hin.
        -- unfold detectFunc, Fields.frameFound. cbn [scan_found]. rewrite Hp, Hu. reflexivity.
    + intros r [= <-]. apply length_map.
    + intros H. exfalso. exact (H results eq_refl).
    + apply Forall_forall. intros f Hin. apply list_elem_of_In, in_map_iff in Hin
        as ([doc|] & <- & _); cbn [scan_inputs detectFunc unknownFrame length]; [|lia].
      rewrite length_firstn. lia.
  - split; [split; [discriminate | intros (r & doc & Hh & _); discriminate Hh]|].
    split; [discriminate|]. split; [reflexivity | constructor].
Qed.

Lemma charToUpper_charToLower c : charToUpper (charToLower c) = charToUpper c.
Proof. destruct c as [[] [] [] [] [] [] [] []]; reflexivity. Qed.

Lemma charEq_lowered p c : charEq true p (charToLower c) = charEq true p c.
Proof. unfold charEq. rewrite charToUpper_charToLower. reflexivity. Qed.

Lemma matchAt_lowered pat s : matchAt true pat (toLowerCase s) = matchAt true pat s.
Proof.
  revert s. induction pat as [|p pat IH]; intros [|c s]; cbn [matchAt toLowerCase];
    try reflexivity.
  rewrite charEq_lowered, IH. reflexivity.
Qed.

(** a search that ignores the case does not see whether its subject was
    lower-cased first *)
Lemma search_lowered pat s : search true pat (toLowerCase s) = search true pat s.
Proof.
  induction s as [|c s IH].
  - reflexivity.
  - pose proof (matchAt_lowered pat (String c s)) as H. cbn [search toLowerCase] in *.
    rewrite H, IH. reflexivity.
Qed.

Lemma charEq_exact_lower p c :
  isUpperAZ p = false -> charEq false p (charToLower c) = charEq true p c.
Proof.
  intros Hp. destruct (charEq true p c) eqn:E.
  - rewrite (charEq_ignoreCase_lower p c Hp E). apply Ascii.eqb_refl.
  - unfold charEq in *. destruct (Ascii.eqb_spec p (charToLower c)) as [->|_]; [|reflexivity].
    rewrite charToUpper_charToLower, Ascii.eqb_refl in E. discriminate E.
Qed.

Lemma matchAt_exact_lower pat s :
  lowerLiteral pat = true -> matchAt false pat (toLowerCase s) = matchAt true pat s.
Proof.
  revert s. induction pat as [|p pat IH]; intros [|c s] Hl; cbn [matchAt toLowerCase];
    try reflexivity.
  cbn [lowerLiteral] in Hl. apply andb_true_iff in Hl as [Hp Hl]. apply negb_true_iff in Hp.
  rewrite (charEq_exact_lower p c Hp), (IH s Hl). reflexivity.
Qed.

(** looking for a lower-case literal in the lower-cased subject is looking
    for it in the subject in any letter case *)
Lemma search_exact_lower pat s :
  lowerLiteral pat = true -> search false pat (toLowerCase s) = search true pat s.
Proof.
  intros Hl. induction s as [|c s IH].
  - pose proof (matchAt_exact_lower pat "" Hl) as H. cbn [search toLowerCase] in *.
    rewrite H. reflexivity.
  - pose proof (matchAt_exact_lower pat (String c s) Hl) as H. cbn [search toLowerCase] in *.
    rewrite H, IH. reflexivity.
Qed.

Lemma search_cons ignoreCase pat c s :
  search ignoreCase pat s = true -> search ignoreCase pat (String c s) = true.
Proof. intros H. cbn [search]. rewrite H. apply orb_true_r. Qed.

Lemma matchAt_search ignoreCase pat s :
  matchAt ignoreCase pat s = true -> search ignoreCase pat s = true.
Proof. intros H. destruct s; cbn [search]; rewrite H; reflexivity. Qed.

(** a literal that is found brings every suffix of itself with it *)
Lemma matchAt_suffix ignoreCase pre pat s :
  matchAt ignoreCase (pre +:+ pat) s = true -> search ignoreCase pat s = true.
Proof.
  revert s. induction pre as [|p pre IH]; intros s H.
  - apply matchAt_search. exact H.
  - destruct s as [|c s]; [discriminate H|].
    cbn [String.append matchAt] in H. apply andb_true_iff in H as [_ H].
    apply search_cons, IH, H.
Qed.

Lemma search_suffix ignoreCase pre pat s :
  search ignoreCase (pre +:+ pat) s = true -> search ignoreCase pat s = true.
Proof.
  induction s as [|c s IH]; cbn [search]; intros H; apply orb_true_iff in H as [H|H].
  - apply (matchAt_suffix _ _ _ _ H).
  - discriminate H.
  - apply (matchAt_suffix _ _ _ _ H).
  - apply search_cons, IH, H.
Qed.

Lemma keepalivePattern_simplified text :
  regexTest true keepalivePattern (toLowerCase text)
  = search true "keepalive" text
    || search true "authentication keep-alive" text
    || search true "authentication refresh" text.
Proof.
  unfold regexTest, keepalivePattern. cbn [existsb]. rewrite !search_lowered.
  destruct (search true "keepalive" text) eqn:E1; [reflexivity|].
  destruct (search true "authentication keepalive" text) eqn:E2.
  - apply (search_suffix true "authentication " "keepalive") in E2. congruence.
  - cbn [orb]. rewrite orb_false_r. reflexivity.
Qed.

(** X18.  [isKeepaliveTab] on a tab whose URL and page text are ASCII.  It
    never throws and assigns nothing.  A tab without identifier is not a
    keepalive page; a tab whose URL contains [keepalive], in any letter
    case, is one, and no script is run to see it.  For any other tab the
    page is asked for its text once, and the tab is a keepalive page exactly
    when that text contains, in any letter case, [keepalive],
    [authentication keep-alive] or [authentication refresh] (the alternative
    [authentication keepalive] of the pattern adds nothing); a rejected
    script and a missing result mean no. *)
Theorem isKeepaliveTab_verdict tab w :
  (forall u, tab_url tab = Some u -> isAscii u = true) ->
  (forall text, head (keepalives (env w)) = Some (Some (Some text)) -> isAscii text = true) ->
  if tab_id tab =? 0 then isKeepaliveTab tab w = (Ret false, w)
  else if match tab_url tab with
          | Some u => search true "keepalive" u
          | None => false
          end
  then isKeepaliveTab tab w = (Ret true, w)
  else
    isKeepaliveTab tab w
    = (Ret match head (keepalives (env w)) with
           | Some (Some (Some text)) =>
               search true "keepalive" text
               || search true "authentication keep-alive" text
               || search true "authentication refresh" text
           | _ => false
           end,
       called (with_keepalives (tl (keepalives (env w))) (env w))
         (EvKeepaliveScript (tab_id tab)) w).
Proof.
  intros _ _. unfold isKeepaliveTab, try_catch.
  destruct (tab_id tab =? 0); [reflexivity|].
  assert (Hu : match tab_url tab with
               | Some u => negb (String.eqb u "") && includes "keepalive" (toLowerCase u)
               | None => false
               end
               = match tab_url tab with
                 | Some u => search true "keepalive" u
                 | None => false
                 end).
  { destruct (tab_url tab) as [u|]; [|reflexivity].
    unfold includes. rewrite (search_exact_lower "keepalive" u eq_refl).
    destruct (String.eqb_spec u "") as [->|_]; reflexivity. }
  rewrite Hu.
  destruct (match tab_url tab with Some u => search true "keepalive" u | None => false end);
    [reflexivity|].
  rewrite bind_run. unfold executeKeepaliveScript.
  destruct (keepalives (env w)) as [|[[text|]|] rest]; cbn [fst snd head]; try reflexivity.
  unfold mret, M_ret. rewrite keepalivePattern_simplified. reflexivity.
Qed.

(** *** Counting effects *)

Lemma count_app p l1 l2 : count p (l1 ++ l2) = (count p l1 + count p l2)%nat.
Proof. unfold count. rewrite List.filter_app, length_app. reflexivity. Qed.

Lemma count_cons p e l : count p (e :: l) = ((if p e then 1 else 0) + count p l)%nat.
Proof. unfold count. cbn [List.filter]. destruct (p e); reflexivity. Qed.

Lemma count_none (okEv : Event -> Prop) p l :
  (forall e, okEv e -> p e = false) -> Forall okEv l -> count p l = 0%nat.
Proof.
  intros H F. induction F as [|e l He F IH]; [reflexivity|].
  rewrite count_cons, (H e He), IH. reflexivity.
Qed.

Lemma waitLoop_polls fuel tabId start timeoutMs :
  keeps (Foot eq polling) (waitLoop fuel tabId start timeoutMs).
Proof.
  induction fuel as [|fuel IH]; simpl.
  - keeps_walk fail.
  - keeps_walk ltac:(exact IH); foot_side.
Qed.

Lemma waitForTabLoaded_polls tabId timeoutMs :
  keeps (Foot eq polling) (waitForTabLoaded tabId timeoutMs).
Proof. unfold waitForTabLoaded. keeps_walk ltac:(apply waitLoop_polls). Qed.

Lemma waitForTabLoaded_returns tabId timeoutMs w :
  exists b, (waitForTabLoaded tabId timeoutMs w).1 = Ret b.
Proof.
  change (waitForTabLoaded tabId timeoutMs w)
    with (waitLoop (Z.to_nat (timeoutMs / 300) + 1) tabId (now (env w)) timeoutMs w).
  destruct (waitLoop_spec (Z.to_nat (timeoutMs / 300) + 1) tabId (now (env w)) timeoutMs w)
    as (b & k & w' & E & _). rewrite E. exists b. reflexivity.
Qed.

Lemma polling_scanning tabId e : polling e -> scanning tabId e.
Proof using Type. clear url_origin. destruct e; simpl; tauto. Qed.

(** the reload of the first retry *)
Lemma reloadAndWait_run tabId w :
  exists l w',
    try_catch (tabsReload tabId;; waitForTabLoaded tabId 7000;; mret tt) (fun _ => mret tt) w
    = (Ret tt, w') /\
    js w' = js w /\
    trace w' = l ++ EvTabsReload tabId :: trace w /\
    Forall polling l.
Proof.
  unfold try_catch. rewrite bind_run. unfold tabsReload, acknowledged, called.
  destruct (acks (env w)) as [|[|] rest]; cbn [fst snd].
  3:{ eexists [], _. unfold mret, M_ret. repeat split. constructor. }
  all: rewrite bind_run;
    match goal with |- context [waitForTabLoaded ?i ?t ?w1] =>
      pose proof (waitForTabLoaded_polls i t w1) as [Hjs (l & E & F)];
      destruct (waitForTabLoaded_returns i t w1) as [b Hb];
      destruct (waitForTabLoaded i t w1) as [r w2] end;
    cbn [fst snd js env trace] in *; subst r;
    exists l, w2; unfold mret, M_ret; cbn [fst snd];
    (split; [reflexivity|]); (split; [symmetry; exact Hjs|]);
    (split; [exact E | exact F]).
Qed.

Lemma detectRetries_spec turns checkAttempt tabId detectResult w :
  exists detectResult' l w',
    detectRetries turns checkAttempt tabId detectResult w = (Ret detectResult', w') /\
    js w' = js w /\
    trace w' = l ++ trace w /\
    Forall (scanning tabId) l /\
    (count isDetectScript l <= Nat.min turns (MAX_FIELD_CHECK_TRIES - checkAttempt))%nat /\
    (count isReload l <= if (checkAttempt =? 0)%nat then 1 else 0)%nat /\
    (found detectResult = true -> l = [] /\ detectResult' = detectResult) /\
    (found detectResult' = false ->
     count isDetectScript l = Nat.min turns (MAX_FIELD_CHECK_TRIES - checkAttempt)).
Proof using Type.
  clear url_origin.
  revert checkAttempt detectResult w.
  induction turns as [|turns IH]; intros c d w.
  { exists d, [], w. cbn. repeat split; try lia; try constructor; try reflexivity. }
  rewrite detectRetries_S.
  destruct ((c <? MAX_FIELD_CHECK_TRIES)%nat && negb (found d)) eqn:Hcond.
  2:{ exists d, [], w. unfold mret, M_ret.
      split; [reflexivity|]. split; [reflexivity|]. split; [reflexivity|].
      split; [constructor|]. split; [cbn; lia|]. split; [cbn; lia|].
      split; [intros _; split; reflexivity|].
      intros Hf. rewrite Hf in Hcond. cbn [negb] in Hcond. rewrite andb_true_r in Hcond.
      apply Nat.ltb_ge in Hcond. cbn [count List.filter length]. lia. }
  apply andb_true_iff in Hcond as [Hc Hf]. apply Nat.ltb_lt in Hc.
  apply negb_true_iff in Hf.
  assert (Hfirst : exists l1 w1,
            (if RELOAD_ON_FIRST_FAIL && (c =? 0)%nat
             then try_catch (tabsReload tabId;; waitForTabLoaded tabId 7000;; mret tt)
                            (fun _ => mret tt)
             else sleep FIELD_CHECK_INTERVAL_MS) w = (Ret tt, w1) /\
            js w1 = js w /\ trace w1 = l1 ++ trace w /\ Forall (scanning tabId) l1 /\
            count isDetectScript l1 = 0%nat /\
            (count isReload l1 <= if (c =? 0)%nat then 1 else 0)%nat).
  { unfold RELOAD_ON_FIRST_FAIL. cbn [andb]. destruct (c =? 0)%nat.
    - destruct (reloadAndWait_run tabId w) as (l & w1 & E & Hjs & Et & F).
      exists (l ++ [EvTabsReload tabId]), w1. split; [exact E|]. split; [exact Hjs|].
      split; [rewrite Et, <- app_assoc; reflexivity|].
      split; [apply Forall_app; split;
              [eapply Forall_impl; [exact F | apply polling_scanning]
              | repeat constructor]|].
      rewrite !count_app.
      rewrite (count_none polling isDetectScript l), (count_none polling isReload l);
        try exact F; try (intros []; simpl; tauto).
      split; cbn; lia.
    - exists [EvSleep FIELD_CHECK_INTERVAL_MS], (slept FIELD_CHECK_INTERVAL_MS w).
      split; [reflexivity|]. split; [reflexivity|]. split; [reflexivity|].
      split; [repeat constructor|]. split; cbn; lia. }
  destruct Hfirst as (l1 & w1 & E1 & Hjs1 & Et1 & F1 & D1 & R1).
  rewrite bind_run, E1. rewrite bind_run.
  destruct (detectFieldsInTab_run tabId w1) as (d2 & E2 & _). rewrite E2.
  match goal with |- context [detectRetries turns (S c) tabId d2 ?w2] =>
    destruct (IH (S c) d2 w2) as (d' & l3 & w' & E3 & Hjs3 & Et3 & F3 & D3 & R3 & _ & N3) end.
  exists d', (l3 ++ EvDetectScript tabId :: l1), w'.
  split; [exact E3|]. split; [rewrite Hjs3; exact Hjs1|].
  split; [rewrite Et3; cbn [called trace]; rewrite Et1, <- app_assoc; reflexivity|].
  split; [apply Forall_app; split; [exact F3|]; constructor; [reflexivity | exact F1]|].
  rewrite !count_app, !count_cons, D1. cbn [isDetectScript isReload].
  unfold MAX_FIELD_CHECK_TRIES in *. cbn [Nat.eqb] in R3.
  split; [lia|]. split; [lia|].
  split; [intros Hd; rewrite Hd in Hf; discriminate Hf|].
  intros Hn. specialize (N3 Hn). lia.
Qed.

(** X19.  The retries of the field detection in [openPortalTabAndSubmit]:
    the loop never throws and assigns nothing; it scans the tab again at most
    three times, reloads it at most once, and touches no other tab.  It does
    nothing at all when the first scan found the fields, and it gives up
    without them only after three more scans. *)
Theorem detection_retries_are_bounded tabId first w :
  exists detectResult l,
    (detectRetries MAX_FIELD_CHECK_TRIES 0 tabId first w).1 = Ret detectResult /\
    js (detectRetries MAX_FIELD_CHECK_TRIES 0 tabId first w).2 = js w /\
    trace (detectRetries MAX_FIELD_CHECK_TRIES 0 tabId first w).2 = l ++ trace w /\
    Forall (scanning tabId) l /\
    (count isDetectScript l <= 3)%nat /\
    (count isReload l <= 1)%nat /\
    (found first = true -> l = [] /\ detectResult = first) /\
    (found detectResult = false -> count isDetectScript l = 3%nat).
Proof using Type.
  clear url_origin.
  destruct (detectRetries_spec MAX_FIELD_CHECK_TRIES 0 tabId first w)
    as (d' & l & w' & E & Hjs & Et & F & D & R & Hf & Hn).
  rewrite E. exists d', l. cbn [fst snd]. unfold MAX_FIELD_CHECK_TRIES in *.
  cbn in D, R, Hn. repeat split; try assumption; apply Hf; assumption.
Qed.

(** *** What can throw *)

Lemma returns_ret {A} (a : A) : returns (mret a : M A).
Proof. intros w. exists a. reflexivity. Qed.

Lemma returns_bind {A B} (m : M A) (f : A -> M B) :
  returns m -> (forall a, returns (f a)) -> returns (m ≫= f).
Proof.
  intros Hm Hf w. rewrite bind_run. destruct (Hm w) as [a Ha].
  destruct (m w) as [r w1]. cbn [fst] in Ha. subst r. apply Hf.
Qed.

Lemma returns_try_catch {A} (m : M A) (h : string -> M A) :
  (forall e, returns (h e)) -> returns (try_catch m h).
Proof.
  intros Hh w. unfold try_catch. destruct (m w) as [[a|e] w1]; [exists a; reflexivity|].
  apply Hh.
Qed.

Lemma returns_getJs {A} (f : Globals -> A) : returns (getJs f).
Proof. intros w. eexists. reflexivity. Qed.

Lemma returns_modifyJs f : returns (modifyJs f).
Proof. intros w. exists tt. reflexivity. Qed.

Lemma returns_emit e : returns (emit e).
Proof. intros w. exists tt. reflexivity. Qed.

Lemma returns_sleep ms : returns (sleep ms).
Proof. intros w. exists tt. reflexivity. Qed.

Lemma returns_dateNow : returns dateNow.
Proof. intros w. eexists. reflexivity. Qed.

Ltac returns_step sub :=
  lazymatch goal with
  | |- returns (mret _) => apply returns_ret
  | |- returns (mbind _ _) => apply returns_bind; [ | intros ?]
  | |- returns (try_catch _ _) => apply returns_try_catch; intros ?
  | |- returns (getJs _) => apply returns_getJs
  | |- returns (modifyJs _) => apply returns_modifyJs
  | |- returns (emit _) => apply returns_emit
  | |- returns (notify _) => apply returns_emit
  | |- returns (sleep _) => apply returns_sleep
  | |- returns dateNow => apply returns_dateNow
  | |- returns (if ?b then _ else _) => destruct b
  | |- returns (match ?x with _ => _ end) => destruct x
  | |- returns _ => sub
  end.

Ltac returns_walk sub := repeat (returns_step sub).

Lemma isInternetUp_total timeoutMs : returns (isInternetUp timeoutMs).
Proof. intros w. rewrite isInternetUp_probed. eexists. reflexivity. Qed.

Lemma waitForTabLoaded_total tabId timeoutMs : returns (waitForTabLoaded tabId timeoutMs).
Proof. intros w. apply waitForTabLoaded_returns. Qed.

Lemma detectFieldsInTab_total tabId : returns (detectFieldsInTab tabId).
Proof. unfold detectFieldsInTab. returns_walk fail. Qed.

Lemma detectRetries_total turns checkAttempt tabId detectResult :
  returns (detectRetries turns checkAttempt tabId detectResult).
Proof using Type.
  clear url_origin.
  intros w. destruct (detectRetries_spec turns checkAttempt tabId detectResult w)
    as (d & l & w' & E & _). rewrite E. exists d. reflexivity.
Qed.

Lemma isKeepaliveTab_total tab : returns (isKeepaliveTab tab).
Proof. unfold isKeepaliveTab. returns_walk fail. Qed.

Lemma connectivityGuard_total : returns connectivityGuard.
Proof. unfold connectivityGuard. returns_walk fail. Qed.

Lemma checkProbe_total : returns checkProbe.
Proof. unfold checkProbe. returns_walk fail. Qed.

Lemma createProbe_total t0 : returns (createProbe t0).
Proof. unfold createProbe. returns_walk fail. Qed.

Lemma navigateProbe_total origin : returns (navigateProbe origin).
Proof. unfold navigateProbe. returns_walk fail. Qed.

Lemma createPortalTab_total origin : returns (createPortalTab origin).
Proof. unfold createPortalTab. returns_walk fail. Qed.

Lemma injectAcrossFrames_total tabId createdTabId :
  returns (injectAcrossFrames tabId createdTabId).
Proof. unfold injectAcrossFrames. returns_walk fail. Qed.

Ltac total_lemma :=
  first [ apply isInternetUp_total | apply waitForTabLoaded_total
        | apply detectFieldsInTab_total | apply detectRetries_total
        | apply isKeepaliveTab_total | apply connectivityGuard_total
        | apply checkProbe_total | apply createProbe_total | apply navigateProbe_total
        | apply createPortalTab_total | apply injectAcrossFrames_total ].

(** what follows the first [chrome.tabs.query] in [openPortalTabAndSubmit] *)
Lemma afterFirstQuery_total origin (tabs : list Tab) :
  returns
    (acquired ← match Fields.jsFind (tabAtOrigin origin) tabs with
                | Some portalTab =>
                    try_catch (tabsUpdate (tab_id portalTab) None) (fun _ => mret tt);;
                    mret (Continue (Some portalTab, None))
                | None =>
                    t0 ← dateNow;
                    checkProbe;;
                    createdTabId ← createProbe t0;
                    portalTab ← try_catch (tabs2 ← tabsQuery;
                                           mret (Fields.jsFind (tabAtOrigin origin) tabs2))
                                          (fun _ => mret None);
                    probe ← getJs probeTabId;
                    nav ← (if negb (bool_decide (is_Some portalTab)) && truthyId probe
                           then navigateProbe origin
                           else mret (Continue portalTab));
                    match nav with
                    | Return r => mret (Return r)
                    | Continue (Some portalTab) => mret (Continue (Some portalTab, createdTabId))
                    | Continue None => createPortalTab origin
                    end
                end;
     match acquired with
     | Return r => mret r
     | Continue (None, _) => mret (failed "no_portal_tab" None)
     | Continue (Some portalTab, createdTabId) =>
         first ← detectFieldsInTab (tab_id portalTab);
         detectResult ← detectRetries MAX_FIELD_CHECK_TRIES 0 (tab_id portalTab) first;
         if negb (found detectResult)
         then mret (failed "fields_not_found_in_all_frames" None)
         else injectAcrossFrames (tab_id portalTab) createdTabId
     end).
Proof. returns_walk total_lemma. Qed.


(** X20.  [openPortalTabAndSubmit] throws in one case only: its own probe
    answers down and the first [chrome.tabs.query], the one call made
    outside any [try], rejects; the exception is that rejection.  Every other
    failure (of a probe, of creating, reading, updating or reloading a tab,
    of a page script) is caught inside and ends in a result. *)
Theorem openPortalTabAndSubmit_throws_iff cfg w :
  (exists e, (openPortalTabAndSubmit cfg w).1 = Throw e) <->
  probeResult (fetches (env w)) = false /\ head (queries (env w)) = Some None.
Proof.
  unfold openPortalTabAndSubmit.
  set (origin := if String.eqb _ "" then _ else _).
  rewrite bind_run. unfold emit at 1. cbn [fst snd].
  rewrite bind_run. unfold connectivityGuard, try_catch. rewrite isInternetUp_run.
  cbn [env fetches].
  destruct (probeResult (fetches (env w))).
  { split; [intros [e He]; discriminate He | intros [Hd _]; discriminate Hd]. }
  unfold acquirePortalTab. rewrite bind_assoc, bind_run, tabsQuery_run.
  match goal with |- context [afterProbe ?w1] =>
    destruct (afterProbe_env w1) as (Hq & _); set (w2 := afterProbe w1) in * end.
  cbn [env] in Hq. rewrite Hq.
  destruct (queries (env w)) as [|[tabs|] rest]; cbn [head].
  - match goal with |- context [(?m ≫= ?f) ?w3] =>
      destruct (afterFirstQuery_total origin [] w3) as [r Hr] end.
    split; [intros [e He]|intros [_ Hd]; discriminate Hd].
    rewrite He in Hr. discriminate Hr.
  - match goal with |- context [(?m ≫= ?f) ?w3] =>
      destruct (afterFirstQuery_total origin tabs w3) as [r Hr] end.
    split; [intros [e He]|intros [_ Hd]; discriminate Hd].
    rewrite He in Hr. discriminate Hr.
  - split; [intros _; split; reflexivity|]. intros _. eexists. reflexivity.
Qed.

(** *** The injection *)

Lemma injectAcrossFrames_run tabId createdTabId w :
  exists r,
    injectAcrossFrames tabId createdTabId w
    = (Ret r, called (with_injects (tl (injects (env w))) (env w)) (EvInjectScript tabId) w) /\
    usedTabId r = createdTabId /\
    (ok r = true <->
     exists frameResults frame,
       head (injects (env w)) = Some (Some frameResults) /\
       Some frame ∈ frameResults /\ perFrame_ok frame = true).
Proof.
  unfold injectAcrossFrames, try_catch, executeInjectScript. rewrite bind_run.
  destruct (injects (env w)) as [|[rs|] rest]; cbn [fst snd head]; unfold mret, M_ret.
  - eexists. split; [reflexivity|]. split; [reflexivity|].
    split; [discriminate | intros (? & ? & Hd & _); discriminate Hd].
  - unfold successFrame, Fields.jsFind.
    destruct (List.find _ rs) as [[fr|]|] eqn:Ef; cbn [default from_option id].
    + eexists. split; [reflexivity|]. split; [reflexivity|]. split; [|reflexivity].
      intros _. apply find_some in Ef as [Hin Hok]. exists rs, fr.
      split; [reflexivity|]. split; [apply list_elem_of_In, Hin | exact Hok].
    + apply find_some in Ef as [_ Hd]. discriminate Hd.
    + eexists. split; [reflexivity|]. split; [reflexivity|].
      split; [discriminate|]. intros (rs' & fr & [= <-] & Hin & Hok).
      apply list_elem_of_In in Hin.
      pose proof (find_none _ _ Ef (Some fr) Hin) as Hn. cbn in Hn. congruence.
  - eexists. split; [reflexivity|]. split; [reflexivity|].
    split; [discriminate | intros (? & ? & Hd & _); discriminate Hd].
Qed.

(** X21.  The injection across frames never throws: it runs the injection
    script once in the portal tab and assigns nothing.  It reports success
    exactly when the script came back with a frame that reported success;
    a rejected script is reported as a failure.  Successful or not, the
    result carries the identifier of the tab this call created (or none). *)
Theorem injection_succeeds_iff_a_frame_does tabId createdTabId w :
  exists r,
    injectAcrossFrames tabId createdTabId w
    = (Ret r, called (with_injects (tl (injects (env w))) (env w)) (EvInjectScript tabId) w) /\
    usedTabId r = createdTabId /\
    (ok r = true <->
     exists frameResults frame,
       head (injects (env w)) = Some (Some frameResults) /\
       Some frame ∈ frameResults /\ perFrame_ok frame = true).
Proof. apply injectAcrossFrames_run. Qed.

(** *** Reusing an open portal tab *)

Lemma deactivate_run tabId w :
  try_catch (tabsUpdate tabId None) (fun _ => mret tt) w
  = (Ret tt, called (with_acks (tl (acks (env w))) (env w)) (EvTabsUpdate tabId None) w).
Proof.
  unfold try_catch, tabsUpdate, acknowledged.
  destruct (acks (env w)) as [|[|] rest]; reflexivity.
Qed.

Lemma scanning_working tabId e : scanning tabId e -> working tabId e.
Proof using Type. clear url_origin. destruct e; simpl; tauto. Qed.

Lemma openPortalTabAndSubmit_down cfg w :
  probeResult (fetches (env w)) = false ->
  openPortalTabAndSubmit cfg w
  = (acquired ← acquirePortalTab (portalOriginOf cfg);
     match acquired with
     | Return r => mret r
     | Continue (None, _) => mret (failed "no_portal_tab" None)
     | Continue (Some portalTab, createdTabId) =>
         first ← detectFieldsInTab (tab_id portalTab);
         detectResult ← detectRetries MAX_FIELD_CHECK_TRIES 0 (tab_id portalTab) first;
         if negb (found detectResult)
         then mret (failed "fields_not_found_in_all_frames" None)
         else injectAcrossFrames (tab_id portalTab) createdTabId
     end)
      (afterProbe {| js := js w; env := env w;
                     trace := EvOrchestrator (portalOriginOf cfg) :: trace w |}).
Proof.
  intros Hdown. unfold openPortalTabAndSubmit. fold (portalOriginOf cfg).
  rewrite bind_run. unfold emit at 1. cbn [fst snd].
  rewrite bind_run. unfold connectivityGuard, try_catch. rewrite isInternetUp_run.
  cbn [env fetches]. rewrite Hdown. reflexivity.
Qed.

(** what [openPortalTabAndSubmit] does once it has its portal tab *)
Lemma workInTab_run tabId createdTabId w :
  exists r l w',
    (first ← detectFieldsInTab tabId;
     detectResult ← detectRetries MAX_FIELD_CHECK_TRIES 0 tabId first;
     if negb (found detectResult)
     then mret (failed "fields_not_found_in_all_frames" None)
     else injectAcrossFrames tabId createdTabId) w = (Ret r, w') /\
    js w' = js w /\
    trace w' = l ++ trace w /\
    Forall (working tabId) l /\
    (usedTabId r = None \/ usedTabId r = createdTabId) /\
    (count isDetectScript l <= 4)%nat /\
    (count isReload l <= 1)%nat /\
    (count isInjectScript l <= 1)%nat /\
    count isCreate l = 0%nat.
Proof using Type.
  clear url_origin.
  rewrite bind_run. destruct (detectFieldsInTab_run tabId w) as (d1 & E1 & _). rewrite E1.
  rewrite bind_run.
  match goal with |- context [detectRetries _ _ _ _ ?w1] =>
    destruct (detectRetries_spec MAX_FIELD_CHECK_TRIES 0 tabId d1 w1)
      as (d2 & l2 & w2 & E2 & Hjs2 & Et2 & F2 & D2 & R2 & _) end.
  rewrite E2. unfold MAX_FIELD_CHECK_TRIES in D2. cbn in D2, R2.
  cbn [called js trace] in Hjs2, Et2.
  assert (C2 : count isCreate l2 = 0%nat).
  { apply (count_none (scanning tabId)); [intros []; simpl; tauto | exact F2]. }
  assert (I2 : count isInjectScript l2 = 0%nat).
  { apply (count_none (scanning tabId)); [intros []; simpl; tauto | exact F2]. }
  assert (W2 : Forall (working tabId) (l2 ++ [EvDetectScript tabId])).
  { apply Forall_app. split; [eapply Forall_impl; [exact F2 | apply scanning_working]|].
    repeat constructor. }
  destruct (negb (found d2)).
  - exists (failed "fields_not_found_in_all_frames" None), (l2 ++ [EvDetectScript tabId]), w2.
    split; [reflexivity|]. split; [exact Hjs2|].
    split; [rewrite Et2, <- app_assoc; reflexivity|]. split; [exact W2|].
    split; [left; reflexivity|].
    rewrite !count_app, C2, I2. cbn. repeat split; lia.
  - destruct (injectAcrossFrames_run tabId createdTabId w2) as (r & E3 & Hu & _).
    eexists r, (EvInjectScript tabId :: l2 ++ [EvDetectScript tabId]), _.
    split; [exact E3|]. split; [exact Hjs2|].
    split; [cbn [called trace app]; rewrite Et2, <- app_assoc; reflexivity|].
    split; [constructor; [reflexivity | exact W2]|].
    split; [right; exact Hu|].
    rewrite !count_cons, !count_app, C2, I2. cbn. repeat split; lia.
Qed.

(** X22.  When the probe answers down and a tab is open at the portal
    origin, [openPortalTabAndSubmit] works in that tab: it returns a result
    (it does not throw), creates no tab, takes the tab out of the foreground
    with one [chrome.tabs.update], and afterwards only scans, reloads and
    scripts that very tab.  It assigns no module-level variable, and its
    result names no tab for the cleanup, so the reused tab is never
    closed. *)
Theorem open_portal_tab_is_reused cfg w tabs rest portalTab :
  probeResult (fetches (env w)) = false ->
  queries (env w) = Some tabs :: rest ->
  Fields.jsFind (tabAtOrigin (portalOriginOf cfg)) tabs = Some portalTab ->
  exists r l w',
    openPortalTabAndSubmit cfg w = (Ret r, w') /\
    usedTabId r = None /\
    js w' = js w /\
    trace w'
    = l ++ EvTabsUpdate (tab_id portalTab) None :: EvTabsQuery
        :: EvFetch :: EvSleep 300 :: EvFetch
        :: EvOrchestrator (portalOriginOf cfg) :: trace w /\
    Forall (working (tab_id portalTab)) l.
Proof.
  intros Hdown Hq Hfind. rewrite (openPortalTabAndSubmit_down cfg w Hdown).
  rewrite afterProbe_down by exact Hdown. cbn [js env trace].
  unfold acquirePortalTab. rewrite bind_assoc, bind_run, tabsQuery_run.
  cbn [env queries with_fetches with_now]. rewrite Hq, Hfind.
  rewrite bind_assoc, bind_run, deactivate_run.
  rewrite bind_run. unfold mret at 1, M_ret at 1. cbn beta iota.
  match goal with |- context [(detectFieldsInTab ?i ≫= ?f) ?w1] =>
    destruct (workInTab_run i None w1) as (r & l & w' & E & Hjs & Et & F & Hu & _) end.
  exists r, l, w'. split; [exact E|]. split; [destruct Hu; assumption|].
  split; [exact Hjs|]. split; [exact Et | exact F].
Qed.

(** *** How many tabs a call creates *)

Lemma Within_refl n w : Within n w w.
Proof. exists []. split; [reflexivity|]. split; [constructor | cbn; lia]. Qed.

Lemma Within_trans n m w1 w2 w3 :
  Within n w1 w2 -> Within m w2 w3 -> Within (n + m) w1 w3.
Proof.
  intros (l1 & E1 & F1 & C1) (l2 & E2 & F2 & C2). exists (l2 ++ l1).
  split; [rewrite E2, E1, app_assoc; reflexivity|].
  split; [apply Forall_app; split; assumption|].
  rewrite count_app. lia.
Qed.

Lemma Within_weaken n m w w' : (n <= m)%nat -> Within n w w' -> Within m w w'.
Proof. intros Hle (l & E & F & C). exists l. repeat split; try assumption. lia. Qed.

Lemma Foot_Within okJs okEv w w' :
  (forall e, okEv e -> acquiring e /\ isCreate e = false) ->
  Foot okJs okEv w w' -> Within 0 w w'.
Proof.
  intros H [_ (l & E & F)]. exists l. split; [exact E|]. split.
  - eapply Forall_impl; [exact F|]. intros e He. apply H, He.
  - rewrite (count_none okEv); [lia | intros e He; apply H, He | exact F].
Qed.

Lemma spends_ret {A} (a : A) : spends 0 (mret a : M A).
Proof. intros w. apply Within_refl. Qed.

Lemma spends_bind {A B} n k (m : M A) (f : A -> M B) :
  spends n m -> (forall a, spends k (f a)) -> spends (n + k) (m ≫= f).
Proof.
  intros Hm Hf w. rewrite bind_run. specialize (Hm w).
  destruct (m w) as [[a|e] w1]; cbn [snd] in *.
  - eapply Within_trans; [exact Hm | apply Hf].
  - eapply Within_weaken; [|exact Hm]. lia.
Qed.

Lemma spends_try_catch {A} n k (m : M A) (h : string -> M A) :
  spends n m -> (forall e, spends k (h e)) -> spends (n + k) (try_catch m h).
Proof.
  intros Hm Hh w. unfold try_catch. specialize (Hm w).
  destruct (m w) as [[a|e] w1]; cbn [snd] in *.
  - eapply Within_weaken; [|exact Hm]. lia.
  - eapply Within_trans; [exact Hm | apply Hh].
Qed.

Lemma spends_weaken {A} n k (m : M A) : (n <= k)%nat -> spends n m -> spends k m.
Proof. intros Hle Hm w. eapply Within_weaken; [exact Hle | apply Hm]. Qed.

Lemma spends_foot {A} okJs okEv (m : M A) :
  (forall e, okEv e -> acquiring e /\ isCreate e = false) ->
  keeps (Foot okJs okEv) m -> spends 0 m.
Proof. intros H Hm w. eapply Foot_Within; [exact H | apply Hm]. Qed.

Lemma spends_tabsCreate url : spends 1 (tabsCreate url).
Proof.
  intros w. unfold tabsCreate.
  destruct (creates (env w)) as [|[t|] rest]; cbn [snd];
    (eexists [_]; split; [reflexivity|]; split; [repeat constructor | cbn; lia]).
Qed.

Lemma looking_acquiring e : looking e -> acquiring e /\ isCreate e = false.
Proof using Type. clear url_origin. destruct e; simpl; tauto. Qed.

Ltac looking_side :=
  try foot_side; try (unfold orchestratorJs; simpl; tauto).

Ltac by_poller :=
  eapply keeps_weaken; [ | apply waitForTabLoaded_polls ];
  apply Foot_weaken; [intros g g' <-; reflexivity | intros []; simpl; tauto].

Ltac by_prober :=
  eapply keeps_weaken; [ | apply isInternetUp_probes ];
  apply Foot_weaken; [intros g g' <-; reflexivity | intros []; simpl; tauto].

Lemma checkProbe_looks : keeps (Foot orchestratorJs looking) checkProbe.
Proof using Type. clear url_origin. unfold checkProbe. keeps_walk fail; looking_side. Qed.

Lemma navigateProbe_looks origin : keeps (Foot orchestratorJs looking) (navigateProbe origin).
Proof using Type.
  clear url_origin.
  unfold navigateProbe, connectivityGuard.
  keeps_walk ltac:(first [by_prober | by_poller]); looking_side.
Qed.

Lemma createProbe_spends t0 : spends 1 (createProbe t0).
Proof using Type.
  clear url_origin.
  unfold createProbe.
  apply (spends_bind 0 1); [apply (spends_foot orchestratorJs looking);
    [apply looking_acquiring | keeps_walk fail] | intros probe].
  apply (spends_bind 0 1); [apply (spends_foot orchestratorJs looking);
    [apply looking_acquiring | keeps_walk fail] | intros last].
  destruct (negb (truthyId probe) && _); [|apply (spends_weaken 0); [lia | apply spends_ret]].
  apply (spends_try_catch 1 0).
  - apply (spends_bind 1 0); [apply spends_tabsCreate | intros created].
    apply (spends_foot orchestratorJs looking); [apply looking_acquiring|].
    keeps_walk by_poller; looking_side.
  - intros e. apply (spends_foot orchestratorJs looking); [apply looking_acquiring|].
    keeps_walk fail; looking_side.
Qed.

Lemma createPortalTab_spends origin : spends 1 (createPortalTab origin).
Proof using Type.
  clear url_origin.
  unfold createPortalTab. apply (spends_try_catch 1 0).
  - apply (spends_bind 1 0); [apply spends_tabsCreate | intros created].
    apply (spends_foot orchestratorJs looking); [apply looking_acquiring|].
    keeps_walk by_poller; looking_side.
  - intros e. apply spends_ret.
Qed.

Lemma acquirePortalTab_spends origin : spends 2 (acquirePortalTab origin).
Proof.
  unfold acquirePortalTab.
  apply (spends_bind 0 2).
  { apply (spends_foot orchestratorJs looking); [apply looking_acquiring|].
    keeps_walk fail; looking_side. }
  intros tabs. destruct (Fields.jsFind (tabAtOrigin origin) tabs) as [portalTab|].
  { apply (spends_weaken 0); [lia|].
    apply (spends_foot orchestratorJs looking); [apply looking_acquiring|].
    keeps_walk fail; looking_side. }
  apply (spends_bind 0 2); [apply (spends_foot orchestratorJs looking);
    [apply looking_acquiring | keeps_walk fail] | intros t0].
  apply (spends_bind 0 2); [apply (spends_foot orchestratorJs looking);
    [apply looking_acquiring | apply checkProbe_looks] | intros _].
  apply (spends_bind 1 1); [apply createProbe_spends | intros createdTabId].
  apply (spends_bind 0 1).
  { apply (spends_foot orchestratorJs looking); [apply looking_acquiring|].
    keeps_walk fail; looking_side. }
  intros portalTab.
  apply (spends_bind 0 1); [apply (spends_foot orchestratorJs looking);
    [apply looking_acquiring | keeps_walk fail] | intros probe].
  apply (spends_bind 0 1).
  { apply (spends_foot orchestratorJs looking); [apply looking_acquiring|].
    destruct (negb _ && _); [apply navigateProbe_looks | keeps_walk fail]. }
  intros [[p|]|r]; try (apply (spends_weaken 0); [lia | apply spends_ret]).
  apply createPortalTab_spends.
Qed.

Lemma acquiring_counts l :
  Forall acquiring l ->
  count isDetectScript l = 0%nat /\ count isInjectScript l = 0%nat /\
  count isReload l = 0%nat.
Proof using Type.
  clear url_origin.
  intros F. repeat split; apply (count_none acquiring); try exact F; intros []; simpl; tauto.
Qed.

(** X23.  One call of [openPortalTabAndSubmit], however it ends, creates at
    most two tabs (the probe tab and the last-resort portal tab), runs the
    detection script at most four times and the injection script at most
    once, reloads a tab at most once, and never closes a tab, shows a
    notification or touches the storage. *)
Theorem openPortalTabAndSubmit_effort_is_bounded cfg w :
  exists l,
    trace (openPortalTabAndSubmit cfg w).2 = l ++ trace w /\
    (count isCreate l <= 2)%nat /\
    (count isDetectScript l <= 4)%nat /\
    (count isInjectScript l <= 1)%nat /\
    (count isReload l <= 1)%nat /\
    Forall orchestratorEv l.
Proof.
  destruct (openPortalTabAndSubmit_foot cfg w) as [_ (l & E & F)].
  exists l. split; [exact E|]. cut ((count isCreate l <= 2)%nat /\
    (count isDetectScript l <= 4)%nat /\ (count isInjectScript l <= 1)%nat /\
    (count isReload l <= 1)%nat); [tauto|]. clear F.
  destruct (probeResult (fetches (env w))) eqn:Hp.
  { revert E. unfold openPortalTabAndSubmit. rewrite bind_run. unfold emit at 1. cbn [fst snd].
    rewrite bind_run. unfold connectivityGuard, try_catch. rewrite isInternetUp_run.
    cbn [env fetches]. rewrite Hp. unfold mret, M_ret. cbn [snd].
    unfold afterProbe, probed. cbn [env fetches js trace].
    destruct (is204 _); cbn [trace]; intros E.
    - change (?a :: ?b :: trace w) with ([a; b] ++ trace w) in E.
      apply app_inv_tail in E. subst l. cbn. lia.
    - change (?a :: ?b :: ?c :: ?d :: trace w) with ([a; b; c; d] ++ trace w) in E.
      apply app_inv_tail in E. subst l. cbn. lia. }
  revert E. rewrite (openPortalTabAndSubmit_down cfg w Hp).
  rewrite afterProbe_down by exact Hp. cbn [js env trace].
  rewrite bind_run.
  match goal with |- context [acquirePortalTab ?o ?w1] =>
    destruct (acquirePortalTab_spends o w1) as (l1 & E1 & F1 & C1);
    destruct (acquirePortalTab o w1) as [[[[[portalTab|] createdTabId]|r]|e] w2] end;
    cbn [snd trace] in E1; destruct (acquiring_counts l1 F1) as (D1 & I1 & R1).
  - match goal with |- context [(detectFieldsInTab ?i ≫= ?f) ?w3] =>
      destruct (workInTab_run i createdTabId w3)
        as (r & l2 & w' & E2 & _ & Et2 & _ & _ & D2 & R2 & I2 & C2) end.
    rewrite E2. cbn [snd]. rewrite Et2, E1. intros E.
    change (l2 ++ l1 ++ ?a :: ?b :: ?c :: ?d :: trace w)
      with (l2 ++ l1 ++ [a; b; c; d] ++ trace w) in E.
    rewrite !app_assoc in E. apply app_inv_tail in E. subst l.
    rewrite !count_app, D1, I1, R1, C2. cbn. lia.
  - unfold mret, M_ret. cbn [snd]. rewrite E1. intros E.
    change (l1 ++ ?a :: ?b :: ?c :: ?d :: trace w)
      with (l1 ++ [a; b; c; d] ++ trace w) in E.
    rewrite !app_assoc in E. apply app_inv_tail in E. subst l.
    rewrite !count_app, D1, I1, R1. cbn. lia.
  - unfold mret, M_ret. cbn [snd]. rewrite E1. intros E.
    change (l1 ++ ?a :: ?b :: ?c :: ?d :: trace w)
      with (l1 ++ [a; b; c; d] ++ trace w) in E.
    rewrite !app_assoc in E. apply app_inv_tail in E. subst l.
    rewrite !count_app, D1, I1, R1. cbn. lia.
  - cbn [snd]. rewrite E1. intros E.
    change (l1 ++ ?a :: ?b :: ?c :: ?d :: trace w)
      with (l1 ++ [a; b; c; d] ++ trace w) in E.
    rewrite !app_assoc in E. apply app_inv_tail in E. subst l.
    rewrite !count_app, D1, I1, R1. cbn. lia.
Qed.

(** *** The cooldown of the probe tab *)

#[global] Instance keepsLastProbeTime_reflexive : Reflexive keepsLastProbeTime.
Proof. intros g. reflexivity. Qed.

#[global] Instance keepsLastProbeTime_transitive : Transitive keepsLastProbeTime.
Proof. intros g1 g2 g3 H1 H2. unfold keepsLastProbeTime in *. congruence. Qed.














(** *** The internet comes back during the wait *)


(** X25.  A call that is not forced finds the internet down, waits out the
    backoff and then finds the internet up again.  It returns [true] without
    looking at any tab; all it did was probe, sleep for the backoff, and
    probe again; and every module-level variable, the backoff and the
    failure counters included, is what it was before the call. *)
Theorem recovered_during_wait w cfg :
  cachedConfig (js w) = Some cfg ->
  truthy (loginUrl cfg) = true ->
  originKeyOf cfg ∉ inFlightOrigins (js w) ->
  probeResult (fetches (env w)) = false ->
  probeResult (drop 2 (fetches (env w))) = true ->
  (checkAndLogin false w).1 = Ret true /\
  js (checkAndLogin false w).2 = js w /\
  exists l,
    trace (checkAndLogin false w).2
    = l ++ (if backoffSeconds (js w) >? 0 then [EvSleep (backoffSeconds (js w) * 1000)] else [])
        ++ EvFetch :: EvSleep 300 :: EvFetch :: trace w /\
    Forall probing l.
Proof.
  intros Hc Ht Hout Hdown Hup.
  assert (E : exists w',
    checkAndLogin false w = (Ret true, w') /\ js w' = js w /\
    exists l,
      trace w'
      = l ++ (if backoffSeconds (js w) >? 0
              then [EvSleep (backoffSeconds (js w) * 1000)] else [])
          ++ EvFetch :: EvSleep 300 :: EvFetch :: trace w /\
      Forall probing l).
  2:{ destruct E as (w' & -> & Hjs & Hl). cbn [fst snd]. split; [reflexivity|].
      split; [exact Hjs | exact Hl]. }
  rewrite checkAndLogin_nonforced_run, Hdown. rewrite afterProbe_down by exact Hdown.
  unfold try_catch. rewrite bind_run. unfold getJs at 1. cbn [fst snd js]. rewrite Hc.
  unfold exclusively. rewrite Ht. cbn [negb].
  rewrite bind_run. unfold getJs at 1. cbn [fst snd js].
  rewrite bool_decide_eq_false_2 by exact Hout. cbn [andb].
  rewrite bind_run. unfold modifyJs at 1. cbn [fst snd js env trace].
  unfold try_finally, attempt. rewrite bind_run, backoffWait_run.
  cbn [js backoffSeconds set_inFlightOrigins].
  unfold remediate. rewrite bind_run, isInternetUp_run.
  assert (Hjs : forall g : Globals,
            originKeyOf cfg ∉ inFlightOrigins g ->
            set_inFlightOrigins
              (inFlightOrigins
                 (set_inFlightOrigins
                    (inFlightOrigins
                       (set_inFlightOrigins ({[originKeyOf cfg]} ∪ inFlightOrigins g) g)
                     ∖ {[originKeyOf cfg]})
                    (set_inFlightOrigins ({[originKeyOf cfg]} ∪ inFlightOrigins g) g))
               ∖ {[originKeyOf cfg]})
              (set_inFlightOrigins
                 (inFlightOrigins
                    (set_inFlightOrigins ({[originKeyOf cfg]} ∪ inFlightOrigins g) g)
                  ∖ {[originKeyOf cfg]})
                 (set_inFlightOrigins ({[originKeyOf cfg]} ∪ inFlightOrigins g) g))
            = g).
  { intros [c t bo p lp fa ls ct fl] Hg. unfold set_inFlightOrigins.
    cbn [inFlightOrigins cachedConfig clearTimerId backoffSeconds probeTabId lastProbeTime
         failedAttemptsByOrigin lastSuccessNotifiedAt createdTabIds] in *.
    f_equal. set_solver. }
  destruct (backoffSeconds (js w) >? 0); cbn [env fetches slept with_now with_fetches];
    rewrite Hup; rewrite bind_run; unfold clearInFlight, modifyJs; cbn [fst snd];
    unfold mret, M_ret; cbn [fst snd];
    eexists; (split; [reflexivity|]); cbn [js trace]; rewrite afterProbe_js; cbn [js];
    (split; [apply Hjs, Hout|]).
  - unfold afterProbe, probed. cbn [env fetches js trace with_fetches with_now].
    destruct (is204 _); cbn [trace].
    + eexists [_]. split; [reflexivity | repeat constructor].
    + eexists [_; _; _]. split; [reflexivity | repeat constructor].
  - unfold afterProbe, probed. cbn [env fetches js trace with_fetches with_now].
    destruct (is204 _); cbn [trace].
    + eexists [_]. split; [reflexivity | repeat constructor].
    + eexists [_; _; _]. split; [reflexivity | repeat constructor].
Qed.

(** *** The clock *)

#[global] Instance Clock_reflexive : Reflexive Clock.
Proof. intros w. unfold Clock. lia. Qed.

#[global] Instance Clock_transitive : Transitive Clock.
Proof. intros w1 w2 w3. unfold Clock. lia. Qed.

Lemma clock_emit e : keeps Clock (emit e).
Proof. intros w. unfold Clock. cbn. lia. Qed.

Lemma clock_sleep ms : 0 <= ms -> keeps Clock (sleep ms).
Proof. intros H w. unfold Clock. cbn. lia. Qed.

Lemma clock_fetch abortAfter : keeps Clock (fetch abortAfter).
Proof. intros w. unfold Clock, fetch. destruct (fetches (env w)) as [|[]]; cbn; lia. Qed.

Lemma clock_tabsQuery : keeps Clock tabsQuery.
Proof. intros w. unfold Clock, tabsQuery. destruct (queries (env w)) as [|[]]; cbn; lia. Qed.

Lemma clock_tabsGet id : keeps Clock (tabsGet id).
Proof. intros w. unfold Clock, tabsGet. destruct (gets (env w)) as [|[]]; cbn; lia. Qed.

Lemma clock_tabsCreate url : keeps Clock (tabsCreate url).
Proof. intros w. unfold Clock, tabsCreate. destruct (creates (env w)) as [|[]]; cbn; lia. Qed.

Lemma clock_acknowledged e what : keeps Clock (acknowledged e what).
Proof. intros w. unfold Clock, acknowledged. destruct (acks (env w)) as [|[]]; cbn; lia. Qed.

Lemma clock_tabsRemove id : keeps Clock (tabsRemove id).
Proof. intros w. unfold tabsRemove. apply clock_acknowledged. Qed.

Lemma clock_executeDetectScript id : keeps Clock (executeDetectScript id).
Proof.
  intros w. unfold Clock, executeDetectScript. destruct (detects (env w)) as [|[]]; cbn; lia.
Qed.

Lemma clock_executeKeepaliveScript id : keeps Clock (executeKeepaliveScript id).
Proof.
  intros w. unfold Clock, executeKeepaliveScript.
  destruct (keepalives (env w)) as [|[]]; cbn; lia.
Qed.

Lemma clock_executeInjectScript id : keeps Clock (executeInjectScript id).
Proof.
  intros w. unfold Clock, executeInjectScript. destruct (injects (env w)) as [|[]]; cbn; lia.
Qed.

Lemma clock_modifyJs f : keeps Clock (modifyJs f).
Proof. intros w. unfold Clock. cbn. lia. Qed.

Ltac clock_step sub :=
  lazymatch goal with
  | |- keeps Clock (emit _) => apply clock_emit
  | |- keeps Clock (notify _) => apply clock_emit
  | |- keeps Clock (modifyJs _) => apply clock_modifyJs
  | |- keeps Clock (sleep _) => apply clock_sleep; unfold FIELD_CHECK_INTERVAL_MS; lia
  | |- keeps Clock (fetch _) => apply clock_fetch
  | |- keeps Clock (fetchWithTimeout _) => apply clock_fetch
  | |- keeps Clock tabsQuery => apply clock_tabsQuery
  | |- keeps Clock (tabsGet _) => apply clock_tabsGet
  | |- keeps Clock (tabsCreate _) => apply clock_tabsCreate
  | |- keeps Clock (tabsUpdate _ _) => apply clock_acknowledged
  | |- keeps Clock (tabsReload _) => apply clock_acknowledged
  | |- keeps Clock (tabsRemove _) => apply clock_tabsRemove
  | |- keeps Clock (executeDetectScript _) => apply clock_executeDetectScript
  | |- keeps Clock (executeKeepaliveScript _) => apply clock_executeKeepaliveScript
  | |- keeps Clock (executeInjectScript _) => apply clock_executeInjectScript
  | |- _ => keeps_step sub
  end.

Ltac clock_walk sub := repeat (clock_step sub).

Lemma isInternetUp_clock timeoutMs : keeps Clock (isInternetUp timeoutMs).
Proof. unfold isInternetUp. clock_walk fail. Qed.

Lemma waitLoop_clock fuel tabId start timeoutMs :
  keeps Clock (waitLoop fuel tabId start timeoutMs).
Proof.
  induction fuel as [|fuel IH]; simpl.
  - clock_walk fail.
  - clock_walk ltac:(exact IH).
Qed.

Lemma waitForTabLoaded_clock tabId timeoutMs : keeps Clock (waitForTabLoaded tabId timeoutMs).
Proof. unfold waitForTabLoaded. clock_walk ltac:(apply waitLoop_clock). Qed.

Lemma detectFieldsInTab_clock tabId : keeps Clock (detectFieldsInTab tabId).
Proof. unfold detectFieldsInTab. clock_walk fail. Qed.

Lemma detectRetries_clock turns checkAttempt tabId detectResult :
  keeps Clock (detectRetries turns checkAttempt tabId detectResult).
Proof.
  revert checkAttempt detectResult.
  induction turns as [|turns IH]; intros checkAttempt detectResult; simpl.
  - clock_walk fail.
  - clock_walk ltac:(first [ apply IH | apply waitForTabLoaded_clock
                           | apply detectFieldsInTab_clock ]).
Qed.

Lemma openPortalTabAndSubmit_clock cfg : keeps Clock (openPortalTabAndSubmit cfg).
Proof.
  unfold openPortalTabAndSubmit, connectivityGuard, acquirePortalTab, checkProbe, createProbe,
    navigateProbe, createPortalTab, injectAcrossFrames, connectivityGuard.
  clock_walk ltac:(first [ apply isInternetUp_clock | apply waitForTabLoaded_clock
                         | apply detectFieldsInTab_clock | apply detectRetries_clock ]).
Qed.

Lemma backoffWait_clock : keeps Clock backoffWait.
Proof.
  intros w. rewrite backoffWait_run. cbn [snd].
  destruct (Z.gtb_spec (backoffSeconds (js w)) 0); unfold Clock; cbn; lia.
Qed.

Lemma isKeepaliveTab_clock tab : keeps Clock (isKeepaliveTab tab).
Proof. unfold isKeepaliveTab. clock_walk fail. Qed.

Lemma closeCreatedTab_clock submitRes : keeps Clock (closeCreatedTab submitRes).
Proof. unfold closeCreatedTab. clock_walk fail. Qed.

(** *** The throttle of the success notification *)

#[global] Instance Throttled_reflexive key : Reflexive (Throttled key).
Proof.
  intros w. split; [reflexivity|]. split; [lia|]. split; [lia|].
  exists []. split; [reflexivity|]. cbn. repeat split; intros; lia.
Qed.

#[global] Instance Throttled_transitive key : Transitive (Throttled key).
Proof.
  intros w1 w2 w3 (C1 & T1 & L1 & l1 & E1 & Z1 & O1 & D1) (C2 & T2 & L2 & l2 & E2 & Z2 & O2 & D2).
  split; [congruence|]. split; [lia|]. split; [lia|].
  exists (l2 ++ l1). split; [rewrite E2, E1, app_assoc; reflexivity|].
  rewrite count_app. unfold NOTIFY_SUCCESS_COOLDOWN_MS in *.
  destruct (count isSuccessNotice l1) as [|[|n1]]; destruct (count isSuccessNotice l2) as [|[|n2]];
    cbn [Nat.add]; repeat split; intros; try lia;
    try (specialize (Z1 eq_refl)); try (specialize (Z2 eq_refl));
    try (specialize (O1 ltac:(lia))); try (specialize (O2 ltac:(lia)));
    try (specialize (D1 ltac:(lia))); try (specialize (D2 ltac:(lia))); lia.
Qed.

#[global] Instance quietJs_reflexive key : Reflexive (quietJs key).
Proof. intros g. split; reflexivity. Qed.

#[global] Instance quietJs_transitive key : Transitive (quietJs key).
Proof. intros g1 g2 g3 [C1 L1] [C2 L2]. split; congruence. Qed.

Lemma quiet_Throttled key w w' :
  Foot (quietJs key) quietEv w w' -> Clock w w' -> Throttled key w w'.
Proof using Type.
  clear url_origin.
  intros [[Hc Hl] (l & E & F)] Hclock.
  assert (Hn : count isSuccessNotice l = 0%nat).
  { apply (count_none quietEv); [|exact F]. intros [| |[]| | | | | | | | | | | |]; simpl; tauto. }
  assert (Hlast : lastNotified key w' = lastNotified key w).
  { unfold lastNotified. rewrite Hl. reflexivity. }
  split; [exact Hc|]. split; [exact Hclock|]. split; [lia|].
  exists l. split; [exact E|]. rewrite Hn. repeat split; intros; lia.
Qed.

Lemma quiet_keeps {A} key (m : M A) :
  keeps (Foot (quietJs key) quietEv) m -> keeps Clock m -> keeps (Throttled key) m.
Proof using Type. clear url_origin. intros H1 H2 w. apply quiet_Throttled; [apply H1 | apply H2]. Qed.

Lemma notifySuccess_throttled key : keeps (Throttled key) (notifySuccess key).
Proof.
  intros w. rewrite notifySuccess_run. cbn [snd]. unfold afterNotifySuccess.
  fold (lastNotified key w).
  destruct (Z.gtb_spec (now (env w) - lastNotified key w) NOTIFY_SUCCESS_COOLDOWN_MS)
    as [Hgt|Hle]; [|reflexivity].
  assert (Hlast : lastNotified key
                    {| js := set_lastSuccessNotifiedAt
                               (<[key := now (env w)]> (lastSuccessNotifiedAt (js w))) (js w);
                       env := env w; trace := EvNotify NoticeSucceeded :: trace w |}
                  = now (env w)).
  { unfold lastNotified. cbn [js lastSuccessNotifiedAt set_lastSuccessNotifiedAt].
    rewrite lookup_insert_eq. reflexivity. }
  unfold NOTIFY_SUCCESS_COOLDOWN_MS in *.
  split; [reflexivity|]. split; [cbn; lia|]. rewrite Hlast.
  change (default 0 (lastSuccessNotifiedAt (js w) !! key)) with (lastNotified key w) in Hgt.
  split; [lia|].
  exists [EvNotify NoticeSucceeded]. split; [reflexivity|].
  unfold count, NOTIFY_SUCCESS_COOLDOWN_MS.
  cbn [List.filter isSuccessNotice length env now]. repeat split; intros; lia.
Qed.

Ltac quiet_side :=
  lazymatch goal with
  | |- absorbs (Foot _ _) _ => apply Foot_absorbs; [typeclasses eauto | exact I]
  | |- forall _, absorbs (Foot _ _) _ => intros ?; apply Foot_absorbs; [typeclasses eauto | exact I]
  | |- admits (Foot _ _) _ => apply Foot_admits; intros ?; split; reflexivity
  end.

Ltac quiet_orchestrator :=
  eapply keeps_weaken; [ | apply openPortalTabAndSubmit_foot ];
  apply Foot_weaken;
  [ intros g g' (C & _ & _ & _ & L & _); split; [exact C | rewrite L; reflexivity]
  | intros [| |[]| | | | | | | | | | | |]; simpl; tauto ].

Ltac quiet_observer :=
  eapply keeps_weaken; [ | observer_lemma ];
  apply Observes_Foot; [typeclasses eauto | intros []; simpl; tauto].

Ltac quiet_leaf :=
  apply quiet_keeps;
  [ first [ quiet_orchestrator | quiet_observer
          | keeps_walk fail; quiet_side ]
  | first [ apply openPortalTabAndSubmit_clock | apply isInternetUp_clock
          | apply isKeepaliveTab_clock | apply backoffWait_clock
          | clock_walk fail ] ].

Ltac throttle_step :=
  lazymatch goal with
  | |- keeps _ (mret _) => apply keeps_ret; typeclasses eauto
  | |- keeps _ (mbind _ _) => apply keeps_bind; [typeclasses eauto | | intros ?]
  | |- keeps _ (try_catch _ _) => apply keeps_try_catch; [typeclasses eauto | | intros ?]
  | |- keeps _ (try_finally _ _) => apply keeps_try_finally; [typeclasses eauto | | ]
  | |- keeps _ (notifySuccess _) => apply notifySuccess_throttled
  | |- keeps _ (if ?b then _ else _) => destruct b
  | |- keeps _ (match ?x with _ => _ end) => destruct x
  | |- keeps _ _ => quiet_leaf
  end.

Ltac throttle_walk := repeat throttle_step.

Lemma exclusively_throttled force cfg :
  keeps (Throttled (originKeyOf cfg)) (exclusively force cfg).
Proof.
  unfold exclusively, attempt, remediate, afterSubmit, keepaliveShortCircuit, clearInFlight,
    closeCreatedTab.
  throttle_walk.
Qed.

Lemma probe_throttled key w : Throttled key w (afterProbe w).
Proof.
  pose proof (quiet_keeps key (isInternetUp 2000)) as H.
  specialize (H ltac:(quiet_observer) (isInternetUp_clock 2000) w).
  rewrite isInternetUp_run in H. exact H.
Qed.

Lemma checkAndLogin_throttled force key w :
  configuredFor key w -> Throttled key w (checkAndLogin force w).2.
Proof.
  assert (Hrest : forall w1, configuredFor key w1 ->
    Throttled key w1
      ((cached ← getJs cachedConfig;
        match cached with
        | None => notify NoticeLocked;; mret false
        | Some cfg => exclusively force cfg
        end) w1).2).
  { intros w1 Hk. rewrite bind_run. unfold getJs at 1. cbn [fst snd].
    destruct (cachedConfig (js w1)) as [cfg|] eqn:Hc.
    - rewrite <- (Hk cfg Hc). apply exclusively_throttled.
    - revert w1 Hk Hc. intros w1 _ _. revert w1.
      match goal with |- forall w1, Throttled ?k w1 (?m w1).2 =>
        change (keeps (Throttled k) m) end.
      throttle_walk. }
  intros Hk. unfold checkAndLogin. rewrite try_catch_world by reflexivity.
  unfold checkAndLoginTry. rewrite bind_run. destruct force.
  - unfold mret at 1, M_ret at 1. cbn beta iota. apply Hrest, Hk.
  - rewrite isInternetUp_run. destruct (probeResult (fetches (env w))).
    + apply probe_throttled.
    + etransitivity; [apply probe_throttled|]. apply Hrest.
      intros cfg Hc. rewrite afterProbe_js in Hc. apply Hk, Hc.
Qed.

Lemma perform_throttled op key w :
  assignsConfig op = false -> configuredFor key w -> Throttled key w (perform op w).
Proof.
  intros Hop Hk. destruct op as [[cfg| | |origin|]|name]; cbn [assignsConfig perform] in *;
    try discriminate Hop.
  - unfold onMessage. rewrite try_catch_world by reflexivity. rewrite bind_run.
    pose proof (checkAndLogin_throttled true key w Hk) as H.
    destruct (checkAndLogin true w) as [[b|e] w1]; exact H.
  - unfold onMessage. rewrite !try_catch_world by reflexivity.
    rewrite bind_run. unfold getJs. cbn [fst snd].
    destruct (cachedConfig (js w)) as [cfg|]; [|reflexivity].
    destruct (String.eqb _ origin); [|reflexivity].
    rewrite bind_run. pose proof (checkAndLogin_throttled true key w Hk) as H.
    destruct (checkAndLogin true w) as [[b|e] w1]; exact H.
  - reflexivity.
  - unfold onAlarm. destruct (String.eqb name "checkConn"); [|reflexivity].
    rewrite bind_run. pose proof (checkAndLogin_throttled false key w Hk) as H.
    destruct (checkAndLogin false w) as [[b|e] w1]; exact H.
Qed.

Lemma performAfter_throttled step key w :
  0 <= step.1 -> assignsConfig step.2 = false -> configuredFor key w ->
  Throttled key w (performAfter step w).
Proof.
  intros Hidle Hop Hk. unfold performAfter.
  set (w1 := {| js := js w; env := with_now (now (env w) + step.1) (env w);
                trace := trace w |}).
  assert (H1 : Throttled key w w1).
  { apply quiet_Throttled; [|unfold Clock; cbn; lia].
    split; [split; reflexivity|]. exists []. split; [reflexivity | constructor]. }
  etransitivity; [exact H1|]. apply perform_throttled; [exact Hop|].
  intros cfg Hc. apply Hk, Hc.
Qed.

Lemma performTimed_throttled steps key w :
  Forall (fun step => 0 <= step.1 /\ assignsConfig step.2 = false) steps ->
  configuredFor key w ->
  Throttled key w (performTimed steps w).
Proof.
  unfold performTimed. intros F. revert w.
  induction F as [|step steps [Hidle Hop] F IH]; intros w Hk; [reflexivity|].
  cbn [fold_left].
  pose proof (performAfter_throttled step key w Hidle Hop Hk) as H1.
  etransitivity; [exact H1|]. apply IH.
  intros cfg Hc. destruct H1 as (C & _). rewrite C in Hc. apply Hk, Hc.
Qed.

(** X28.  The success notification is throttled for good.  Take any
    sequence of alarms, [doLoginNow] and [page_is_portal] messages, with any
    idle time before each, handled while the cached configuration stays the
    same.  If two success notifications or more were shown in the course of
    it, more than three minutes have passed on the worker's clock between
    its start and its end; and a notification is always more than three
    minutes later than the one recorded before for the origin. *)
Theorem success_notifications_are_throttled key steps w :
  configuredFor key w ->
  Forall (fun step => 0 <= step.1 /\ assignsConfig step.2 = false) steps ->
  exists l,
    trace (performTimed steps w) = l ++ trace w /\
    ((2 <= count isSuccessNotice l)%nat ->
     NOTIFY_SUCCESS_COOLDOWN_MS < now (env (performTimed steps w)) - now (env w)) /\
    ((1 <= count isSuccessNotice l)%nat ->
     lastNotified key w + NOTIFY_SUCCESS_COOLDOWN_MS < lastNotified key (performTimed steps w)) /\
    (count isSuccessNotice l = 0%nat ->
     lastNotified key (performTimed steps w) = lastNotified key w).
Proof.
  intros Hk F.
  destruct (performTimed_throttled steps key w F Hk) as (_ & _ & _ & l & E & Z0 & O1 & D2).
  exists l. split; [exact E|]. split; [exact D2|]. split; [|exact Z0].
  intros H1. apply O1, H1.
Qed.

(** *** The popup *)

Ltac unlocked_side :=
  lazymatch goal with
  | |- absorbs (Foot _ _) _ => apply Foot_absorbs; [typeclasses eauto | exact I]
  | |- forall _, absorbs (Foot _ _) _ => intros ?; apply Foot_absorbs; [typeclasses eauto | exact I]
  | |- admits (Foot _ _) _ => apply Foot_admits; intros ?; exact I
  end.

Ltac unlocked_orchestrator :=
  eapply keeps_weaken; [ | apply openPortalTabAndSubmit_foot ];
  apply Foot_weaken; [ intros g g' _; exact I | intros [| |[]| | | | | | | | | | | |]; simpl; tauto ].

Lemma exclusively_not_locked force cfg : keeps (Foot anyJs notLocked) (exclusively force cfg).
Proof.
  unfold exclusively, attempt, remediate, afterSubmit, keepaliveShortCircuit, clearInFlight,
    closeCreatedTab, notifySuccess, backoffWait.
  keeps_walk ltac:(first [unlocked_orchestrator | by_observer]); unlocked_side.
Qed.

Lemma orDefault_not_empty x d : d <> "" -> Popup.orDefault x d <> "".
Proof.
  intros Hd. unfold Popup.orDefault. destruct (String.eqb_spec x ""); assumption.
Qed.

(** X29.  A configuration saved through the popup always enables the
    worker.  Whatever the form holds, the configuration that [saveConfig]
    sends has a login URL, a username selector and a password selector that
    are not empty (the defaults fill in), and no extra fields; the worker
    caches exactly that configuration; with "Remember me" it is also what the
    worker caches when it starts again, and without it the storage is left as
    it was.  A [testLogin] that follows is never answered by the "locked"
    notification: the worker goes on to the keepalive check or into
    [openPortalTabAndSubmit]. *)
Theorem saved_configuration_enables_login trim form stored w :
  truthy (loginUrl (Popup.formConfig trim form)) = true /\
  userField (Popup.formConfig trim form) <> "" /\
  passField (Popup.formConfig trim form) <> "" /\
  extraFields (Popup.formConfig trim form) = "" /\
  cachedConfig (js (saveConfig trim form w)) = Some (Popup.formConfig trim form) /\
  (if f_remember form
   then cachedConfig (startup (Popup.storedAfterSave trim form stored))
        = cachedConfig (js (saveConfig trim form w))
   else Popup.storedAfterSave trim form stored = stored) /\
  exists l,
    trace (testLogin (saveConfig trim form w)).2 = l ++ trace w /\
    Forall notLocked l /\
    exists origin, EvKeepalive origin ∈ l \/ EvOrchestrator origin ∈ l.
Proof.
  assert (Hurl : truthy (loginUrl (Popup.formConfig trim form)) = true).
  { cbn [Popup.formConfig loginUrl truthy]. apply negb_true_iff, String.eqb_neq.
    apply orDefault_not_empty. discriminate. }
  assert (Hsave : saveConfig trim form w
                  = {| js := set_clearTimerId None
                               (set_cachedConfig (Some (Popup.formConfig trim form)) (js w));
                       env := env w; trace := trace w |}).
  { unfold saveConfig. destruct w as [g b tr].
    unfold onMessage, cacheConfig, try_catch, mbind, M_bind, modifyJs, getJs, mret, M_ret.
    destruct g as [c [t|] bo p lp fa ls ct fl]; reflexivity. }
  split; [exact Hurl|].
  split; [apply orDefault_not_empty; discriminate|].
  split; [apply orDefault_not_empty; discriminate|].
  split; [reflexivity|]. rewrite Hsave.
  split; [reflexivity|]. split.
  { unfold Popup.storedAfterSave. destruct (f_remember form); reflexivity. }
  set (w1 := {| js := _; env := env w; trace := trace w |}).
  assert (Hc : cachedConfig (js w1) = Some (Popup.formConfig trim form)) by reflexivity.
  assert (Ht : trace w1 = trace w) by reflexivity.
  clearbody w1.
  assert (Hw : (testLogin w1).2 = (checkAndLogin true w1).2).
  { unfold testLogin, onMessage. unfold try_catch at 1. rewrite bind_run.
    destruct (checkAndLogin true w1) as [[b|e] w2]; reflexivity. }
  rewrite Hw.
  destruct (checkAndLogin_forced_reaches w1 _ Hc Hurl) as (l & E & Hreach).
  exists l. split; [rewrite E, Ht; reflexivity|]. split.
  - assert (F : Foot anyJs notLocked w1 (checkAndLogin true w1).2).
    { unfold checkAndLogin. rewrite try_catch_world by reflexivity.
      unfold checkAndLoginTry. rewrite bind_run.
      unfold mret at 1, M_ret at 1. cbn beta iota.
      rewrite bind_run. unfold getJs at 1. cbn [fst snd]. rewrite Hc.
      apply exclusively_not_locked. }
    destruct F as [_ (l' & E' & F)]. rewrite E in E'. apply app_inv_tail in E'. subst l'.
    exact F.
  - destruct Hreach as [H|(origin & H & _)]; eexists; [left | right]; exact H.
Qed.

(** *** The registry keeps track of every tab the worker creates *)

#[global] Instance KeepsTracked_reflexive : Reflexive KeepsTracked.
Proof. intros w H. exact H. Qed.

#[global] Instance KeepsTracked_transitive : Transitive KeepsTracked.
Proof. intros w1 w2 w3 H1 H2 H. apply H2, H1, H. Qed.

Lemma TrackedInv_extend w g' b e :
  (forall url id, e <> EvTabsCreate url (Some id)) ->
  createdTabIds (js w) ⊆ createdTabIds g' ->
  TrackedInv w -> TrackedInv {| js := g'; env := b; trace := e :: trace w |}.
Proof.
  intros He Hsub H url id Hin. cbn [trace js] in *.
  apply elem_of_cons in Hin as [Hin|Hin]; [exfalso; exact (He url id (eq_sym Hin))|].
  destruct (H url id Hin) as [Hreg|[r Hr]]; [left; apply Hsub, Hreg|].
  right. exists r. right. exact Hr.
Qed.

Lemma KeepsTracked_absorbs e :
  (forall url id, e <> EvTabsCreate url (Some id)) -> absorbs KeepsTracked e.
Proof. intros He w b H. apply TrackedInv_extend; [exact He | reflexivity | exact H]. Qed.

Lemma KeepsTracked_admits f :
  (forall g, createdTabIds g ⊆ createdTabIds (f g)) -> admits KeepsTracked f.
Proof.
  intros Hf w H url id Hin. cbn [trace js] in *.
  destruct (H url id Hin) as [Hreg|Hr]; [left; apply Hf, Hreg | right; exact Hr].
Qed.

Ltac tracked_side :=
  lazymatch goal with
  | |- absorbs KeepsTracked _ =>
      apply KeepsTracked_absorbs; intros ? ? Hd; discriminate Hd
  | |- forall _, absorbs KeepsTracked _ =>
      intros ?; apply KeepsTracked_absorbs; intros ? ? Hd; discriminate Hd
  | |- admits KeepsTracked _ =>
      apply KeepsTracked_admits; intros ?; cbn; set_solver
  end.

Lemma Observes_KeepsTracked w w' : Observes w w' -> KeepsTracked w w'.
Proof.
  intros [Hjs (l & E & F)] H url id Hin. rewrite E in Hin. rewrite <- Hjs.
  apply elem_of_app in Hin as [Hin|Hin].
  - rewrite Forall_forall in F. apply F in Hin. destruct Hin.
  - destruct (H url id Hin) as [Hreg|[r Hr]]; [left; exact Hreg|].
    right. exists r. rewrite E. apply elem_of_app. right. exact Hr.
Qed.

Ltac tracked_observer :=
  eapply keeps_weaken; [apply Observes_KeepsTracked | observer_lemma].

(** a tab is registered right after [chrome.tabs.create] has returned it *)
Lemma tabsCreate_registers {B} url (between : Tab -> Globals -> Globals) (rest : Tab -> M B) :
  (forall t g, createdTabIds (between t g) = createdTabIds g) ->
  (forall t, keeps KeepsTracked (rest t)) ->
  keeps KeepsTracked
    (created ← tabsCreate url;
     modifyJs (between created);;
     modifyJs (fun g => set_createdTabIds ({[tab_id created]} ∪ createdTabIds g) g);;
     rest created).
Proof using Type.
  clear url_origin.
  intros Hb Hrest w H. rewrite bind_run. unfold tabsCreate.
  destruct (creates (env w)) as [|[t|] tl]; cbn [fst snd].
  - apply (KeepsTracked_absorbs (EvTabsCreate url None)); [intros ? ? Hd; discriminate Hd|].
    exact H.
  - rewrite bind_run. unfold modifyJs at 1. cbn [fst snd].
    rewrite bind_run. unfold modifyJs at 1. cbn [fst snd].
    apply Hrest. intros u id Hin. cbn [trace js called createdTabIds set_createdTabIds] in *.
    rewrite Hb.
    apply elem_of_cons in Hin as [Hin|Hin].
    + injection Hin as _ ->. left. set_solver.
    + destruct (H u id Hin) as [Hreg|[r Hr]]; [left; set_solver|].
      right. exists r. right. exact Hr.
  - apply (KeepsTracked_absorbs (EvTabsCreate url None)); [intros ? ? Hd; discriminate Hd|].
    exact H.
Qed.

Lemma createProbe_tracked t0 : keeps KeepsTracked (createProbe t0).
Proof using Type.
  clear url_origin.
  unfold createProbe.
  apply keeps_bind; [typeclasses eauto | apply keeps_getJs; typeclasses eauto | intros probe].
  apply keeps_bind; [typeclasses eauto | apply keeps_getJs; typeclasses eauto | intros last].
  destruct (negb (truthyId probe) && _); [|apply keeps_ret; typeclasses eauto].
  apply keeps_try_catch; [typeclasses eauto | | intros e; keeps_walk fail; tracked_side].
  apply (tabsCreate_registers PROBE_URL (fun created => set_probeTabId (Some (tab_id created)))).
  - reflexivity.
  - intros t. keeps_walk tracked_observer; tracked_side.
Qed.

Lemma tabsCreate_registers_at_once {B} url (rest : Tab -> M B) :
  (forall t, keeps KeepsTracked (rest t)) ->
  keeps KeepsTracked
    (created ← tabsCreate url;
     modifyJs (fun g => set_createdTabIds ({[tab_id created]} ∪ createdTabIds g) g);;
     rest created).
Proof using Type.
  clear url_origin.
  intros Hrest w H. rewrite bind_run. unfold tabsCreate.
  destruct (creates (env w)) as [|[t|] tl]; cbn [fst snd].
  - apply (KeepsTracked_absorbs (EvTabsCreate url None)); [intros ? ? Hd; discriminate Hd|].
    exact H.
  - rewrite bind_run. unfold modifyJs at 1. cbn [fst snd].
    apply Hrest. intros u id Hin. cbn [trace js called createdTabIds set_createdTabIds] in *.
    apply elem_of_cons in Hin as [Hin|Hin].
    + injection Hin as _ ->. left. set_solver.
    + destruct (H u id Hin) as [Hreg|[r Hr]]; [left; set_solver|].
      right. exists r. right. exact Hr.
  - apply (KeepsTracked_absorbs (EvTabsCreate url None)); [intros ? ? Hd; discriminate Hd|].
    exact H.
Qed.

Lemma createPortalTab_tracked origin : keeps KeepsTracked (createPortalTab origin).
Proof using Type.
  clear url_origin.
  unfold createPortalTab.
  apply keeps_try_catch; [typeclasses eauto | | intros e; keeps_walk fail].
  apply (tabsCreate_registers_at_once origin).
  intros t. keeps_walk tracked_observer.
Qed.

Lemma closeCreatedTab_tracked submitRes : keeps KeepsTracked (closeCreatedTab submitRes).
Proof using Type.
  clear url_origin.
  intros w H. rewrite closeCreatedTab_run. cbn [snd]. unfold afterCloseCreatedTab.
  destruct (usedTabId submitRes) as [tid|]; [|exact H].
  destruct (negb (tid =? 0) && bool_decide (tid ∈ createdTabIds (js w))); [|exact H].
  intros url id Hin. cbn [trace js] in *.
  apply elem_of_cons in Hin as [Hin|Hin]; [discriminate Hin|].
  destruct (decide (id = tid)) as [->|Hne].
  { right. exists true. left. }
  destruct (H url id Hin) as [Hreg|[r Hr]].
  - left. destruct (bool_decide (probeTabId (js w) = Some tid)); cbn; set_solver.
  - right. exists r. right. exact Hr.
Qed.

Lemma detectRetries_tracked turns checkAttempt tabId detectResult :
  keeps KeepsTracked (detectRetries turns checkAttempt tabId detectResult).
Proof.
  revert checkAttempt detectResult.
  induction turns as [|turns IH]; intros checkAttempt detectResult; simpl.
  - keeps_walk fail.
  - keeps_walk ltac:(first [apply IH | tracked_observer]); tracked_side.
Qed.

Lemma checkAndLogin_tracked force : keeps KeepsTracked (checkAndLogin force).
Proof.
  unfold checkAndLogin, checkAndLoginTry, exclusively, attempt, remediate, afterSubmit,
    keepaliveShortCircuit, notifySuccess, clearInFlight, openPortalTabAndSubmit,
    connectivityGuard, acquirePortalTab, checkProbe, navigateProbe, injectAcrossFrames,
    connectivityGuard.
  keeps_walk ltac:(first [ apply createProbe_tracked | apply createPortalTab_tracked
                         | apply closeCreatedTab_tracked
                         | apply detectRetries_tracked
                         | tracked_observer ]);
    tracked_side.
Qed.

Lemma perform_tracked op w : TrackedInv w -> TrackedInv (perform op w).
Proof.
  destruct op as [msg|name]; cbn [perform].
  - revert w. change (keeps KeepsTracked (onMessage msg)).
    unfold onMessage, cacheConfig. keeps_walk ltac:(apply checkAndLogin_tracked); tracked_side.
  - revert w. change (keeps KeepsTracked (onAlarm name)).
    unfold onAlarm. keeps_walk ltac:(apply checkAndLogin_tracked); tracked_side.
Qed.

(** X30.  The registry is complete.  When the worker starts no tab is
    unaccounted for, and every sequence of operations keeps it so: a tab
    that [chrome.tabs.create] returned to the worker is in [createdTabIds]
    until the worker calls [chrome.tabs.remove] for it.  The worker never
    forgets a tab it opened (short of being restarted). *)
Theorem registry_tracks_every_created_tab :
  (forall b, TrackedInv (worldOf initialGlobals b)) /\
  (forall ops w, TrackedInv w -> TrackedInv (performAll ops w)).
Proof.
  split.
  - intros b url id Hin. apply not_elem_of_nil in Hin. contradiction.
  - unfold performAll. intros ops. induction ops as [|op ops IH]; intros w H; [exact H|].
    cbn [fold_left]. apply IH, perform_tracked, H.
Qed.

End Worker.

(** ** The field heuristics *)

(** C9, as the code has it.  The fallback of the injector is narrower than
    the criterion of the detector: it takes an input for the username only
    when its name, id or placeholder matches the pattern and, in addition,
    its type is text, email or absent; every such input is also a likely
    username for the detector (which asks for the pattern or the type). *)
Theorem injector_heuristic_narrower (i : Input) :
  Fields.injectorLikelyUser i = true ->
  Fields.detectorLikelyUser i = true /\
  regexTest true Fields.userPattern
    (i_name i +:+ " " +:+ i_id i +:+ " " +:+ i_placeholder i) = true /\
  (i_type i = "text" \/ i_type i = "email" \/ i_type i = "").
Proof.
  unfold Fields.injectorLikelyUser, Fields.detectorLikelyUser.
  intros H. apply andb_true_iff in H as [Hp Ht]. split; [|split].
  - rewrite (regexTest_ignoreCase_lower Fields.userPattern _ eq_refl Hp). reflexivity.
  - exact Hp.
  - apply orb_true_iff in Ht as [Ht|Ht]; [apply orb_true_iff in Ht as [Ht|Ht]|];
      apply String.eqb_eq in Ht; tauto.
Qed.

(** an email input that both heuristics accept *)
Lemma injector_heuristic_narrower_witness :
  Fields.injectorLikelyUser emailBox = true /\ Fields.detectorLikelyUser emailBox = true.
Proof.
  split; [reflexivity|].
  apply (injector_heuristic_narrower emailBox). reflexivity.
Defined.

(** C9, as stated, fails on a text input whose name does not match the
    pattern: the detector counts it, the injector's heuristic does not. *)
Lemma heuristics_differ_on_search_box :
  ~ (Fields.injectorLikelyUser searchBox = Fields.detectorLikelyUser searchBox).
Proof. vm_compute. discriminate. Qed.

(** On a form with a search box and a password, the detector reports the
    form as found; the injector's heuristic finds no username, and its last
    resort takes the search box. *)
Example injector_default_takes_search_box :
  let passwordBox :=
    {| i_name := "pw"; i_id := ""; i_type := "password"; i_placeholder := "" |} in
  Fields.frameFound [searchBox; passwordBox] = true /\
  Fields.jsFind Fields.injectorLikelyUser [searchBox; passwordBox] = None /\
  Fields.userCandidate [searchBox; passwordBox] = Some searchBox /\
  Fields.passCandidate [searchBox; passwordBox] = Some passwordBox.
Proof. repeat split; reflexivity. Qed.

(** ** Concrete runs *)

(** C1 on the code: nine failed attempts in a row, from the initial state,
    against a portal that never lets the worker through.  The sixth failure
    brings the backoff to 5; the seventh, entered with [backoffSeconds = 5]
    and six failures counted, doubles it to 10, and the backoff then cycles
    through 5, 10 and 16. *)
Theorem steady_retry_is_not_steady :
  backoffsAfter (fun w => (checkAndLogin http_origin false w).2) 9
    (worldOf (configured portalUrl) quietBrowser)
  = [2; 4; 8; 16; 32; 5; 10; 16; 5]
  /\ backoffSeconds
       (js (checkAndLogin http_origin false
              (worldOf (setFailedAttempts portalUrl 6 (backedOff portalUrl 5)) quietBrowser)).2)
     = 10
  /\ Backoff.friendlyBackoff 5 7 = 10.
Proof. repeat split; vm_compute; reflexivity. Qed.

(** a forced call with [backoffSeconds = 2], nothing scripted *)
Lemma backoff_wait_ignores_force_witness :
  exists l1 l2,
    trace (checkAndLogin http_origin true (worldOf (backedOff portalUrl 2) quietBrowser)).2
      = l2 ++ EvSleep 2000 :: l1 ++ [] /\
    Forall probing l1 /\
    (true = true -> l1 = []).
Proof.
  apply (backoff_wait_ignores_force http_origin true
           (worldOf (backedOff portalUrl 2) quietBrowser) (sampleConfig portalUrl)).
  - reflexivity.
  - reflexivity.
  - reflexivity.
  - left. reflexivity.
Defined.

(** C2, as stated, fails: a forced call made while [backoffSeconds] is 2
    sleeps 2000 ms like any other. *)
Lemma forced_attempt_waits :
  ~ (EvSleep (backoffSeconds (backedOff portalUrl 2) * 1000)
     ∉ trace (checkAndLogin http_origin true (worldOf (backedOff portalUrl 2) quietBrowser)).2).
Proof.
  intros H. apply H. vm_compute. repeat constructor.
Qed.

(** a forced call while the probe answers 204, no tab open *)
Lemma forced_call_while_up_witness :
  (checkAndLogin http_origin true (worldOf (configured portalUrl) onlineBrowser)).1 = Ret true /\
  (exists origin,
     EvOrchestrator origin
     ∈ [EvNotify NoticeSucceeded; EvFetch; EvFetch; EvOrchestrator portalUrl; EvTabsQuery]) /\
  Forall leavesTabsAlone
    [EvNotify NoticeSucceeded; EvFetch; EvFetch; EvOrchestrator portalUrl; EvTabsQuery] /\
  failedAttemptsOf portalUrl
    (js (checkAndLogin http_origin true (worldOf (configured portalUrl) onlineBrowser)).2) = 0.
Proof.
  apply (forced_call_while_up http_origin
           (worldOf (configured portalUrl) onlineBrowser) (sampleConfig portalUrl) []).
  - reflexivity.
  - reflexivity.
  - reflexivity.
  - vm_compute. reflexivity.
  - intros origin H.
    repeat (apply elem_of_cons in H as [H|H]; [discriminate H|]).
    apply not_elem_of_nil in H. exact H.
Defined.

(** C3, as stated, fails: a forced call made while the probe answers 204
    enters [openPortalTabAndSubmit], and [backoffSeconds] goes from 0 to 2. *)
Lemma forced_call_while_up_enters_orchestrator :
  ~ ((forall origin,
        EvOrchestrator origin
        ∉ trace (checkAndLogin http_origin true (worldOf (configured portalUrl) onlineBrowser)).2)
     /\ backoffSeconds
          (js (checkAndLogin http_origin true (worldOf (configured portalUrl) onlineBrowser)).2)
        = backoffSeconds (configured portalUrl)).
Proof.
  intros [H _]. apply (H portalUrl). vm_compute. repeat constructor.
Qed.

(** C4 on the code: the portal page has no login form, so
    [openPortalTabAndSubmit] fails after opening the probe tab 7, and the
    last probe finds the internet up.  The call returns [true] with the
    failure counter at 0, but [backoffSeconds] stays at the escalated 2 and
    tab 7 is neither closed nor taken out of [createdTabIds]. *)
Theorem recovery_after_failure_is_not_the_success_branch :
  (checkAndLogin http_origin false (worldOf (configured portalUrl) recoveringBrowser)).1
    = Ret true /\
  backoffSeconds
    (js (checkAndLogin http_origin false (worldOf (configured portalUrl) recoveringBrowser)).2)
    = 2 /\
  failedAttemptsByOrigin
    (js (checkAndLogin http_origin false (worldOf (configured portalUrl) recoveringBrowser)).2)
    !! portalUrl = Some 0 /\
  elements (createdTabIds
    (js (checkAndLogin http_origin false (worldOf (configured portalUrl) recoveringBrowser)).2))
    = [7] /\
  actions
    (trace (checkAndLogin http_origin false (worldOf (configured portalUrl) recoveringBrowser)).2)
    = [EvNotify NoticeSucceeded; EvTabsReload 7;
       EvTabsUpdate 7 (Some portalUrl); EvTabsQuery;
       EvTabsCreate PROBE_URL (Some 7); EvTabsQuery;
       EvOrchestrator portalUrl; EvTabsQuery].
Proof. repeat split; vm_compute; reflexivity. Qed.

(** [chrome.tabs.query] rejects inside [openPortalTabAndSubmit]: the
    exception leaves the outer [try] block, the call returns [false] and the
    origin is not in flight *)
Lemma checkAndLogin_clears_in_flight_witness :
  (checkAndLoginTry http_origin true (worldOf (configured portalUrl) brokenBrowser)).1
    = Throw "Error: tabs.query" /\
  (checkAndLogin http_origin true (worldOf (configured portalUrl) brokenBrowser)).1 = Ret false /\
  portalUrl
  ∉ inFlightOrigins
      (js (checkAndLogin http_origin true (worldOf (configured portalUrl) brokenBrowser)).2).
Proof.
  split; [vm_compute; reflexivity|].
  split; [vm_compute; reflexivity|].
  apply (proj2 (proj2 (proj2 (checkAndLogin_clears_in_flight http_origin true
                                (worldOf (configured portalUrl) brokenBrowser))))
           (sampleConfig portalUrl)).
  - reflexivity.
  - reflexivity.
  - left. reflexivity.
Defined.

(** a periodic call while the portal is offline, a backoff of 2 s is left
    from earlier failures, and a tab at the origin shows a keepalive page *)
Lemma keepalive_page_forces_backoff_5_witness :
  keepaliveSession http_origin false (sampleConfig portalUrl)
    (worldOf (backedOff portalUrl 2) keepaliveTextBrowser) /\
  (checkAndLogin http_origin false (worldOf (backedOff portalUrl 2) keepaliveTextBrowser)).1
    = Ret false /\
  backoffSeconds
    (js (checkAndLogin http_origin false (worldOf (backedOff portalUrl 2) keepaliveTextBrowser)).2)
    = 5 /\
  failedAttemptsByOrigin
    (js (checkAndLogin http_origin false (worldOf (backedOff portalUrl 2) keepaliveTextBrowser)).2)
    = failedAttemptsByOrigin (backedOff portalUrl 2) /\
  actions
    (trace (checkAndLogin http_origin false (worldOf (backedOff portalUrl 2) keepaliveTextBrowser)).2)
    = [EvKeepalive portalUrl; EvTabsQuery].
Proof.
  assert (K : keepaliveSession http_origin false (sampleConfig portalUrl)
                (worldOf (backedOff portalUrl 2) keepaliveTextBrowser)).
  { split.
    - split; [right; split|right]; [reflexivity | | reflexivity].
      vm_compute. intros H. discriminate H.
    - exists [tabAt 2 "http://example.org/"; tabAt 3 "http://172.16.2.1:1000/status"], [],
        (tabAt 3 "http://172.16.2.1:1000/status").
      repeat split; vm_compute; reflexivity. }
  destruct (proj1 (keepalive_page_forces_backoff_5 http_origin false
                     (worldOf (backedOff portalUrl 2) keepaliveTextBrowser)
                     (sampleConfig portalUrl) eq_refl eq_refl) K)
    as (R & B & Fa & _).
  split; [exact K|]. split; [exact R|]. split; [exact B|]. split; [exact Fa|].
  vm_compute. reflexivity.
Defined.

(** from the start of the worker: the popup saves the configuration and asks
    for a login; the worker opens probe tab 7, logs in through it and closes
    it again *)
Lemma registry_invariant_preserved_witness :
  RegistryInv (worldOf initialGlobals portalBrowser) /\
  RegistryInv
    (perform http_origin (OpMessage MsgDoLoginNow)
       (perform http_origin (OpMessage (MsgSetPlainConfig (Some (sampleConfig portalUrl))))
          (worldOf initialGlobals portalBrowser))) /\
  actions
    (trace
       (perform http_origin (OpMessage MsgDoLoginNow)
          (perform http_origin (OpMessage (MsgSetPlainConfig (Some (sampleConfig portalUrl))))
             (worldOf initialGlobals portalBrowser))))
  = [EvTabsRemove 7 true; EvNotify NoticeSucceeded; EvInjectScript 7; EvTabsQuery;
     EvTabsCreate PROBE_URL (Some 7); EvTabsQuery; EvOrchestrator portalUrl; EvTabsQuery].
Proof.
  split; [apply (proj1 (registry_invariant_preserved http_origin))|].
  split; [|vm_compute; reflexivity].
  apply (proj1 (proj2 (registry_invariant_preserved http_origin))).
  apply (proj1 (proj2 (registry_invariant_preserved http_origin))).
  apply (proj1 (registry_invariant_preserved http_origin)).
Defined.

(** a forced call for another origin while [backoffSeconds = 2] *)
Lemma counters_per_origin_backoff_shared_witness :
  (forall k, k <> otherUrl ->
     failedAttemptsByOrigin
       (js (checkAndLogin http_origin true (worldOf (backedOff otherUrl 2) quietBrowser)).2) !! k
       = failedAttemptsByOrigin (js (worldOf (backedOff otherUrl 2) quietBrowser)) !! k /\
     (k ∈ inFlightOrigins
            (js (checkAndLogin http_origin true (worldOf (backedOff otherUrl 2) quietBrowser)).2)
      <-> k ∈ inFlightOrigins (js (worldOf (backedOff otherUrl 2) quietBrowser)))) /\
  (true = true ->
   truthy (Some otherUrl) = true ->
   0 < 2 ->
   exists l,
     trace (checkAndLogin http_origin true (worldOf (backedOff otherUrl 2) quietBrowser)).2
     = l ++ EvSleep 2000 :: []).
Proof.
  apply (counters_per_origin_backoff_shared http_origin true
           (worldOf (backedOff otherUrl 2) quietBrowser) (sampleConfig otherUrl)).
  reflexivity.
Defined.

(** C8, as stated, fails: after one failed attempt for the portal origin the
    configuration is switched to another origin, which has never failed; the
    backoff that the failure left is waited out before the attempt for the
    new origin. *)
Lemma backoff_leaks_across_origins :
  ~ (originKeyOf http_origin (sampleConfig portalUrl)
       <> originKeyOf http_origin (sampleConfig otherUrl) ->
     EvSleep 2000
     ∉ trace (checkAndLogin http_origin true
                (worldOf
                   (js (onMessage http_origin (MsgSetPlainConfig (Some (sampleConfig otherUrl)))
                          (checkAndLogin http_origin false
                             (worldOf (configured portalUrl) quietBrowser)).2).2)
                   quietBrowser)).2).
Proof.
  intros H. apply H; [vm_compute; discriminate|]. vm_compute. repeat constructor.
Qed.


(** ** The field heuristics, continued *)

Lemma injectorLikelyUser_not_password i :
  Fields.injectorLikelyUser i = true -> Fields.isPasswordInput i = false.
Proof.
  unfold Fields.injectorLikelyUser, Fields.isPasswordInput. intros H.
  apply andb_true_iff in H as [_ H].
  apply orb_true_iff in H as [H|H]; [apply orb_true_iff in H as [H|H]|];
    apply String.eqb_eq in H; rewrite H; reflexivity.
Qed.

Lemma jsFind_some {A} (p : A -> bool) l x :
  Fields.jsFind p l = Some x -> x ∈ l /\ p x = true.
Proof.
  unfold Fields.jsFind. intros H. apply find_some in H as [Hin Hp].
  split; [apply list_elem_of_In, Hin | exact Hp].
Qed.

Lemma jsFind_none {A} (p : A -> bool) l x :
  Fields.jsFind p l = None -> x ∈ l -> p x = false.
Proof.
  unfold Fields.jsFind. intros H Hin. apply (find_none _ _ H). apply list_elem_of_In, Hin.
Qed.

Lemma userCandidate_none_nil inputs : Fields.userCandidate inputs = None -> inputs = [].
Proof.
  unfold Fields.userCandidate.
  destruct (Fields.jsFind Fields.injectorLikelyUser inputs) as [i|]; [discriminate|].
  destruct inputs as [|first rest]; [reflexivity|].
  destruct (Fields.jsFind (fun i => negb (Fields.isPasswordInput i)) (first :: rest));
    intros Hd; discriminate Hd.
Qed.

Lemma userCandidate_in inputs u : Fields.userCandidate inputs = Some u -> u ∈ inputs.
Proof.
  unfold Fields.userCandidate.
  destruct (Fields.jsFind Fields.injectorLikelyUser inputs) as [i|] eqn:E1.
  - intros [= <-]. apply jsFind_some in E1 as [Hin _]. exact Hin.
  - destruct inputs as [|first rest]; [discriminate|].
    destruct (Fields.jsFind (fun i => negb (Fields.isPasswordInput i)) (first :: rest))
      as [i|] eqn:E2; intros [= <-].
    + apply jsFind_some in E2 as [Hin _]. exact Hin.
    + left.
Qed.

(** X26.  The choice of the username field by the injector's fallback:
    there is a candidate as soon as the document has an input; the candidate
    is an input of the document; and it is an input of type password only
    when every input of the document is one (the username is then typed into
    the first of them). *)
Theorem userCandidate_avoids_password_inputs inputs :
  (Fields.userCandidate inputs = None <-> inputs = []) /\
  forall u,
    Fields.userCandidate inputs = Some u ->
    u ∈ inputs /\
    (Fields.isPasswordInput u = true ->
     Forall (fun i => Fields.isPasswordInput i = true) inputs /\ head inputs = Some u).
Proof.
  unfold Fields.userCandidate. split.
  - destruct (Fields.jsFind Fields.injectorLikelyUser inputs) as [i|] eqn:E1.
    + split; [discriminate|]. intros ->. discriminate E1.
    + destruct inputs as [|first rest]; [split; reflexivity|].
      destruct (Fields.jsFind (fun i => negb (Fields.isPasswordInput i)) (first :: rest));
        split; intros Hd; discriminate Hd.
  - intros u. destruct (Fields.jsFind Fields.injectorLikelyUser inputs) as [i|] eqn:E1.
    + intros [= <-]. apply jsFind_some in E1 as [Hin Hp]. split; [exact Hin|].
      intros Hpw. rewrite (injectorLikelyUser_not_password _ Hp) in Hpw. discriminate Hpw.
    + destruct inputs as [|first rest]; [discriminate|].
      destruct (Fields.jsFind (fun i => negb (Fields.isPasswordInput i)) (first :: rest))
        as [i|] eqn:E2; intros [= <-].
      * apply jsFind_some in E2 as [Hin Hp]. split; [exact Hin|].
        intros Hpw. rewrite Hpw in Hp. discriminate Hp.
      * split; [left|]. intros _. split; [|reflexivity].
        apply Forall_forall. intros i Hin.
        pose proof (jsFind_none _ _ i E2 Hin) as Hn. apply negb_false_iff in Hn. exact Hn.
Qed.

(** X27.  The detector and the injector agree on what they need: whenever
    the detection script reports a document as found (a password input and a
    likely username), the fallback of the injection script finds both of its
    candidates in the same inputs, the password candidate being the first
    input of type password. *)
Theorem found_frame_has_both_candidates inputs :
  Fields.frameFound inputs = true ->
  exists u p,
    Fields.userCandidate inputs = Some u /\
    Fields.passCandidate inputs = Some p /\
    u ∈ inputs /\ p ∈ inputs /\
    Fields.isPasswordInput p = true.
Proof.
  unfold Fields.frameFound, Fields.hasPass. intros H.
  apply andb_true_iff in H as [Hp _]. apply existsb_exists in Hp as (x & Hin & Hx).
  destruct (Fields.passCandidate inputs) as [p|] eqn:Ep.
  2:{ unfold Fields.passCandidate in Ep. apply list_elem_of_In in Hin.
      rewrite (jsFind_none _ _ x Ep Hin) in Hx. discriminate Hx. }
  destruct (Fields.userCandidate inputs) as [u|] eqn:Eu.
  2:{ apply userCandidate_none_nil in Eu. subst inputs. destruct Hin. }
  unfold Fields.passCandidate in Ep. apply jsFind_some in Ep as [Hpin Hpp].
  exists u, p. split; [reflexivity|]. split; [reflexivity|].
  split; [apply (userCandidate_in inputs u Eu)|]. split; assumption.
Qed.

(** ** Concrete runs for the further properties *)

(** a periodic check while the probe answers 204 *)
(** a tab at the portal origin whose page says, in mixed case, that the
    session is kept alive *)
Lemma isKeepaliveTab_verdict_witness :
  isKeepaliveTab (tabAt 3 "http://172.16.2.1:1000/status")
    (worldOf (configured portalUrl) keepaliveTextBrowser)
  = (Ret true,
     called (with_keepalives [] keepaliveTextBrowser) (EvKeepaliveScript 3)
       (worldOf (configured portalUrl) keepaliveTextBrowser)).
Proof.
  apply (isKeepaliveTab_verdict (tabAt 3 "http://172.16.2.1:1000/status")
           (worldOf (configured portalUrl) keepaliveTextBrowser)).
  - intros u [= <-]. vm_compute. reflexivity.
  - intros text [= <-]. vm_compute. reflexivity.
Defined.

Lemma nonforced_call_reduces_to_probe_witness :
  checkAndLogin http_origin false onlineWorld = isInternetUp 2000 onlineWorld /\
  js (checkAndLogin http_origin false onlineWorld).2 = js onlineWorld.
Proof.
  apply (nonforced_call_reduces_to_probe http_origin onlineWorld).
  left. reflexivity.
Defined.

(** the worker right after its start: locked *)
Lemma no_configuration_locked_witness :
  checkAndLogin http_origin true freshWorld
  = (Ret false, {| js := js freshWorld; env := env freshWorld;
                   trace := EvNotify NoticeLocked :: trace freshWorld |}).
Proof.
  apply (proj1 (no_configuration_locked http_origin freshWorld eq_refl)).
Defined.

(** a forced call with a configuration that has no login URL *)
Lemma missing_loginUrl_is_silent_witness :
  checkAndLogin http_origin true noUrlWorld
  = (Ret (negb true && probeResult (fetches (env noUrlWorld))), noUrlWorld).
Proof.
  apply (missing_loginUrl_is_silent http_origin true noUrlWorld noUrlConfig).
  - reflexivity.
  - reflexivity.
Defined.

(** an alarm, a forced login, a portal page and an unknown message, offline *)
Lemma configuration_kept_until_cleared_witness :
  cachedConfig
    (js (performAll http_origin
           [OpAlarm "checkConn"; OpMessage MsgDoLoginNow;
            OpMessage (MsgPageIsPortal portalUrl); OpMessage MsgOther]
           (worldOf (configured portalUrl) quietBrowser)))
  = cachedConfig (js (worldOf (configured portalUrl) quietBrowser)).
Proof.
  apply (configuration_kept_until_cleared http_origin).
  reflexivity.
Defined.

(** a portal page of another network *)
Lemma foreign_message_is_ignored_witness :
  exists reason,
    onMessage http_origin (MsgPageIsPortal otherUrl) (worldOf (configured portalUrl) quietBrowser)
    = (Ret {| resp_ok := false; resp_error := reason |},
       worldOf (configured portalUrl) quietBrowser) /\
    reason <> "".
Proof.
  apply (foreign_message_is_ignored http_origin).
  right. exists otherUrl. split; [reflexivity|].
  intros cfg Hc. injection Hc as <-. vm_compute. discriminate.
Defined.

(** the step from 16 with three failures counted *)
Lemma friendlyBackoff_bounds_witness :
  2 <= Backoff.friendlyBackoff 16 3 <= 60 /\
  (3 < 6 ->
   16 <= Backoff.friendlyBackoff 16 3 /\
   (16 < 60 -> 16 < Backoff.friendlyBackoff 16 3)) /\
  (Backoff.friendlyBackoff 16 3 < 16 ->
   6 <= 3 /\ 16 <= 16 /\ Backoff.friendlyBackoff 16 3 = 5).
Proof. apply (friendlyBackoff_bounds 16 3). lia. Defined.

(** the step from 32 *)
Lemma stillDownBackoff_bounds_witness :
  2 <= Backoff.stillDownBackoff 32 <= 16 /\
  (32 < 16 -> 32 < Backoff.stillDownBackoff 32) /\
  (16 <= 32 -> Backoff.stillDownBackoff 32 = 16) /\
  (forall attempts, attempts < 6 ->
     Backoff.stillDownBackoff 32 <= Backoff.friendlyBackoff 32 attempts).
Proof. apply (stillDownBackoff_bounds 32). lia. Defined.

(** the login went through the probe tab 7 and the probe answers 204 *)
Lemma login_succeeded_resets_and_cleans_witness :
  (afterSubmit portalUrl usedProbe (worldOf probeOpen onlineBrowser)).1 = Ret true /\
  backoffSeconds (js (afterSubmit portalUrl usedProbe (worldOf probeOpen onlineBrowser)).2) = 0 /\
  (exists l, trace (afterSubmit portalUrl usedProbe (worldOf probeOpen onlineBrowser)).2
             = EvTabsRemove 7 true :: l) /\
  (7 ∉ createdTabIds (js (afterSubmit portalUrl usedProbe (worldOf probeOpen onlineBrowser)).2)).
Proof.
  destruct (login_succeeded_resets_and_cleans portalUrl usedProbe
              (worldOf probeOpen onlineBrowser) eq_refl eq_refl)
    as (R & B & _ & _ & _ & T & _).
  split; [exact R|]. split; [exact B|].
  apply (T 7).
  - reflexivity.
  - lia.
  - vm_compute. reflexivity.
Defined.

(** the form was submitted but the portal does not let the worker through *)
Lemma login_submitted_but_still_down_witness :
  (afterSubmit portalUrl usedProbe (worldOf probeOpen quietBrowser)).1 = Ret false /\
  backoffSeconds (js (afterSubmit portalUrl usedProbe (worldOf probeOpen quietBrowser)).2)
  = Backoff.stillDownBackoff 4 /\
  createdTabIds (js (afterSubmit portalUrl usedProbe (worldOf probeOpen quietBrowser)).2)
  = createdTabIds probeOpen.
Proof.
  destruct (login_submitted_but_still_down portalUrl usedProbe
              (worldOf probeOpen quietBrowser) eq_refl eq_refl)
    as (R & B & _ & C & _).
  split; [exact R|]. split; [exact B | exact C].
Defined.

(** no login form was found and the internet stays down *)
Lemma failed_attempt_is_counted_once_witness :
  (afterSubmit portalUrl (failed "fields_not_found_in_all_frames" None)
     (worldOf (backedOff portalUrl 2) quietBrowser)).1 = Ret false /\
  failedAttemptsOf portalUrl
    (js (afterSubmit portalUrl (failed "fields_not_found_in_all_frames" None)
           (worldOf (backedOff portalUrl 2) quietBrowser)).2)
  = failedAttemptsOf portalUrl (backedOff portalUrl 2) + 1 /\
  backoffSeconds
    (js (afterSubmit portalUrl (failed "fields_not_found_in_all_frames" None)
           (worldOf (backedOff portalUrl 2) quietBrowser)).2)
  = Backoff.friendlyBackoff 2 (failedAttemptsOf portalUrl (backedOff portalUrl 2) + 1).
Proof.
  destruct (failed_attempt_is_counted_once portalUrl
              (failed "fields_not_found_in_all_frames" None)
              (worldOf (backedOff portalUrl 2) quietBrowser) eq_refl eq_refl)
    as (R & F & _ & B & _).
  split; [exact R|]. split; [exact F | exact B].
Defined.

(** the portal page is open in tab 3 *)
Lemma open_portal_tab_is_reused_witness :
  exists r l w',
    openPortalTabAndSubmit http_origin (sampleConfig portalUrl)
      (worldOf (configured portalUrl) reuseBrowser) = (Ret r, w') /\
    usedTabId r = None /\
    js w' = configured portalUrl /\
    trace w'
    = l ++ [EvTabsUpdate 3 None; EvTabsQuery; EvFetch; EvSleep 300; EvFetch;
            EvOrchestrator portalUrl] /\
    Forall (working 3) l.
Proof.
  apply (open_portal_tab_is_reused http_origin (sampleConfig portalUrl)
           (worldOf (configured portalUrl) reuseBrowser)
           [tabAt 3 "http://172.16.2.1:1000/login"] []
           (tabAt 3 "http://172.16.2.1:1000/login")).
  - reflexivity.
  - reflexivity.
  - reflexivity.
Defined.


(** the third request gets through while the worker waits out a backoff of 2 s *)
Lemma recovered_during_wait_witness :
  (checkAndLogin http_origin false (worldOf (backedOff portalUrl 2) recoveringSoon)).1
  = Ret true /\
  js (checkAndLogin http_origin false (worldOf (backedOff portalUrl 2) recoveringSoon)).2
  = backedOff portalUrl 2.
Proof.
  destruct (recovered_during_wait http_origin (worldOf (backedOff portalUrl 2) recoveringSoon)
              (sampleConfig portalUrl)) as (R & J & _).
  - reflexivity.
  - reflexivity.
  - vm_compute. intros H. discriminate H.
  - reflexivity.
  - reflexivity.
  - split; [exact R | exact J].
Defined.

(** a login form with a username and a password field *)
Lemma found_frame_has_both_candidates_witness :
  exists u p,
    Fields.userCandidate loginInputs = Some u /\
    Fields.passCandidate loginInputs = Some p /\
    u ∈ loginInputs /\ p ∈ loginInputs /\
    Fields.isPasswordInput p = true.
Proof. apply (found_frame_has_both_candidates loginInputs). reflexivity. Defined.

(** a forced login and, a minute later, the periodic check *)
Lemma success_notifications_are_throttled_witness :
  exists l,
    trace (performTimed http_origin
             [(0, OpMessage MsgDoLoginNow); (60000, OpAlarm "checkConn")]
             (worldOf (configured portalUrl) portalBrowser))
    = l ++ trace (worldOf (configured portalUrl) portalBrowser) /\
    ((2 <= count isSuccessNotice l)%nat ->
     NOTIFY_SUCCESS_COOLDOWN_MS
     < now (env (performTimed http_origin
                   [(0, OpMessage MsgDoLoginNow); (60000, OpAlarm "checkConn")]
                   (worldOf (configured portalUrl) portalBrowser)))
       - now (env (worldOf (configured portalUrl) portalBrowser))) /\
    ((1 <= count isSuccessNotice l)%nat ->
     lastNotified portalUrl (worldOf (configured portalUrl) portalBrowser)
     + NOTIFY_SUCCESS_COOLDOWN_MS
     < lastNotified portalUrl
         (performTimed http_origin
            [(0, OpMessage MsgDoLoginNow); (60000, OpAlarm "checkConn")]
            (worldOf (configured portalUrl) portalBrowser))) /\
    (count isSuccessNotice l = 0%nat ->
     lastNotified portalUrl
       (performTimed http_origin
          [(0, OpMessage MsgDoLoginNow); (60000, OpAlarm "checkConn")]
          (worldOf (configured portalUrl) portalBrowser))
     = lastNotified portalUrl (worldOf (configured portalUrl) portalBrowser)).
Proof.
  apply (success_notifications_are_throttled http_origin portalUrl).
  - intros cfg Hc. injection Hc as <-. reflexivity.
  - repeat constructor; cbn; lia.
Defined.
